(** * services/outside_network.c: sending queries over UDP and waiting for
      the pending answers.

    A shallow embedding of the outbound query dispatcher together with
    the properties its specification states about it.

    Conventions
    - C integers are [Z]; conversions between integer types are written
      out ([to_unsigned], [to_int], [to_short], [to_size_t]).
    - [struct sockaddr_storage] is its byte image ([list Z], one entry per
      byte), read through the Linux little-endian layout of
      [struct sockaddr_in] and [struct sockaddr_in6].
    - Heap objects ([struct pending], the dispatcher) live in a [world];
      every function is a state transformer on the world and every
      externally observable action is appended to the world's trace.
    - What the operating system, the allocator and the reactor answer is
      read from an [environment], indexed by the number of questions
      asked so far. *)

From stdpp Require Import gmap strings list fin_maps.
From Stdlib Require Import ZArith Lia.

Open Scope Z_scope.

(** ** Constants *)

(** number of times to retry making a random ID that is unique. *)
Definition MAX_ID_RETRY : Z := 1000.
(** byte size of ip4 address *)
Definition INET_SIZE : nat := 4.
(** byte size of ip6 address *)
Definition INET6_SIZE : nat := 16.

(** Address families, with their Linux values (<sys/socket.h>). *)
Definition AF_UNSPEC : Z := 0.
Definition AF_INET : Z := 2.
Definition AF_INET6 : Z := 10.

(** Status codes handed to callbacks (util/netevent.h). *)
Definition NETEVENT_NOERROR : Z := 0.
Definition NETEVENT_CLOSED : Z := -1.
Definition NETEVENT_TIMEOUT : Z := -2.

Definition INT_MAX : Z := 2147483647.
Definition RAND_MAX : Z := 2147483647.

(** ** Integer conversions *)

(** [(unsigned)x] for a 32-bit unsigned. *)
Definition to_unsigned (x : Z) : Z := x mod 2 ^ 32.

(** [(int)x]: the two's complement reading of the low 32 bits. *)
Definition to_int (x : Z) : Z :=
  let r := x mod 2 ^ 32 in if r <? 2 ^ 31 then r else r - 2 ^ 32.

(** [(short)x]: the two's complement reading of the low 16 bits. *)
Definition to_short (x : Z) : Z :=
  let r := x mod 2 ^ 16 in if r <? 2 ^ 15 then r else r - 2 ^ 16.

(** Arithmetic in [size_t] (64 bits) wraps around. *)
Definition to_size_t (x : Z) : Z := x mod 2 ^ 64.

(** ** Socket addresses as bytes *)

Definition sockaddr_storage := list Z.

(** [sizeof(struct sockaddr_storage)] *)
Definition SOCKADDR_STORAGE_SIZE : nat := 128.

Definition byte_at (a : list Z) (i : nat) : Z := nth i a 0.

(** A 16-bit field read in host (little-endian) order. *)
Definition load16 (a : list Z) (off : nat) : Z :=
  byte_at a off + 256 * byte_at a (S off).

(** [((struct sockaddr_in* )a)->sin_family], at offset 0;
    [sin6_family] is the same field. *)
Definition sin_family (a : sockaddr_storage) : Z := load16 a 0.
(** [sin_port] and [sin6_port], at offset 2, as stored (no ntohs). *)
Definition sin_port (a : sockaddr_storage) : Z := load16 a 2.
(** Offsets of [sin_addr] and [sin6_addr]. *)
Definition SIN_ADDR_OFF : nat := 4.
Definition SIN6_ADDR_OFF : nat := 8.

(** The [n] bytes of [a] from offset [off]. *)
Definition bytes_at (a : list Z) (off n : nat) : list Z :=
  map (byte_at a) (seq off n).

(** libc [memcmp] over [n] bytes from offset [off] of both objects: the
    difference of the first pair of bytes that differ, 0 when none do. *)
Fixpoint memcmp (a b : list Z) (off n : nat) : Z :=
  match n with
  | O => 0
  | S n' =>
      if byte_at a off =? byte_at b off then memcmp a b (S off) n'
      else byte_at a off - byte_at b off
  end.

(** libc [memcpy (dst, src, n)]: the first [n] bytes of [dst] are replaced
    by those of [src], the others keep their contents. *)
Definition memcpy (dst src : list Z) (n : nat) : list Z :=
  bytes_at src 0 n ++ drop n dst.

(** ** The pending query record *)

Definition comm_point := nat.
Definition callback := nat.

(** [struct comm_timer], as far as this file uses it: whether the timer is
    set, and for how many seconds. *)
Record comm_timer := { tm_timeout : option Z }.

(** The one dispatcher of a world is referred to by [the_outnet]; a
    NULL [struct outside_network*] is [None]. *)
Inductive outnet_ref := the_outnet.

(** [struct pending].  The tree node [node] is the first member, and its
    key is the record itself. *)
Record pending := {
  pend_id : Z;                       (* uint16_t id *)
  pend_addr : sockaddr_storage;      (* struct sockaddr_storage addr *)
  pend_addrlen : Z;                  (* socklen_t addrlen *)
  pend_c : option comm_point;        (* struct comm_point* c *)
  pend_timer : option comm_timer;    (* struct comm_timer* timer *)
  pend_cb : callback;                (* comm_point_callback_t* cb *)
  pend_cb_arg : Z;                   (* void* cb_arg *)
  pend_outnet : option outnet_ref    (* struct outside_network* outnet *)
}.

(** ** pending_cmp *)

(** compare function of pending rbtree *)
Definition pending_cmp (p1 p2 : pending) : Z :=
  if pend_id p1 <? pend_id p2 then -1
  else if pend_id p1 >? pend_id p2 then 1
  else if pend_addrlen p1 <? pend_addrlen p2 then -1
  else if pend_addrlen p1 >? pend_addrlen p2 then 1
  else if sin_family (pend_addr p1) <? sin_family (pend_addr p2) then -1
  else if sin_family (pend_addr p1) >? sin_family (pend_addr p2) then 1
  else if sin_family (pend_addr p1) =? AF_INET then
    (* just order it, ntohs not required *)
    if sin_port (pend_addr p1) <? sin_port (pend_addr p2) then -1
    else if sin_port (pend_addr p1) >? sin_port (pend_addr p2) then 1
    else memcmp (pend_addr p1) (pend_addr p2) SIN_ADDR_OFF INET_SIZE
  else if sin_family (pend_addr p1) =? AF_INET6 then
    if sin_port (pend_addr p1) <? sin_port (pend_addr p2) then -1
    else if sin_port (pend_addr p1) >? sin_port (pend_addr p2) then 1
    else memcmp (pend_addr p1) (pend_addr p2) SIN6_ADDR_OFF INET6_SIZE
  else
    (* eek unknown type, perform this comparison for sanity. *)
    memcmp (pend_addr p1) (pend_addr p2) 0 (Z.to_nat (pend_addrlen p1)).

(** *** The key order as the specification words it

    The key tuple is [id], [addrlen], [family], then for the two known
    families the port and the raw address bytes (4 or 16), and for any
    other family the [addrlen] bytes of the address storage. *)
Definition key_tuple (p : pending) : list Z :=
  pend_id p :: pend_addrlen p :: sin_family (pend_addr p) ::
  (if sin_family (pend_addr p) =? AF_INET then
     sin_port (pend_addr p) :: bytes_at (pend_addr p) SIN_ADDR_OFF INET_SIZE
   else if sin_family (pend_addr p) =? AF_INET6 then
     sin_port (pend_addr p) :: bytes_at (pend_addr p) SIN6_ADDR_OFF INET6_SIZE
   else bytes_at (pend_addr p) 0 (Z.to_nat (pend_addrlen p))).

(** Lexicographic comparison of two tuples, component by component. *)
Fixpoint lex_compare (k1 k2 : list Z) : comparison :=
  match k1, k2 with
  | [], [] => Eq
  | [], _ :: _ => Lt
  | _ :: _, [] => Gt
  | x :: k1', y :: k2' =>
      match x ?= y with
      | Eq => lex_compare k1' k2'
      | o => o
      end
  end.

(** The sign of a C comparison result. *)
Definition sign_of (r : Z) : comparison := r ?= 0.

(** ** Observable actions and the environment *)

Definition ptr := nat.

Inductive log_kind := LOG_ERR | LOG_INFO | VERB_DETAIL | VERB_ALGO.

(** The hints handed to [getaddrinfo]. *)
Record addrinfo := {
  ai_flags : Z;
  ai_family : Z;
  ai_socktype : Z
}.

Definition AI_PASSIVE : Z := 1.
Definition AI_NUMERICHOST : Z := 4.
Definition SOCK_DGRAM : Z := 2.

(** What the dispatcher does to the outside, in the order it does it. *)
Inductive event :=
| EvLog (k : log_kind) (msg : string) (args : list Z)
| EvLogAddr (addr : sockaddr_storage) (addrlen : Z)
| EvCallback (cb : callback) (c : option comm_point) (cb_arg : Z) (error : Z)
| EvSend (c : option comm_point) (packet : list Z)
         (addr : sockaddr_storage) (addrlen : Z)
| EvTimerSet (p : ptr) (sec : Z)
| EvTimerDisable (p : ptr)
| EvTimerDelete (p : ptr)
| EvGetaddrinfo (ifname : option string) (port : option Z) (hints : addrinfo)
| EvCreateUdpSock (fd : Z)
| EvCommPointCreate (fd : Z) (c : option comm_point)
| EvCommPointDelete (c : option comm_point)
| EvFreeOutnet.

(** The answers of everything this file calls but does not define.  The
    fields indexed by [nat] give the answer to the n-th question asked. *)
Record environment := {
  (* calloc, ldns_buffer_new, rbtree_create, comm_timer_create: success? *)
  env_alloc : nat -> bool;
  (* getaddrinfo: return code and whether a result list came back *)
  env_getaddrinfo : nat -> Z * bool;
  (* create_udp_sock: the descriptor, or -1 *)
  env_create_udp_sock : nat -> Z;
  (* comm_point_create_udp: the new comm point, or NULL *)
  env_comm_point_create_udp : nat -> option comm_point;
  (* comm_point_send_udp_msg: nonzero on success *)
  env_send_udp_msg : nat -> bool;
  (* ub_random: the successive random words *)
  env_random : nat -> Z;
  (* (int)((double)r * (double)nummax / ((double)RAND_MAX + 1.0)) *)
  env_double_index : Z -> Z -> Z;
  (* str_is_ip6 of util/net_help.c *)
  env_str_is_ip6 : string -> bool;
  (* whether INET6 is defined at build time *)
  env_INET6 : bool;
  (* what the uninitialised [struct pending key] on the stack holds *)
  env_stack_junk : sockaddr_storage;
  (* ldns_buffer_new: the byte a new buffer holds at an offset *)
  env_heap_junk : nat -> Z -> Z
}.

(** ** The world *)

(** [struct outside_network].  A NULL member is [None]. *)
Record outside_network := {
  base : Z;                                        (* struct comm_base* *)
  udp_buff : option (list Z);                      (* ldns_buffer* *)
  udp4_ports : option (list (option comm_point));  (* struct comm_point** *)
  num_udp4 : Z;                                    (* size_t *)
  udp6_ports : option (list (option comm_point));
  num_udp6 : Z;
  pending_tree : option (list ptr)                 (* rbtree_t* pending *)
}.

Record world := {
  w_outnet : option outside_network;  (* the dispatcher, when allocated *)
  w_pend : gmap ptr pending;          (* the live struct pending objects *)
  w_trace : list event;               (* newest event last *)
  w_asked : nat;                      (* questions put to the environment *)
  w_rnd : nat                         (* random words consumed so far *)
}.

(** A computation either returns a value and the next world, or runs into
    undefined behaviour (a NULL or dangling dereference, an access outside
    an array). *)
Inductive outcome (A : Type) :=
| Done (a : A) (w : world)
| Fault.
Arguments Done {A} a w.
Arguments Fault {A}.

Definition M (A : Type) : Type := world -> outcome A.

Definition ret {A} (a : A) : M A := fun w => Done a w.

Definition bind {A B} (m : M A) (k : A -> M B) : M B :=
  fun w => match m w with
           | Done a w' => k a w'
           | Fault => Fault
           end.

Notation "'let*' x ':=' m 'in' k" := (bind m (fun x => k))
  (at level 10, x pattern, m at level 100, k at level 200).
Notation "m1 ';;;' m2" := (bind m1 (fun _ => m2))
  (at level 100, m2 at level 200, right associativity).

Definition fault {A} : M A := fun _ => Fault.

Definition emit (e : event) : M unit :=
  fun w => Done tt {| w_outnet := w_outnet w; w_pend := w_pend w;
                      w_trace := w_trace w ++ [e];
                      w_asked := w_asked w; w_rnd := w_rnd w |}.

(** The number of the next question; the counter moves on. *)
Definition ask : M nat :=
  fun w => Done (w_asked w)
                {| w_outnet := w_outnet w; w_pend := w_pend w;
                   w_trace := w_trace w;
                   w_asked := S (w_asked w); w_rnd := w_rnd w |}.

Definition set_outnet (o : option outside_network) : M unit :=
  fun w => Done tt {| w_outnet := o; w_pend := w_pend w;
                      w_trace := w_trace w;
                      w_asked := w_asked w; w_rnd := w_rnd w |}.

Definition set_pend (h : gmap ptr pending) : M unit :=
  fun w => Done tt {| w_outnet := w_outnet w; w_pend := h;
                      w_trace := w_trace w;
                      w_asked := w_asked w; w_rnd := w_rnd w |}.

(** [*outnet] *)
Definition deref_outnet (outnet : option outnet_ref) : M outside_network :=
  fun w => match outnet, w_outnet w with
           | Some the_outnet, Some o => Done o w
           | _, _ => Fault
           end.

(** [*outnet = o] *)
Definition store_outnet (outnet : option outnet_ref) (o : outside_network)
  : M unit :=
  let* _ := deref_outnet outnet in set_outnet (Some o).

(** [*p] *)
Definition deref (p : ptr) : M pending :=
  fun w => match w_pend w !! p with
           | Some pd => Done pd w
           | None => Fault
           end.

Definition get_pend : M (gmap ptr pending) := fun w => Done (w_pend w) w.

(** [*p = f( *p)] *)
Definition modify (p : ptr) (f : pending -> pending) : M unit :=
  let* pd := deref p in
  let* h := get_pend in
  set_pend (<[p := f pd]> h).

(** [free(p)] *)
Definition free_pend (p : ptr) : M unit :=
  let* _ := deref p in
  let* h := get_pend in
  set_pend (delete p h).

(** [a[i]] *)
Definition array_get {A} (a : option (list A)) (i : Z) : M A :=
  match a with
  | None => fault
  | Some l =>
      if i <? 0 then fault
      else match l !! Z.to_nat i with
           | Some x => ret x
           | None => fault
           end
  end.

(** [a[i] = x] *)
Definition array_set {A} (a : option (list A)) (i : Z) (x : A)
  : M (list A) :=
  match a with
  | None => fault
  | Some l =>
      if i <? 0 then fault
      else if (Z.to_nat i <? length l)%nat then ret (<[Z.to_nat i := x]> l)
      else fault
  end.

(** ** Field updates *)

Definition with_id (pd : pending) (v : Z) : pending :=
  {| pend_id := v; pend_addr := pend_addr pd; pend_addrlen := pend_addrlen pd;
     pend_c := pend_c pd; pend_timer := pend_timer pd; pend_cb := pend_cb pd;
     pend_cb_arg := pend_cb_arg pd; pend_outnet := pend_outnet pd |}.

Definition with_c (pd : pending) (v : option comm_point) : pending :=
  {| pend_id := pend_id pd; pend_addr := pend_addr pd;
     pend_addrlen := pend_addrlen pd;
     pend_c := v; pend_timer := pend_timer pd; pend_cb := pend_cb pd;
     pend_cb_arg := pend_cb_arg pd; pend_outnet := pend_outnet pd |}.

Definition with_timer (pd : pending) (v : option comm_timer) : pending :=
  {| pend_id := pend_id pd; pend_addr := pend_addr pd;
     pend_addrlen := pend_addrlen pd;
     pend_c := pend_c pd; pend_timer := v; pend_cb := pend_cb pd;
     pend_cb_arg := pend_cb_arg pd; pend_outnet := pend_outnet pd |}.

Definition with_tree (o : outside_network) (t : option (list ptr))
  : outside_network :=
  {| base := base o; udp_buff := udp_buff o;
     udp4_ports := udp4_ports o; num_udp4 := num_udp4 o;
     udp6_ports := udp6_ports o; num_udp6 := num_udp6 o;
     pending_tree := t |}.

Definition with_udp4 (o : outside_network)
    (a : option (list (option comm_point))) (n : Z) : outside_network :=
  {| base := base o; udp_buff := udp_buff o;
     udp4_ports := a; num_udp4 := n;
     udp6_ports := udp6_ports o; num_udp6 := num_udp6 o;
     pending_tree := pending_tree o |}.

Definition with_udp6 (o : outside_network)
    (a : option (list (option comm_point))) (n : Z) : outside_network :=
  {| base := base o; udp_buff := udp_buff o;
     udp4_ports := udp4_ports o; num_udp4 := num_udp4 o;
     udp6_ports := a; num_udp6 := n;
     pending_tree := pending_tree o |}.

Definition with_udp_buff (o : outside_network) (b : option (list Z))
  : outside_network :=
  {| base := base o; udp_buff := b;
     udp4_ports := udp4_ports o; num_udp4 := num_udp4 o;
     udp6_ports := udp6_ports o; num_udp6 := num_udp6 o;
     pending_tree := pending_tree o |}.

(** What [calloc] hands out: all bits zero. *)
Definition zero_pending : pending :=
  {| pend_id := 0; pend_addr := replicate SOCKADDR_STORAGE_SIZE 0;
     pend_addrlen := 0; pend_c := None; pend_timer := None; pend_cb := 0%nat;
     pend_cb_arg := 0; pend_outnet := None |}.

Definition zero_outnet : outside_network :=
  {| base := 0; udp_buff := None; udp4_ports := None; num_udp4 := 0;
     udp6_ports := None; num_udp6 := 0; pending_tree := None |}.

(** ** The wire ID (ldns) *)

(** [LDNS_ID_WIRE(buf)]: the first two bytes, in network byte order. *)
Definition LDNS_ID_WIRE (buf : list Z) : Z :=
  Z.lor (Z.shiftl (byte_at buf 0) 8) (byte_at buf 1).

(** [LDNS_ID_SET(buf, id)]: writes the two bytes; a buffer without room
    for them is overrun. *)
Definition LDNS_ID_SET (buf : list Z) (id : Z) : M (list Z) :=
  if (2 <=? length buf)%nat then
    ret (<[1%nat := Z.land id 255]>
           (<[0%nat := Z.land (Z.shiftr id 8) 255]> buf))
  else fault.

(** ** The pending tree

    Modelled from the spec: util/rbtree.c ([rbtree_search],
    [rbtree_insert], [rbtree_delete], [traverse_postorder]) is not among
    the sources.  The index is an ordered map keyed through the compare
    function, with unique keys: insert fails if a colliding key is already
    present, lookup returns the entry whose key compares equal, remove
    takes that entry out, and drain visits every node.  The nodes are the
    [struct pending] objects themselves, so the tree is the list of their
    addresses; which node is visited first is not part of the model's
    meaning. *)

Definition key_matches (h : gmap ptr pending) (key : pending) (q : ptr) : bool :=
  match h !! q with
  | Some pd => pending_cmp key pd =? 0
  | None => false
  end.

Definition rbtree_search (h : gmap ptr pending) (tree : list ptr)
    (key : pending) : option ptr :=
  List.find (key_matches h key) tree.

(** NULL (here [None]) when the key is already present. *)
Definition rbtree_insert (h : gmap ptr pending) (tree : list ptr)
    (node : ptr) : option (list ptr) :=
  match h !! node with
  | None => None
  | Some pd =>
      match rbtree_search h tree pd with
      | Some _ => None
      | None => Some (tree ++ [node])
      end
  end.

Fixpoint remove_first (f : ptr -> bool) (tree : list ptr) : list ptr :=
  match tree with
  | [] => []
  | q :: t => if f q then t else q :: remove_first f t
  end.

Definition rbtree_delete (h : gmap ptr pending) (tree : list ptr)
    (key : pending) : list ptr :=
  remove_first (key_matches h key) tree.

(** ** The dispatcher *)

(** [struct comm_reply], as far as this file reads it. *)
Record comm_reply := {
  reply_addr : sockaddr_storage;
  reply_addrlen : Z
}.

(** Which of the two port arrays a [struct comm_point**] points into. *)
Inductive port_array := Udp4 | Udp6.

(** The ID drawn from a random word: [((unsigned)r >> 8) & 0xffff]. *)
Definition random_id (r : Z) : Z :=
  Z.land (Z.shiftr (to_unsigned r) 8) 65535.

(** Checkout address family: true if sockaddr is ip6. *)
Definition addr_is_ip6 (addr : sockaddr_storage) : bool :=
  let family := to_short (load16 addr 0) in
  if family =? AF_INET6 then true else false.

(** The clamp of [select_port]: don't trust in perfect double rounding. *)
Definition clamp_chosen (chosen nummax : Z) : Z :=
  let chosen := if chosen <? 0 then 0 else chosen in
  if chosen >=? nummax then to_int (nummax - 1) else chosen.

Section Dispatcher.

Variable env : environment.

(** [ub_random(rnd)]: the next random word. *)
Definition ub_random : M Z :=
  fun w => Done (env_random env (w_rnd w))
                {| w_outnet := w_outnet w; w_pend := w_pend w;
                   w_trace := w_trace w;
                   w_asked := w_asked w; w_rnd := S (w_rnd w) |}.

(** An allocation; whether it succeeds is the environment's answer. *)
Definition alloc : M bool :=
  let* n := ask in ret (env_alloc env n).

(** The user's completion callback; its return value is ignored, and it
    is taken not to call back into the dispatcher. *)
Definition call_cb (cb : callback) (c : option comm_point) (cb_arg : Z)
    (error : Z) : M unit :=
  emit (EvCallback cb c cb_arg error).

(** [comm_timer_disable(p->timer)], [comm_timer_set(p->timer, &tv)]: the
    timer is reached through the pending that owns it. *)
Definition comm_timer_disable (p : ptr) : M unit :=
  let* pd := deref p in
  match pend_timer pd with
  | None => fault
  | Some _ =>
      modify p (fun pd => with_timer pd (Some {| tm_timeout := None |})) ;;;
      emit (EvTimerDisable p)
  end.

Definition comm_timer_set (p : ptr) (sec : Z) : M unit :=
  let* pd := deref p in
  match pend_timer pd with
  | None => fault
  | Some _ =>
      modify p (fun pd => with_timer pd (Some {| tm_timeout := Some sec |})) ;;;
      emit (EvTimerSet p sec)
  end.

Definition pending_delete (outnet : option outnet_ref) (p : option ptr)
  : M unit :=
  match p with
  | None => ret tt
  | Some p =>
      match outnet with
      | Some _ =>
          let* o := deref_outnet outnet in
          (* p->node.key is p itself *)
          let* key := deref p in
          let* h := get_pend in
          match pending_tree o with
          | None => fault
          | Some t =>
              set_outnet (Some (with_tree o (Some (rbtree_delete h t key))))
          end
      | None => ret tt
      end ;;;
      let* pd := deref p in
      match pend_timer pd with
      | Some _ => emit (EvTimerDelete p)
      | None => ret tt
      end ;;;
      free_pend p
  end.

(** The lookup key [outnet_udp_cb] sets up on its stack: the ID from the
    wire, and the first [addrlen] bytes of the sender's address. *)
Definition lookup_key (buf : list Z) (reply : comm_reply) : pending :=
  {| pend_id := LDNS_ID_WIRE buf;
     pend_addr := memcpy (env_stack_junk env) (reply_addr reply)
                         (Z.to_nat (reply_addrlen reply));
     pend_addrlen := reply_addrlen reply;
     pend_c := None; pend_timer := None; pend_cb := 0%nat;
     pend_cb_arg := 0; pend_outnet := None |}.

(** callback for incoming udp answers from the network.  The buffer of a
    pool comm point [c] is the dispatcher's shared [udp_buff]. *)
Definition outnet_udp_cb (c : comm_point) (arg : option outnet_ref)
    (error : Z) (reply_info : option comm_reply) : M Z :=
  let outnet := arg in
  emit (EvLog VERB_ALGO "answer cb" []) ;;;
  if negb (error =? NETEVENT_NOERROR) then
    emit (EvLog LOG_INFO "outnetudp got udp error %d" [error]) ;;;
    ret 0
  else
    match reply_info with
    | None => fault
    | Some reply =>
        let* o := deref_outnet outnet in
        match udp_buff o with
        | None => fault
        | Some buf =>
            (* setup lookup key *)
            let key := lookup_key buf reply in
            emit (EvLog VERB_ALGO "Incoming reply id=%4.4x addr=" [pend_id key]) ;;;
            emit (EvLogAddr (pend_addr key) (pend_addrlen key)) ;;;
            (* find it, see if this thing is a valid query response *)
            match pending_tree o with
            | None => fault
            | Some tree =>
                emit (EvLog VERB_ALGO "lookup size is %d entries"
                            [Z.of_nat (length tree)]) ;;;
                let* h := get_pend in
                match rbtree_search h tree key with
                | None =>
                    emit (EvLog VERB_DETAIL
                            "received unsolicited udp reply. dropped." []) ;;;
                    ret 0
                | Some p =>
                    emit (EvLog VERB_ALGO "received udp reply." []) ;;;
                    let* pd := deref p in
                    if bool_decide (pend_c pd ≠ Some c) then
                      emit (EvLog VERB_DETAIL
                              "received reply id,addr on wrong port. dropped."
                              []) ;;;
                      ret 0
                    else
                      comm_timer_disable p ;;;
                      emit (EvLog VERB_ALGO "outnet handle udp reply" []) ;;;
                      call_cb (pend_cb pd) (pend_c pd) (pend_cb_arg pd)
                              NETEVENT_NOERROR ;;;
                      pending_delete outnet (Some p) ;;;
                      ret 0
                end
            end
        end
    end.

(** callback for udp timeout *)
Definition pending_udp_timer_cb (arg : ptr) : M unit :=
  let p := arg in
  (* it timed out *)
  emit (EvLog VERB_ALGO "timeout udp" []) ;;;
  let* pd := deref p in
  call_cb (pend_cb pd) (pend_c pd) (pend_cb_arg pd) NETEVENT_TIMEOUT ;;;
  let* pd := deref p in
  pending_delete (pend_outnet pd) (Some p).

(** [rbtree_insert(outnet->pending, &pend->node)] *)
Definition insert_node (outnet : option outnet_ref) (pend : ptr) : M bool :=
  let* o := deref_outnet outnet in
  let* _ := deref pend in
  let* h := get_pend in
  match pending_tree o with
  | None => fault
  | Some t =>
      match rbtree_insert h t pend with
      | Some t' => set_outnet (Some (with_tree o (Some t'))) ;;; ret true
      | None => ret false
      end
  end.

(** The [while] loop of [new_pending]; [fuel] bounds the iterations still
    allowed, [id_tries] is the counter of the source. *)
Fixpoint new_pending_loop (fuel : nat) (id_tries : Z)
    (outnet : option outnet_ref) (pend : ptr) (packet : list Z)
  : M (option ptr * list Z) :=
  let* inserted := insert_node outnet pend in
  if inserted then ret (Some pend, packet)
  else
    (* change ID to avoid collision *)
    let* r := ub_random in
    modify pend (fun pd => with_id pd (random_id r)) ;;;
    let* pd := deref pend in
    let* packet := LDNS_ID_SET packet (pend_id pd) in
    let id_tries := to_int (id_tries + 1) in
    if id_tries =? MAX_ID_RETRY then
      emit (EvLog LOG_ERR "failed to generate unique ID, drop msg" []) ;;;
      pending_delete None (Some pend) ;;;
      ret (None, packet)
    else
      match fuel with
      | O => fault
      | S fuel' => new_pending_loop fuel' id_tries outnet pend packet
      end.

(** create a new pending item with given characteristics, false on failure *)
Definition new_pending (outnet : option outnet_ref) (packet : list Z)
    (addr : sockaddr_storage) (addrlen : Z)
    (callback : callback) (callback_arg : Z)
  : M (option ptr * list Z) :=
  (* alloc *)
  let* ok := alloc in
  if negb ok then
    emit (EvLog LOG_ERR "malloc failure" []) ;;;
    ret (None, packet)
  else
    let* h := get_pend in
    let pend := fresh (dom h) in
    set_pend (<[pend := zero_pending]> h) ;;;
    let* _ := deref_outnet outnet in
    let* ok := alloc in
    if negb ok then
      free_pend pend ;;;
      ret (None, packet)
    else
      modify pend (fun pd => with_timer pd (Some {| tm_timeout := None |})) ;;;
      (* set *)
      let* r := ub_random in
      modify pend (fun pd => with_id pd (random_id r)) ;;;
      let* pd := deref pend in
      let* packet := LDNS_ID_SET packet (pend_id pd) in
      modify pend (fun pd =>
        {| pend_id := pend_id pd;
           pend_addr := memcpy (pend_addr pd) addr (Z.to_nat addrlen);
           pend_addrlen := addrlen;
           pend_c := pend_c pd; pend_timer := pend_timer pd;
           pend_cb := callback; pend_cb_arg := callback_arg;
           pend_outnet := outnet |}) ;;;
      (* insert in tree *)
      let* res := new_pending_loop (Z.to_nat MAX_ID_RETRY) 0 outnet pend packet in
      match res with
      | (None, packet) => ret (None, packet)
      | (Some pend, packet) =>
          let* pd := deref pend in
          emit (EvLog VERB_ALGO "inserted new pending reply id=%4.4x addr="
                      [pend_id pd]) ;;;
          emit (EvLogAddr (pend_addr pd) (pend_addrlen pd)) ;;;
          ret (Some pend, packet)
      end.

(** Select outgoing comm point for a query. Fills in c. *)
Definition select_port (outnet : option outnet_ref) (pend : ptr) : M unit :=
  let* o := deref_outnet outnet in
  let* pd := deref pend in
  (* first select ip4 or ip6. *)
  let nummax :=
    if addr_is_ip6 (pend_addr pd) then to_int (num_udp6 o)
    else to_int (num_udp4 o) in
  if nummax =? 0 then
    (* could try ip4to6 mapping if no ip4 ports available *)
    emit (EvLog LOG_ERR "Need to send query but have no ports of that family"
                []) ;;;
    ret tt
  else
    (* choose a random outgoing port and interface *)
    let* r := ub_random in
    let chosen := env_double_index env r nummax in
    let chosen := clamp_chosen chosen nummax in
    let* c :=
      if addr_is_ip6 (pend_addr pd) then array_get (udp6_ports o) chosen
      else array_get (udp4_ports o) chosen in
    modify pend (fun pd => with_c pd c) ;;;
    emit (EvLog VERB_ALGO "query %x outbound %d of %d"
                [pend_id pd; chosen; nummax]).

(** [comm_point_send_udp_msg(c, packet, addr, addrlen)] *)
Definition comm_point_send_udp_msg (c : option comm_point) (packet : list Z)
    (addr : sockaddr_storage) (addrlen : Z) : M bool :=
  emit (EvSend c packet addr addrlen) ;;;
  let* n := ask in
  ret (env_send_udp_msg env n).

(** Send a query over UDP and register it as pending.  The result is the
    caller's packet buffer as the call leaves it. *)
Definition pending_udp_query (outnet : option outnet_ref) (packet : list Z)
    (addr : sockaddr_storage) (addrlen : Z) (timeout : Z)
    (cb : callback) (cb_arg : Z) : M (list Z) :=
  (* create pending struct and change ID to be unique *)
  let* res := new_pending outnet packet addr addrlen cb cb_arg in
  match res with
  | (None, packet) =>
      (* callback user for the error *)
      call_cb cb None cb_arg NETEVENT_CLOSED ;;;
      ret packet
  | (Some pend, packet) =>
      select_port outnet pend ;;;
      (* send it over the commlink *)
      let* pd := deref pend in
      let* sent := comm_point_send_udp_msg (pend_c pd) packet addr addrlen in
      if negb sent then
        (* callback user for the error *)
        call_cb (pend_cb pd) (pend_c pd) (pend_cb_arg pd) NETEVENT_CLOSED ;;;
        pending_delete outnet (Some pend) ;;;
        ret packet
      else
        comm_timer_set pend timeout ;;;
        ret packet
  end.

(** open another udp port to listen to, every thread has its own range
    of open ports.  Returns the file descriptor. *)
Definition open_udp_port_range (ifname : option string) (hints : addrinfo)
    (porthint : Z) : M Z :=
  let portstr := if porthint =? -1 then None else Some porthint in
  emit (EvGetaddrinfo ifname portstr hints) ;;;
  let* n := ask in
  let '(r, res) := env_getaddrinfo env n in
  if negb (r =? 0) || negb res then
    emit (EvLog LOG_ERR "node %s %s getaddrinfo: %s %s" [r]) ;;;
    ret (-1)
  else
    let* n := ask in
    let s := env_create_udp_sock env n in
    emit (EvCreateUdpSock s) ;;;
    ret s.

(** [coms[i]] for [coms] pointing [off] entries into one of the arrays. *)
Definition coms_set (outnet : option outnet_ref) (coms : port_array * Z)
    (i : Z) (c : option comm_point) : M unit :=
  let* o := deref_outnet outnet in
  match fst coms with
  | Udp4 =>
      let* a := array_set (udp4_ports o) (snd coms + i) c in
      set_outnet (Some (with_udp4 o (Some a) (num_udp4 o)))
  | Udp6 =>
      let* a := array_set (udp6_ports o) (snd coms + i) c in
      set_outnet (Some (with_udp6 o (Some a) (num_udp6 o)))
  end.

(** The [for] loop of [make_udp_range], with [n] iterations to go. *)
Fixpoint make_udp_range_loop (n : nat) (coms : port_array * Z)
    (ifname : option string) (hints : addrinfo) (porthint : Z)
    (outnet : option outnet_ref) (done : Z) : M Z :=
  match n with
  | O => ret done
  | S n' =>
      let* fd := open_udp_port_range ifname hints porthint in
      let porthint :=
        if negb (porthint =? -1) then to_int (porthint + 1) else porthint in
      if fd =? -1 then
        make_udp_range_loop n' coms ifname hints porthint outnet done
      else
        let* _ := deref_outnet outnet in
        let* k := ask in
        let c := env_comm_point_create_udp env k in
        emit (EvCommPointCreate fd c) ;;;
        coms_set outnet coms done c ;;;
        let done :=
          match c with Some _ => to_size_t (done + 1) | None => done end in
        make_udp_range_loop n' coms ifname hints porthint outnet done
  end.

(** Create range of UDP ports on the given interface.
    Returns the number of ports successfully opened, entries filled in
    coms. *)
Definition make_udp_range (coms : port_array * Z) (ifname : option string)
    (num_ports : Z) (do_ip4 do_ip6 : bool) (porthint : Z)
    (outnet : option outnet_ref) : M Z :=
  let flags := AI_PASSIVE in
  let flags :=
    match ifname with
    | Some _ => Z.lor flags AI_NUMERICHOST
    | None => flags
    end in
  let family :=
    if do_ip4 && do_ip6 then AF_UNSPEC
    else if do_ip4 then AF_INET
    else if do_ip6 then AF_INET6
    else AF_UNSPEC in
  let hints :=
    {| ai_flags := flags; ai_family := family; ai_socktype := SOCK_DGRAM |} in
  make_udp_range_loop (Z.to_nat num_ports) coms ifname hints porthint outnet 0.

(** The loop of [calc_num46] over the interfaces [ifs[i]], [n] to go. *)
Fixpoint calc_num46_loop (n : nat) (i : Z) (ifs : list string)
    (do_ip4 do_ip6 : bool) (multiplier : Z) (num_ip4 num_ip6 : Z)
  : M (Z * Z) :=
  match n with
  | O => ret (num_ip4, num_ip6)
  | S n' =>
      let* ifname := array_get (Some ifs) i in
      if env_str_is_ip6 env ifname then
        calc_num46_loop n' (i + 1) ifs do_ip4 do_ip6 multiplier num_ip4
          (if do_ip6 then to_size_t (num_ip6 + multiplier) else num_ip6)
      else
        calc_num46_loop n' (i + 1) ifs do_ip4 do_ip6 multiplier
          (if do_ip4 then to_size_t (num_ip4 + multiplier) else num_ip4)
          num_ip6
  end.

(** calculate number of ip4 and ip6 interfaces, times multiplier. *)
Definition calc_num46 (ifs : list string) (num_ifs : Z) (do_ip4 do_ip6 : bool)
    (multiplier : Z) : M (Z * Z) :=
  if num_ifs <=? 0 then
    ret (if do_ip4 then multiplier else 0, if do_ip6 then multiplier else 0)
  else
    calc_num46_loop (Z.to_nat num_ifs) 0 ifs do_ip4 do_ip6 multiplier 0 0.

(** helper pending delete *)
Definition pending_node_del (node : ptr) (arg : option outnet_ref) : M unit :=
  let pend := node in
  let outnet := arg in
  pending_delete outnet (Some pend).

(** [traverse_postorder(tree, func, arg)]: every node is visited once. *)
Fixpoint traverse_postorder (nodes : list ptr)
    (func : ptr -> option outnet_ref -> M unit) (arg : option outnet_ref)
  : M unit :=
  match nodes with
  | [] => ret tt
  | q :: rest => func q arg ;;; traverse_postorder rest func arg
  end.

(** [for(i=0; i<num; i++) comm_point_delete(ports[i]);], [n] to go. *)
Fixpoint delete_ports_loop (n : nat) (i : Z)
    (ports : option (list (option comm_point))) : M unit :=
  match n with
  | O => ret tt
  | S n' =>
      let* c := array_get ports i in
      emit (EvCommPointDelete c) ;;;
      delete_ports_loop n' (i + 1) ports
  end.

Definition outside_network_delete (outnet : option outnet_ref) : M unit :=
  match outnet with
  | None => ret tt
  | Some _ =>
      let* o := deref_outnet outnet in
      (* check every element, since we can be called on malloc error *)
      match pending_tree o with
      | Some t =>
          (* free pending elements, but do no unlink from tree. *)
          traverse_postorder t pending_node_del None
      | None => ret tt
      end ;;;
      match udp4_ports o with
      | Some _ => delete_ports_loop (Z.to_nat (num_udp4 o)) 0 (udp4_ports o)
      | None => ret tt
      end ;;;
      match udp6_ports o with
      | Some _ => delete_ports_loop (Z.to_nat (num_udp6 o)) 0 (udp6_ports o)
      | None => ret tt
      end ;;;
      emit EvFreeOutnet ;;;
      set_outnet None
  end.

(** The loop of [outside_network_create] over the interfaces [ifs[k]]. *)
Fixpoint create_ifs_loop (n : nat) (k : Z) (ifs : list string)
    (num_ports : Z) (do_ip4 do_ip6 : bool) (port_base : Z)
    (outnet : option outnet_ref) (done_4 done_6 : Z) : M (Z * Z) :=
  match n with
  | O => ret (done_4, done_6)
  | S n' =>
      let* ifname := array_get (Some ifs) k in
      let* done_6 :=
        if env_str_is_ip6 env ifname && do_ip6 then
          let* d := make_udp_range (Udp6, done_6) (Some ifname) num_ports
                      false true port_base outnet in
          ret (to_size_t (done_6 + d))
        else ret done_6 in
      let* done_4 :=
        if negb (env_str_is_ip6 env ifname) && do_ip4 then
          let* d := make_udp_range (Udp4, done_4) (Some ifname) num_ports
                      true false port_base outnet in
          ret (to_size_t (done_4 + d))
        else ret done_4 in
      create_ifs_loop n' (k + 1) ifs num_ports do_ip4 do_ip6 port_base outnet
        done_4 done_6
  end.

(** [outnet->f = v] for the dispatcher [outnet] *)
Definition modify_outnet (outnet : option outnet_ref)
    (f : outside_network -> outside_network) : M unit :=
  let* o := deref_outnet outnet in set_outnet (Some (f o)).

(** A zeroed array of [n] comm point pointers. *)
Definition calloc_ports (n : Z) : list (option comm_point) :=
  replicate (Z.to_nat n) None.

(** The bytes of a buffer that was allocated and not initialised: they
    are what the allocator happens to hand out. *)
Definition fresh_bytes (n : nat) (capacity : Z) : list Z :=
  (fun i => env_heap_junk env n (Z.of_nat i)) <$> seq 0 (Z.to_nat capacity).

(** [ldns_buffer_new(capacity)]: a new buffer of [capacity] bytes, or
    NULL. *)
Definition ldns_buffer_new (capacity : Z) : M (option (list Z)) :=
  let* n := ask in
  if env_alloc env n then ret (Some (fresh_bytes n capacity))
  else ret None.

(** The allocations in the condition of the first [if] of
    [outside_network_create], left to right; the ones after a failed one
    are not attempted.  True when all four succeeded.
    (adds +1 to portnums so we do not allocate zero bytes.) *)
Definition create_members (outnet : option outnet_ref) (bufsize : Z)
  : M bool :=
  let* buf := ldns_buffer_new bufsize in
  match buf with
  | None => ret false
  | Some _ =>
    modify_outnet outnet (fun o => with_udp_buff o buf) ;;;
    let* ok := alloc in
    if negb ok then ret false
    else
      modify_outnet outnet (fun o =>
        with_udp4 o (Some (calloc_ports (to_size_t (num_udp4 o + 1))))
                  (num_udp4 o)) ;;;
      let* ok := alloc in
      if negb ok then ret false
      else
        modify_outnet outnet (fun o =>
          with_udp6 o (Some (calloc_ports (to_size_t (num_udp6 o + 1))))
                    (num_udp6 o)) ;;;
        let* ok := alloc in
        if negb ok then ret false
        else
          modify_outnet outnet (fun o => with_tree o (Some [])) ;;;
          ret true
  end.

(** The second half of [outside_network_create]:
    Try to get ip6 and ip4 ports. Ip6 first, in case second fails. *)
Definition create_ports (outnet : option outnet_ref) (num_ports : Z)
    (ifs : list string) (num_ifs : Z) (do_ip4 do_ip6 : bool) (port_base : Z)
  : M (option outnet_ref) :=
  if num_ifs =? 0 then
    (if do_ip6 then
       let* n := make_udp_range (Udp6, 0) None num_ports false true
                   port_base outnet in
       modify_outnet outnet (fun o => with_udp6 o (udp6_ports o) n)
     else ret tt) ;;;
    (if do_ip4 then
       let* n := make_udp_range (Udp4, 0) None num_ports true false
                   port_base outnet in
       modify_outnet outnet (fun o => with_udp4 o (udp4_ports o) n)
     else ret tt) ;;;
    let* o := deref_outnet outnet in
    if (do_ip4 && negb (num_udp4 o =? num_ports))
       || (do_ip6 && negb (num_udp6 o =? num_ports)) then
      emit (EvLog LOG_ERR "Could not open all networkside ports" []) ;;;
      outside_network_delete outnet ;;;
      ret None
    else ret outnet
  else
    let* (done_4, done_6) :=
      create_ifs_loop (Z.to_nat num_ifs) 0 ifs num_ports do_ip4 do_ip6
        port_base outnet 0 0 in
    let* o := deref_outnet outnet in
    if negb (done_6 =? num_udp6 o) || negb (done_4 =? num_udp4 o) then
      emit (EvLog LOG_ERR "Could not open all ports on all interfaces" []) ;;;
      outside_network_delete outnet ;;;
      ret None
    else
      modify_outnet outnet (fun o =>
        with_udp4 (with_udp6 o (udp6_ports o) done_6)
                  (udp4_ports o) done_4) ;;;
      ret outnet.

Definition outside_network_create (base : Z) (bufsize : Z) (num_ports : Z)
    (ifs : list string) (num_ifs : Z) (do_ip4 do_ip6 : bool) (port_base : Z)
  : M (option outnet_ref) :=
  let* ok := alloc in
  if negb ok then
    emit (EvLog LOG_ERR "malloc failed" []) ;;;
    ret None
  else
    (* the world has room for one dispatcher *)
    (fun w => match w_outnet w with
              | Some _ => Fault
              | None => set_outnet (Some zero_outnet) w
              end) ;;;
    let outnet := Some the_outnet in
    modify_outnet outnet (fun o =>
      {| base := base; udp_buff := udp_buff o;
         udp4_ports := udp4_ports o; num_udp4 := num_udp4 o;
         udp6_ports := udp6_ports o; num_udp6 := num_udp6 o;
         pending_tree := pending_tree o |}) ;;;
    let do_ip6 := if env_INET6 env then do_ip6 else false in
    let* (n4, n6) := calc_num46 ifs num_ifs do_ip4 do_ip6 num_ports in
    modify_outnet outnet (fun o =>
      with_udp6 (with_udp4 o (udp4_ports o) n4) (udp6_ports o) n6) ;;;
    let* allocated := create_members outnet bufsize in
    if negb allocated then
      emit (EvLog LOG_ERR "malloc failed" []) ;;;
      outside_network_delete outnet ;;;
      ret None
    else
      create_ports outnet num_ports ifs num_ifs do_ip4 do_ip6 port_base.

End Dispatcher.

(** ** Vocabulary of the properties *)

(** The invariant of the pending tree: every node is a live
    [struct pending], and no two nodes have keys that compare equal. *)
Definition live (h : gmap ptr pending) (q : ptr) : bool :=
  match h !! q with Some _ => true | None => false end.

Definition same_key (h : gmap ptr pending) (q1 q2 : ptr) : bool :=
  match h !! q1, h !! q2 with
  | Some pd1, Some pd2 => pending_cmp pd1 pd2 =? 0
  | _, _ => false
  end.

Fixpoint index_ok (h : gmap ptr pending) (tree : list ptr) : bool :=
  match tree with
  | [] => true
  | q :: t => live h q && negb (existsb (same_key h q) t) && index_ok h t
  end.

(** The reactor receives a datagram into the shared buffer before it
    calls [outnet_udp_cb]. *)
Definition with_datagram (w : world) (buf : list Z) : world :=
  {| w_outnet :=
       match w_outnet w with
       | Some o => Some (with_udp_buff o (Some buf))
       | None => None
       end;
     w_pend := w_pend w; w_trace := w_trace w;
     w_asked := w_asked w; w_rnd := w_rnd w |}.

Definition is_callback (e : event) : bool :=
  match e with EvCallback _ _ _ _ => true | _ => false end.

Definition is_send (e : event) : bool :=
  match e with EvSend _ _ _ _ => true | _ => false end.

(** The user callbacks in a trace, in order. *)
Definition callbacks (tr : list event) : list event :=
  List.filter is_callback tr.

(** The world [w] with the events [evs] appended to its trace. *)
Definition logged (w : world) (evs : list event) : world :=
  {| w_outnet := w_outnet w; w_pend := w_pend w;
     w_trace := w_trace w ++ evs;
     w_asked := w_asked w; w_rnd := w_rnd w |}.

(** The record [new_pending] fills in before it enters the tree. *)
Definition fresh_pending (id : Z) (addr : sockaddr_storage) (addrlen : Z)
    (cb : callback) (cb_arg : Z) : pending :=
  {| pend_id := id;
     pend_addr := memcpy (replicate SOCKADDR_STORAGE_SIZE 0) addr
                         (Z.to_nat addrlen);
     pend_addrlen := addrlen; pend_c := None;
     pend_timer := Some {| tm_timeout := None |};
     pend_cb := cb; pend_cb_arg := cb_arg;
     pend_outnet := Some the_outnet |}.

(** The comm points that a trace shows as created, in order. *)
Definition created (tr : list event) : list comm_point :=
  omap (fun e => match e with
                 | EvCommPointCreate _ (Some c) => Some c
                 | _ => None
                 end) tr.

(** One of the two port arrays of a dispatcher, and its replacement. *)
Definition ports_of (which : port_array) (o : outside_network)
  : option (list (option comm_point)) :=
  match which with Udp4 => udp4_ports o | Udp6 => udp6_ports o end.

Definition with_ports (which : port_array) (o : outside_network)
    (a : list (option comm_point)) : outside_network :=
  match which with
  | Udp4 => with_udp4 o (Some a) (num_udp4 o)
  | Udp6 => with_udp6 o (Some a) (num_udp6 o)
  end.

(** The interfaces [outside_network_create] goes through. *)
Definition ifs_used (ifs : list string) (num_ifs : Z) : list string :=
  take (Z.to_nat num_ifs) ifs.

(** The number of sockets a call of [outside_network_create] asks for, per
    family: the ports per interface, times the interfaces of that family
    ([nfam]) when interfaces are given; none for a family that is switched
    off. *)
Definition nfam (env : environment) (ip6 : bool) (l : list string) : Z :=
  Z.of_nat (length (List.filter
                      (fun s => Bool.eqb (env_str_is_ip6 env s) ip6) l)).

Definition requested (env : environment) (ip6 : bool) (ifs : list string)
    (num_ifs : Z) (enabled : bool) (num_ports : Z) : Z :=
  if enabled then
    if num_ifs <=? 0 then num_ports
    else nfam env ip6 (ifs_used ifs num_ifs) * num_ports
  else 0.

(** A dispatcher with both of its port arrays replaced. *)
Definition both (o : outside_network) (a4 a6 : list (option comm_point))
  : outside_network :=
  with_ports Udp6 (with_ports Udp4 o a4) a6.

(** [outnet->num_udp4 = n], or [outnet->num_udp6 = n]. *)
Definition set_count (which : port_array) (o : outside_network) (n : Z)
  : outside_network :=
  match which with
  | Udp4 => with_udp4 o (udp4_ports o) n
  | Udp6 => with_udp6 o (udp6_ports o) n
  end.

(** The [comm_point_delete] calls of [outside_network_delete] on one
    port array, and all that the teardown of a dispatcher without pending
    queries does. *)
Definition port_deletes (a : option (list (option comm_point))) (n : Z)
  : list event :=
  match a with
  | Some l => EvCommPointDelete <$> take (Z.to_nat n) l
  | None => []
  end.

Definition teardown_events (o : outside_network) : list event :=
  port_deletes (udp4_ports o) (num_udp4 o) ++
  port_deletes (udp6_ports o) (num_udp6 o) ++ [EvFreeOutnet].

(** ** A dispatcher with four IPv4 sockets and one query in flight *)

(** An environment in which every allocation, socket and send succeeds. *)
Definition ex_env : environment :=
  {| env_alloc := fun _ => true;
     env_getaddrinfo := fun _ => (0, true);
     env_create_udp_sock := fun n => Z.of_nat n;
     env_comm_point_create_udp := fun n => Some (100 + n)%nat;
     env_send_udp_msg := fun _ => true;
     env_random := fun n => 305419896 + 256 * Z.of_nat n;
     env_double_index := fun r n => r * n / (RAND_MAX + 1);
     env_str_is_ip6 := fun _ => false;
     env_INET6 := true;
     env_stack_junk := replicate SOCKADDR_STORAGE_SIZE 255;
     env_heap_junk := fun _ i => (165 + i) mod 256 |}.

(** 192.0.2.1, port 53, as a [struct sockaddr_in]. *)
Definition ex_dest : sockaddr_storage :=
  [2; 0; 0; 53; 192; 0; 2; 1; 0; 0; 0; 0; 0; 0; 0; 0].

Definition ex_pending : pending :=
  {| pend_id := 13398;
     pend_addr := memcpy (replicate SOCKADDR_STORAGE_SIZE 0) ex_dest 16;
     pend_addrlen := 16;
     pend_c := Some 100%nat;
     pend_timer := Some {| tm_timeout := Some 3 |};
     pend_cb := 7%nat; pend_cb_arg := 9;
     pend_outnet := Some the_outnet |}.

(** A reply to [ex_pending]: ID 0x3456 on the wire. *)
Definition ex_datagram : list Z := [52; 86; 129; 128; 0; 1; 0; 1; 0; 0; 0; 0].

Definition ex_reply : comm_reply :=
  {| reply_addr := ex_dest; reply_addrlen := 16 |}.

Definition ex_outnet : outside_network :=
  {| base := 0; udp_buff := Some ex_datagram;
     udp4_ports := Some [Some 100; Some 101; Some 102; Some 103; None]%nat;
     num_udp4 := 4;
     udp6_ports := Some [None]; num_udp6 := 0;
     pending_tree := Some [0%nat] |}.

Definition ex_world : world :=
  {| w_outnet := Some ex_outnet; w_pend := {[ 0%nat := ex_pending ]};
     w_trace := []; w_asked := 0; w_rnd := 0 |}.

(** The same environment with a random source that repeats one word, so
    that every ID it yields is the one of [ex_pending]. *)
Definition ex_env_stuck : environment :=
  {| env_alloc := env_alloc ex_env;
     env_getaddrinfo := env_getaddrinfo ex_env;
     env_create_udp_sock := env_create_udp_sock ex_env;
     env_comm_point_create_udp := env_comm_point_create_udp ex_env;
     env_send_udp_msg := env_send_udp_msg ex_env;
     env_random := fun _ => 305419896;
     env_double_index := env_double_index ex_env;
     env_str_is_ip6 := env_str_is_ip6 ex_env;
     env_INET6 := env_INET6 ex_env;
     env_stack_junk := env_stack_junk ex_env;
     env_heap_junk := env_heap_junk ex_env |}.

(** The same environment with a network that refuses every send. *)
Definition ex_env_nosend : environment :=
  {| env_alloc := env_alloc ex_env;
     env_getaddrinfo := env_getaddrinfo ex_env;
     env_create_udp_sock := env_create_udp_sock ex_env;
     env_comm_point_create_udp := env_comm_point_create_udp ex_env;
     env_send_udp_msg := fun _ => false;
     env_random := env_random ex_env;
     env_double_index := env_double_index ex_env;
     env_str_is_ip6 := env_str_is_ip6 ex_env;
     env_INET6 := env_INET6 ex_env;
     env_stack_junk := env_stack_junk ex_env;
     env_heap_junk := env_heap_junk ex_env |}.

(** The same environment without memory: no allocation succeeds. *)
Definition ex_env_nomem : environment :=
  {| env_alloc := fun _ => false;
     env_getaddrinfo := env_getaddrinfo ex_env;
     env_create_udp_sock := env_create_udp_sock ex_env;
     env_comm_point_create_udp := env_comm_point_create_udp ex_env;
     env_send_udp_msg := env_send_udp_msg ex_env;
     env_random := env_random ex_env;
     env_double_index := env_double_index ex_env;
     env_str_is_ip6 := env_str_is_ip6 ex_env;
     env_INET6 := env_INET6 ex_env;
     env_stack_junk := env_stack_junk ex_env;
     env_heap_junk := env_heap_junk ex_env |}.

(** A query packet: the ID field, then the rest of the header. *)
Definition ex_packet : list Z := [0; 0; 1; 0; 0; 1; 0; 0; 0; 0; 0; 0].

(** 2001:db8::1, port 53, as a [struct sockaddr_in6] (28 bytes). *)
Definition ex_dest6 : sockaddr_storage :=
  [10; 0; 0; 53; 0; 0; 0; 0;
   32; 1; 13; 184; 0; 0; 0; 0; 0; 0; 0; 0; 0; 0; 0; 1;
   0; 0; 0; 0].

(** A second query to [ex_dest], submitted in [ex_world]: its first ID
    collides with the one of [ex_pending], the second one is free. *)
Definition ex_submit : outcome (list Z) :=
  pending_udp_query ex_env (Some the_outnet) ex_packet ex_dest 16 3 7%nat 9
                    ex_world.

Definition ex_packet_sent : list Z :=
  match ex_submit with Done packet _ => packet | Fault => [] end.

Definition ex_after_submit : world :=
  match ex_submit with Done _ w => w | Fault => ex_world end.

Definition ex_submitted : pending :=
  with_timer (with_c (fresh_pending 13399 ex_dest 16 7%nat 9) (Some 100%nat))
             (Some {| tm_timeout := Some 3 |}).

(** ** Building a dispatcher *)

(** A world without a dispatcher. *)
Definition ex_empty : world :=
  {| w_outnet := None; w_pend := ∅; w_trace := []; w_asked := 0; w_rnd := 0 |}.

(** The environment [ex_env], except that the twelfth question, which is
    the [getaddrinfo] for the third port, is answered with a failure. *)
Definition ex_env_short : environment :=
  {| env_alloc := env_alloc ex_env;
     env_getaddrinfo :=
       fun n => if (n =? 11)%nat then (-2, false) else (0, true);
     env_create_udp_sock := env_create_udp_sock ex_env;
     env_comm_point_create_udp := env_comm_point_create_udp ex_env;
     env_send_udp_msg := env_send_udp_msg ex_env;
     env_random := env_random ex_env;
     env_double_index := env_double_index ex_env;
     env_str_is_ip6 := env_str_is_ip6 ex_env;
     env_INET6 := env_INET6 ex_env;
     env_stack_junk := env_stack_junk ex_env;
     env_heap_junk := env_heap_junk ex_env |}.

(** The environment [ex_env], except that the eleventh question, which is
    the [comm_point_create_udp] for the second socket, is answered with
    NULL. *)
Definition ex_env_nocomm : environment :=
  {| env_alloc := env_alloc ex_env;
     env_getaddrinfo := env_getaddrinfo ex_env;
     env_create_udp_sock := env_create_udp_sock ex_env;
     env_comm_point_create_udp :=
       fun n => if (n =? 10)%nat then None else Some (100 + n)%nat;
     env_send_udp_msg := env_send_udp_msg ex_env;
     env_random := env_random ex_env;
     env_double_index := env_double_index ex_env;
     env_str_is_ip6 := env_str_is_ip6 ex_env;
     env_INET6 := env_INET6 ex_env;
     env_stack_junk := env_stack_junk ex_env;
     env_heap_junk := env_heap_junk ex_env |}.

(** Four IPv4 ports, no IPv6, no interface given, ports chosen by the
    system. *)
Definition ex_create (env : environment) : outcome (option outnet_ref) :=
  outside_network_create env 0 16 4 [] 0 true false (-1) ex_empty.

Definition ex_created_world : world :=
  match ex_create ex_env with Done _ w => w | Fault => ex_empty end.

Definition ex_created_outnet : outside_network :=
  match w_outnet ex_created_world with Some o => o | None => zero_outnet end.

(** ** The dispatcher between two calls *)

(** A node of the pending tree as [new_pending] leaves it: it points back
    to its dispatcher and owns a timer. *)
Definition node_ok (h : gmap ptr pending) (q : ptr) : bool :=
  match h !! q with
  | Some pd =>
      match pend_outnet pd, pend_timer pd with
      | Some _, Some _ => true
      | _, _ => false
      end
  | None => false
  end.

Definition is_comm_point (c : option comm_point) : bool :=
  match c with Some _ => true | None => false end.

(** A port array that holds [n] sockets: its first [n] entries are comm
    points. *)
Definition pool_ok (a : option (list (option comm_point))) (n : Z) : bool :=
  match a with
  | Some l =>
      (0 <=? n) && (n <=? Z.of_nat (length l)) &&
      forallb is_comm_point (take (Z.to_nat n) l)
  | None => false
  end.

(** What holds of a world whenever the reactor is about to call into the
    dispatcher: there is a dispatcher with its buffer, its two pools and
    its tree, and the tree satisfies [index_ok] over nodes that are
    [node_ok]. *)
Definition dispatcher_ok (w : world) : bool :=
  match w_outnet w with
  | Some o =>
      match udp_buff o, pending_tree o with
      | Some _, Some tree =>
          index_ok (w_pend w) tree && forallb (node_ok (w_pend w)) tree &&
          pool_ok (udp4_ports o) (num_udp4 o) &&
          pool_ok (udp6_ports o) (num_udp6 o)
      | _, _ => false
      end
  | None => false
  end.

(** The pool that [select_port] draws from for a destination, and its
    size. *)
Definition pool_for (o : outside_network) (addr : sockaddr_storage)
  : option (list (option comm_point)) :=
  if addr_is_ip6 addr then udp6_ports o else udp4_ports o.

Definition pool_size (o : outside_network) (addr : sockaddr_storage) : Z :=
  if addr_is_ip6 addr then num_udp6 o else num_udp4 o.

(** The destination as [new_pending] stores it. *)
Definition stored_addr (addr : sockaddr_storage) (addrlen : Z)
  : sockaddr_storage :=
  memcpy (replicate SOCKADDR_STORAGE_SIZE 0) addr (Z.to_nat addrlen).

(** Whether the first [addrlen] bytes of an address hold every field that
    [pending_cmp] reads for its family: the family itself, and for the two
    known families the port and the address. *)
Definition key_covered (addr : sockaddr_storage) (addrlen : Z) : bool :=
  (2 <=? addrlen) &&
  (if sin_family addr =? AF_INET then 8 <=? addrlen
   else if sin_family addr =? AF_INET6 then 24 <=? addrlen
   else true).

(** The calls of [getaddrinfo] in a trace, in order: the interface, the
    port ([None] is a port left to the system) and the hints. *)
Definition getaddrinfo_calls (tr : list event)
  : list (option string * option Z * addrinfo) :=
  omap (fun e => match e with
                 | EvGetaddrinfo ifname port hints =>
                     Some (ifname, port, hints)
                 | _ => None
                 end) tr.

(** The hints that [make_udp_range] hands to [getaddrinfo]. *)
Definition udp_hints (ifname : option string) (do_ip4 do_ip6 : bool)
  : addrinfo :=
  {| ai_flags :=
       match ifname with
       | Some _ => Z.lor AI_PASSIVE AI_NUMERICHOST
       | None => AI_PASSIVE
       end;
     ai_family :=
       if do_ip4 && do_ip6 then AF_UNSPEC
       else if do_ip4 then AF_INET
       else if do_ip6 then AF_INET6
       else AF_UNSPEC;
     ai_socktype := SOCK_DGRAM |}.

(** The events of opening a socket. *)
Definition is_open (e : event) : bool :=
  match e with
  | EvGetaddrinfo _ _ _ | EvCreateUdpSock _ | EvCommPointCreate _ _ => true
  | _ => false
  end.

(** The timers that a trace shows as deleted, in order. *)
Definition timers_deleted (tr : list event) : list ptr :=
  omap (fun e => match e with EvTimerDelete p => Some p | _ => None end) tr.

(** ** Runs of the dispatcher *)

(** The calls that reach a dispatcher once it is built: a query is
    submitted; the reactor reports a datagram, or a receive error, on one
    of the sockets, after it has received into the shared buffer; the
    reactor reports that the timer of a pending of the index has run
    out. *)
Inductive call :=
| Submit (packet : list Z) (addr : sockaddr_storage) (addrlen : Z)
         (timeout : Z) (cb : callback) (cb_arg : Z)
| Receive (c : comm_point) (buf : list Z) (error : Z) (reply : comm_reply)
| Expire (p : ptr).

Definition is_submit (a : call) : bool :=
  match a with Submit _ _ _ _ _ _ => true | _ => false end.

(** One call that returns, and the world it leaves. *)
Inductive step (env : environment) : world -> call -> world -> Prop :=
| step_submit w packet addr addrlen timeout cb cb_arg packet' w' :
    pending_udp_query env (Some the_outnet) packet addr addrlen timeout
                      cb cb_arg w = Done packet' w' ->
    step env w (Submit packet addr addrlen timeout cb cb_arg) w'
| step_receive w c buf error reply r w' :
    outnet_udp_cb env c (Some the_outnet) error (Some reply)
                  (with_datagram w buf) = Done r w' ->
    step env w (Receive c buf error reply) w'
| step_expire w p o tree w' :
    w_outnet w = Some o -> pending_tree o = Some tree -> In p tree ->
    pending_udp_timer_cb p w = Done tt w' ->
    step env w (Expire p) w'.

Inductive steps (env : environment) : world -> list call -> world -> Prop :=
| steps_nil w : steps env w [] w
| steps_cons w a w1 l w2 :
    step env w a w1 -> steps env w1 l w2 -> steps env w (a :: l) w2.

(** The number of pendings in the index. *)
Definition pending_count (w : world) : nat :=
  match w_outnet w with
  | Some o => match pending_tree o with Some t => length t | None => 0%nat end
  | None => 0%nat
  end.

(** [ex_world] after the submit of [ex_submit], and then a reply to it
    from [ex_dest], received on the socket that the submit chose. *)
Definition ex_after_reply : world :=
  match outnet_udp_cb ex_env 100%nat (Some the_outnet) NETEVENT_NOERROR
          (Some ex_reply) (with_datagram ex_after_submit [52; 87; 129; 128])
  with
  | Done _ w => w
  | Fault => ex_world
  end.

(** And then the timeout of [ex_pending], which was pending all along. *)
Definition ex_after_expire : world :=
  match pending_udp_timer_cb 0%nat ex_after_reply with
  | Done _ w => w
  | Fault => ex_world
  end.

Definition ex_calls : list call :=
  [Submit ex_packet ex_dest 16 3 7%nat 9;
   Receive 100%nat [52; 87; 129; 128] NETEVENT_NOERROR ex_reply;
   Expire 0%nat].

(** Four more sockets for [ex_world], on the ports from 5300 on. *)
Definition ex_after_range : world :=
  match make_udp_range ex_env (Udp4, 0) None 4 true false 5300
          (Some the_outnet) ex_world with
  | Done _ w => w
  | Fault => ex_world
  end.

(* ===================================================================== *)
(** * Properties *)
(* ===================================================================== *)

Section LexCompare.

Lemma lex_compare_refl k : lex_compare k k = Eq.
Proof. induction k as [|x k IH]; simpl; [done|]. by rewrite Z.compare_refl. Qed.

Lemma lex_compare_eq k1 k2 : lex_compare k1 k2 = Eq <-> k1 = k2.
Proof.
  split; [|intros ->; apply lex_compare_refl].
  revert k2; induction k1 as [|x k1 IH]; intros [|y k2]; simpl; try done.
  destruct (x ?= y) eqn:E; try done.
  apply Z.compare_eq in E. intros H. f_equal; auto.
Qed.

Lemma lex_compare_antisym k1 k2 :
  lex_compare k2 k1 = CompOpp (lex_compare k1 k2).
Proof.
  revert k2; induction k1 as [|x k1 IH]; intros [|y k2]; simpl; try done.
  rewrite (Z.compare_antisym x y).
  destruct (x ?= y); simpl; auto.
Qed.

Lemma lex_compare_trans k1 k2 k3 :
  lex_compare k1 k2 = Lt -> lex_compare k2 k3 = Lt -> lex_compare k1 k3 = Lt.
Proof.
  revert k2 k3; induction k1 as [|x k1 IH]; intros [|y k2] [|z k3]; simpl;
    try done.
  destruct (x ?= y) eqn:Exy; try done.
  - apply Z.compare_eq in Exy; subst y.
    destruct (x ?= z); try done. apply IH.
  - intros _. destruct (y ?= z) eqn:Eyz; try done.
    + apply Z.compare_eq in Eyz; subst z. by rewrite Exy.
    + intros _. rewrite Z.compare_lt_iff in Exy, Eyz.
      assert (x < z) as Hxz by lia. rewrite <- Z.compare_lt_iff in Hxz.
      by rewrite Hxz.
Qed.

Lemma memcmp_lex a b off n :
  sign_of (memcmp a b off n) = lex_compare (bytes_at a off n) (bytes_at b off n).
Proof.
  unfold bytes_at, sign_of. revert off; induction n as [|n IH]; intros off; simpl.
  - done.
  - destruct (Z.eqb_spec (byte_at a off) (byte_at b off)) as [E|E].
    + rewrite E, Z.compare_refl. apply IH.
    + destruct (byte_at a off ?= byte_at b off) eqn:C.
      * apply Z.compare_eq in C. done.
      * rewrite Z.compare_lt_iff in C |- *. lia.
      * rewrite Z.compare_gt_iff in C |- *. lia.
Qed.

End LexCompare.

(** One three-way step of the comparison: [x < y], [x > y], or equal and
    on to the next component. *)
Ltac three_way x y :=
  let H := fresh "H" in
  destruct (Z.ltb_spec x y) as [H|H];
  [ rewrite (proj2 (Z.compare_lt_iff x y) H); reflexivity
  | let H' := fresh "H" in
    destruct (Z.gtb_spec x y) as [H'|H'];
    [ rewrite (proj2 (Z.compare_gt_iff x y) H'); reflexivity
    | let E := fresh "E" in
      assert (x = y) as E by lia; rewrite !E; clear E H H';
      rewrite Z.compare_refl ] ].

(** The comparison of the source is the lexicographic comparison of the
    key tuples. *)
Lemma pending_cmp_lex p1 p2 :
  sign_of (pending_cmp p1 p2) = lex_compare (key_tuple p1) (key_tuple p2).
Proof.
  unfold pending_cmp, key_tuple. simpl lex_compare.
  three_way (pend_id p1) (pend_id p2).
  three_way (pend_addrlen p1) (pend_addrlen p2).
  three_way (sin_family (pend_addr p1)) (sin_family (pend_addr p2)).
  destruct (sin_family (pend_addr p2) =? AF_INET);
    [|destruct (sin_family (pend_addr p2) =? AF_INET6)]; simpl lex_compare.
  - three_way (sin_port (pend_addr p1)) (sin_port (pend_addr p2)).
    apply memcmp_lex.
  - three_way (sin_port (pend_addr p1)) (sin_port (pend_addr p2)).
    apply memcmp_lex.
  - apply memcmp_lex.
Qed.

Lemma sign_of_zero r : sign_of r = Eq <-> r = 0.
Proof. unfold sign_of. apply Z.compare_eq_iff. Qed.

Lemma sign_of_neg r : sign_of r = Lt <-> r < 0.
Proof. unfold sign_of. apply Z.compare_lt_iff. Qed.

Lemma pending_cmp_zero_iff p1 p2 :
  pending_cmp p1 p2 = 0 <-> key_tuple p1 = key_tuple p2.
Proof.
  rewrite <- sign_of_zero, pending_cmp_lex. apply lex_compare_eq.
Qed.

Lemma pending_cmp_refl p : pending_cmp p p = 0.
Proof. by apply pending_cmp_zero_iff. Qed.

(** Two records that compare equal to the same key compare equal. *)
Lemma pending_cmp_zero_join key p1 p2 :
  pending_cmp key p1 = 0 -> pending_cmp key p2 = 0 -> pending_cmp p1 p2 = 0.
Proof.
  rewrite !pending_cmp_zero_iff. congruence.
Qed.

(** ** The order of the pending tree *)

(** C7. The compare function of the pending tree orders two keys
    lexicographically by id, then addrlen, then family, then port (in
    stored byte order), then the raw address bytes (4 for IPv4, 16 for
    IPv6), and for unknown families by memcmp over addrlen bytes of the
    address storage; it is a total order, and returns 0 exactly when the
    key tuples are equal. *)
Theorem pending_cmp_total_order :
  (forall p1 p2,
     sign_of (pending_cmp p1 p2) = lex_compare (key_tuple p1) (key_tuple p2))
  /\ (forall p1 p2, pending_cmp p1 p2 = 0 <-> key_tuple p1 = key_tuple p2)
  /\ (forall p1 p2,
        sign_of (pending_cmp p2 p1) = CompOpp (sign_of (pending_cmp p1 p2)))
  /\ (forall p1 p2 p3,
        pending_cmp p1 p2 < 0 -> pending_cmp p2 p3 < 0 -> pending_cmp p1 p3 < 0).
Proof.
  split; [exact pending_cmp_lex|].
  split; [exact pending_cmp_zero_iff|].
  split.
  - intros p1 p2. rewrite !pending_cmp_lex. apply lex_compare_antisym.
  - intros p1 p2 p3. rewrite <- !sign_of_neg, !pending_cmp_lex.
    apply lex_compare_trans.
Qed.

(** ** Arithmetic of the conversions *)

Lemma to_int_small x : - 2 ^ 31 <= x < 2 ^ 31 -> to_int x = x.
Proof.
  intros H. unfold to_int.
  destruct (Z.le_gt_cases 0 x) as [Hx|Hx].
  - rewrite Z.mod_small by lia.
    destruct (Z.ltb_spec x (2 ^ 31)); lia.
  - replace (x mod 2 ^ 32) with (x + 2 ^ 32).
    + destruct (Z.ltb_spec (x + 2 ^ 32) (2 ^ 31)); lia.
    + apply Z.mod_unique with (q := -1); lia.
Qed.

Lemma to_size_t_small x : 0 <= x < 2 ^ 64 -> to_size_t x = x.
Proof. intros H. unfold to_size_t. by apply Z.mod_small. Qed.

Lemma clamp_chosen_range chosen nummax :
  0 < nummax <= INT_MAX ->
  0 <= clamp_chosen chosen nummax < nummax.
Proof.
  unfold INT_MAX, clamp_chosen. intros H.
  rewrite to_int_small by lia.
  destruct (Z.ltb_spec chosen 0);
    match goal with |- context [?a >=? ?b] => destruct (Z.geb_spec a b) end; lia.
Qed.

(** ** Stepping through the state transformers *)

Lemma logged_nil w : logged w [] = w.
Proof. destruct w; unfold logged; simpl. by rewrite app_nil_r. Qed.

Lemma logged_logged w e1 e2 : logged (logged w e1) e2 = logged w (e1 ++ e2).
Proof. unfold logged; simpl. by rewrite app_assoc. Qed.

Lemma emit_logged e w : emit e w = Done tt (logged w [e]).
Proof. reflexivity. Qed.

(** Unfolds the primitive state transformers and the world projections,
    and nothing else. *)
Ltac run :=
  cbv beta iota zeta delta
    [bind ret fault emit ask set_outnet set_pend get_pend deref deref_outnet
     modify free_pend call_cb alloc ldns_buffer_new ub_random logged];
  cbn [w_outnet w_pend w_trace w_asked w_rnd fst snd negb].

(** ** The reply handler on a receive error *)

(** C10. A receive event with a nonzero error status makes the UDP reply
    handler return right after logging: whatever the world is, also one
    without a dispatcher or an index to look into, the result is the same
    world with two log lines added; no callback, no change to the index,
    the pendings or their timers. *)
Theorem outnet_udp_cb_error env c arg error reply_info w :
  error <> NETEVENT_NOERROR ->
  outnet_udp_cb env c arg error reply_info w =
    Done 0 (logged w [EvLog VERB_ALGO "answer cb" [];
                      EvLog LOG_INFO "outnetudp got udp error %d" [error]]).
Proof.
  intros Herr. unfold outnet_udp_cb, bind, emit, ret, logged.
  destruct (Z.eqb_spec error NETEVENT_NOERROR) as [E|_]; [done|].
  simpl. by rewrite <- app_assoc.
Qed.

Lemma outnet_udp_cb_error_witness :
  -1 <> NETEVENT_NOERROR /\
  outnet_udp_cb ex_env 100%nat (Some the_outnet) (-1) (Some ex_reply) ex_world =
    Done 0 (logged ex_world
              [EvLog VERB_ALGO "answer cb" [];
               EvLog LOG_INFO "outnetudp got udp error %d" [-1]]).
Proof.
  split; [discriminate|]. apply outnet_udp_cb_error. discriminate.
Defined.

(** ** Socket selection *)

(** With room for the family count in an [int], [select_port] reads the
    pool array at an index below the count and stores what it finds. *)
Lemma select_port_reads_pool env w o pend pd ports N :
  w_outnet w = Some o ->
  w_pend w !! pend = Some pd ->
  N = (if addr_is_ip6 (pend_addr pd) then num_udp6 o else num_udp4 o) ->
  (if addr_is_ip6 (pend_addr pd) then udp6_ports o else udp4_ports o)
    = Some ports ->
  0 < N <= INT_MAX ->
  N <= Z.of_nat (length ports) ->
  exists i c w',
    0 <= i < N /\
    ports !! Z.to_nat i = Some c /\
    select_port env (Some the_outnet) pend w = Done tt w' /\
    w_pend w' = <[pend := with_c pd c]> (w_pend w) /\
    w_outnet w' = w_outnet w.
Proof.
  intros Ho Hp HN Hports Hrange Hlen.
  set (nummax := to_int N).
  assert (nummax = N) as Hnm
    by (unfold nummax; apply to_int_small; unfold INT_MAX in *; lia).
  set (i := clamp_chosen (env_double_index env (env_random env (w_rnd w)) nummax)
                         nummax).
  assert (0 <= i < N) as Hi
    by (unfold i; rewrite Hnm; apply clamp_chosen_range; lia).
  destruct (lookup_lt_is_Some_2 ports (Z.to_nat i)) as [c Hc]; [lia|].
  exists i, c.
  unfold select_port. run. rewrite Ho. run. rewrite Hp.
  assert ((if addr_is_ip6 (pend_addr pd) then to_int (num_udp6 o)
           else to_int (num_udp4 o)) = nummax) as ->
    by (unfold nummax; rewrite HN; by destruct (addr_is_ip6 _)).
  destruct (Z.eqb_spec nummax 0) as [E|_]; [lia|].
  fold i.
  assert ((if addr_is_ip6 (pend_addr pd)
           then array_get (udp6_ports o) i else array_get (udp4_ports o) i)
          = ret c) as ->.
  { assert (forall a, a = Some ports -> array_get a i = ret c) as Hget.
    { intros a ->. unfold array_get.
      destruct (Z.ltb_spec i 0); [lia|]. by rewrite Hc. }
    destruct (addr_is_ip6 _); by apply Hget. }
  run. rewrite Hp. run. eauto 10.
Qed.

(** C8. With a non-empty pool of N sockets for the family of the
    destination, the index [select_port] reads the pool at lies in
    [0, N) whatever the floating-point computation of the draw returns,
    and the pending's socket reference is that entry of the pool array. *)
Theorem select_port_in_pool env w o pend pd ports N :
  w_outnet w = Some o ->
  w_pend w !! pend = Some pd ->
  N = (if addr_is_ip6 (pend_addr pd) then num_udp6 o else num_udp4 o) ->
  (if addr_is_ip6 (pend_addr pd) then udp6_ports o else udp4_ports o)
    = Some ports ->
  0 < N <= INT_MAX ->
  N <= Z.of_nat (length ports) ->
  exists i c w',
    0 <= i < N /\
    ports !! Z.to_nat i = Some c /\
    select_port env (Some the_outnet) pend w = Done tt w' /\
    w_pend w' = <[pend := with_c pd c]> (w_pend w) /\
    w_outnet w' = w_outnet w.
Proof. exact (select_port_reads_pool env w o pend pd ports N). Qed.

Lemma select_port_in_pool_witness :
  exists i c w',
    0 <= i < 4 /\
    [Some 100; Some 101; Some 102; Some 103; None]%nat !! Z.to_nat i = Some c /\
    select_port ex_env (Some the_outnet) 0%nat ex_world = Done tt w' /\
    w_pend w' = <[0%nat := with_c ex_pending c]> (w_pend ex_world) /\
    w_outnet w' = w_outnet ex_world.
Proof.
  apply (select_port_in_pool ex_env ex_world ex_outnet 0%nat ex_pending
           [Some 100; Some 101; Some 102; Some 103; None]%nat 4);
    try reflexivity; vm_compute; intuition discriminate.
Defined.

(** ** The pending tree and its invariant *)

Section Index.

Context (h : gmap ptr pending).

Lemma same_key_sym q1 q2 : same_key h q1 q2 = same_key h q2 q1.
Proof.
  unfold same_key. destruct (h !! q1) as [a|], (h !! q2) as [b|]; try done.
  destruct (Z.eqb_spec (pending_cmp a b) 0) as [E|E],
           (Z.eqb_spec (pending_cmp b a) 0) as [E'|E']; try done;
    rewrite pending_cmp_zero_iff in *; congruence.
Qed.

Lemma index_ok_live tree q :
  index_ok h tree = true -> In q tree -> is_Some (h !! q).
Proof.
  induction tree as [|a t IH]; simpl; [done|].
  rewrite !andb_true_iff. intros [[Hl _] Ht] [->|Hin]; [|by auto].
  unfold live in Hl. destruct (h !! q); [eauto|done].
Qed.

Lemma index_ok_unique tree q1 q2 :
  index_ok h tree = true -> In q1 tree -> In q2 tree ->
  same_key h q1 q2 = true -> q1 = q2.
Proof.
  induction tree as [|a t IH]; simpl; [done|].
  rewrite !andb_true_iff, negb_true_iff.
  intros [[_ Hex] Ht] [->|H1] [->|H2] Hk; auto.
  - assert (existsb (same_key h q1) t = true)
      by (apply existsb_exists; eauto).
    congruence.
  - assert (existsb (same_key h q2) t = true)
      by (apply existsb_exists; exists q1; by rewrite same_key_sym).
    congruence.
Qed.

Lemma find_all_false {A} (f : A -> bool) l :
  (forall x, In x l -> f x = false) -> List.find f l = None.
Proof.
  induction l as [|a l IH]; simpl; [done|]. intros H.
  rewrite (H a) by auto. apply IH. auto.
Qed.

(** In a well-formed tree the lookup of a key finds the node that
    carries it. *)
Lemma rbtree_search_finds tree key q pd :
  index_ok h tree = true -> In q tree -> h !! q = Some pd ->
  pending_cmp key pd = 0 ->
  rbtree_search h tree key = Some q.
Proof.
  intros Hok Hin Hq Hk. unfold rbtree_search.
  induction tree as [|a t IH]; [done|]. simpl.
  destruct (key_matches h key a) eqn:Ha.
  - f_equal. apply (index_ok_unique (a :: t)); auto; [by left|].
    unfold key_matches in Ha. unfold same_key. rewrite Hq.
    destruct (h !! a) as [pda|]; [|done].
    apply Z.eqb_eq in Ha. apply Z.eqb_eq.
    by apply (pending_cmp_zero_join key).
  - destruct Hin as [->|Hin].
    + unfold key_matches in Ha. rewrite Hq in Ha.
      apply Z.eqb_neq in Ha. done.
    + apply IH; [|done]. simpl in Hok.
      by apply andb_true_iff in Hok as [_ ?].
Qed.

(** Deleting the key of a node takes out that node and no other. *)
Lemma rbtree_delete_removes tree q pd :
  index_ok h tree = true -> In q tree -> h !! q = Some pd ->
  forall q', In q' (rbtree_delete h tree pd) <-> In q' tree /\ q' <> q.
Proof.
  intros Hok Hin Hq. unfold rbtree_delete.
  assert (key_matches h pd q = true) as Hmq.
  { unfold key_matches. rewrite Hq. apply Z.eqb_eq, pending_cmp_refl. }
  assert (forall a, In a tree -> key_matches h pd a = true -> a = q) as Honly.
  { intros a Ha Hm. apply (index_ok_unique tree); auto.
    unfold key_matches in Hm. unfold same_key. rewrite Hq.
    destruct (h !! a) as [pda|]; [|done].
    apply Z.eqb_eq in Hm. apply Z.eqb_eq.
    by apply pending_cmp_zero_iff, eq_sym, pending_cmp_zero_iff. }
  induction tree as [|a t IH]; [done|]. simpl.
  simpl in Hok. apply andb_true_iff in Hok as [Hok Hokt].
  apply andb_true_iff in Hok as [Hla Hex]. apply negb_true_iff in Hex.
  destruct (key_matches h pd a) eqn:Ha.
  - assert (a = q) as -> by (apply Honly; [by left|done]).
    intros q'. split.
    + intros Hq'. split; [by right|]. intros ->.
      assert (existsb (same_key h q) t = true); [|congruence].
      apply existsb_exists. exists q. split; [done|].
      unfold same_key. rewrite Hq. apply Z.eqb_eq, pending_cmp_refl.
    + intros [[->|Hq'] Hne]; done.
  - assert (a <> q) as Hne by (intros ->; congruence).
    destruct Hin as [->|Hin]; [done|].
    intros q'. simpl. rewrite IH; auto.
    + split; [intros [->|[? ?]]; auto | intros [[->|?] ?]; auto].
    + intros a' Ha' Hm. apply Honly; [by right|done].
Qed.

(** After the node is deleted and freed, no lookup of its key hits. *)
Lemma rbtree_search_after_delete tree key q pd :
  index_ok h tree = true -> In q tree -> h !! q = Some pd ->
  pending_cmp key pd = 0 ->
  rbtree_search (delete q h) (rbtree_delete h tree pd) key = None.
Proof.
  intros Hok Hin Hq Hk. apply find_all_false. intros q' Hq'.
  apply (rbtree_delete_removes tree q pd Hok Hin Hq) in Hq' as [Hq' Hne].
  unfold key_matches. rewrite lookup_delete_ne by done.
  destruct (h !! q') as [pd'|] eqn:E; [|done].
  apply Z.eqb_neq. intros Hk'. apply Hne.
  apply (index_ok_unique tree); auto.
  unfold same_key. rewrite E, Hq. apply Z.eqb_eq.
  by apply (pending_cmp_zero_join key).
Qed.

End Index.

Lemma callbacks_app tr1 tr2 : callbacks (tr1 ++ tr2) = callbacks tr1 ++ callbacks tr2.
Proof. unfold callbacks. apply List.filter_app. Qed.

(** ** Replies on the wrong socket *)

(** C3. A datagram whose key matches a live pending of the index, but
    that was received on another socket than the one chosen for that
    pending, is dropped: the handler returns after six log lines and no
    callback, in a world whose index, pendings and timers are those it
    started from. *)
Theorem outnet_udp_cb_wrong_port env w o buf tree c reply p pd :
  w_outnet w = Some o ->
  udp_buff o = Some buf ->
  pending_tree o = Some tree ->
  index_ok (w_pend w) tree = true ->
  In p tree ->
  w_pend w !! p = Some pd ->
  pending_cmp (lookup_key env buf reply) pd = 0 ->
  pend_c pd <> Some c ->
  outnet_udp_cb env c (Some the_outnet) NETEVENT_NOERROR (Some reply) w =
    Done 0 (logged w
      [EvLog VERB_ALGO "answer cb" [];
       EvLog VERB_ALGO "Incoming reply id=%4.4x addr=" [LDNS_ID_WIRE buf];
       EvLogAddr (pend_addr (lookup_key env buf reply)) (reply_addrlen reply);
       EvLog VERB_ALGO "lookup size is %d entries" [Z.of_nat (length tree)];
       EvLog VERB_ALGO "received udp reply." [];
       EvLog VERB_DETAIL "received reply id,addr on wrong port. dropped." []]).
Proof.
  intros Ho Hbuf Htree Hok Hin Hp Hkey Hc.
  unfold outnet_udp_cb. run. rewrite Z.eqb_refl. run.
  rewrite Ho. run. rewrite Hbuf. run. rewrite Htree. run.
  rewrite (rbtree_search_finds (w_pend w) tree _ p pd Hok Hin Hp Hkey).
  run. rewrite Hp. run.
  rewrite bool_decide_eq_true_2 by done. run.
  rewrite <- !app_assoc. reflexivity.
Qed.

Lemma outnet_udp_cb_wrong_port_witness :
  outnet_udp_cb ex_env 101%nat (Some the_outnet) NETEVENT_NOERROR
                (Some ex_reply) ex_world =
    Done 0 (logged ex_world
      [EvLog VERB_ALGO "answer cb" [];
       EvLog VERB_ALGO "Incoming reply id=%4.4x addr="
             [LDNS_ID_WIRE ex_datagram];
       EvLogAddr (pend_addr (lookup_key ex_env ex_datagram ex_reply))
                 (reply_addrlen ex_reply);
       EvLog VERB_ALGO "lookup size is %d entries" [Z.of_nat (length [0%nat])];
       EvLog VERB_ALGO "received udp reply." [];
       EvLog VERB_DETAIL "received reply id,addr on wrong port. dropped." []]).
Proof.
  apply (outnet_udp_cb_wrong_port ex_env ex_world ex_outnet ex_datagram
           [0%nat] 101%nat ex_reply 0%nat ex_pending);
    try reflexivity; [by left | discriminate].
Defined.

(** ** Timeout, then a late reply *)

(** C4. When the timer of a pending of the index fires, the timeout
    handler calls the user callback once, with the timeout status, and
    takes the pending out of the index before it returns.  A datagram
    with the key of that pending that is received afterwards, on any
    socket, misses in the index and is dropped as unsolicited: no further
    callback. *)
Theorem timeout_then_late_reply env w o tree p pd :
  w_outnet w = Some o ->
  pending_tree o = Some tree ->
  index_ok (w_pend w) tree = true ->
  In p tree ->
  w_pend w !! p = Some pd ->
  pend_outnet pd = Some the_outnet ->
  exists w1 tree1,
    pending_udp_timer_cb p w = Done tt w1 /\
    w_outnet w1 = Some (with_tree o (Some tree1)) /\
    ~ In p tree1 /\
    w_pend w1 = delete p (w_pend w) /\
    callbacks (w_trace w1) =
      callbacks (w_trace w) ++
      [EvCallback (pend_cb pd) (pend_c pd) (pend_cb_arg pd) NETEVENT_TIMEOUT] /\
    forall c reply buf,
      pending_cmp (lookup_key env buf reply) pd = 0 ->
      exists evs,
        outnet_udp_cb env c (Some the_outnet) NETEVENT_NOERROR (Some reply)
                      (with_datagram w1 buf) =
          Done 0 (logged (with_datagram w1 buf) evs) /\
        callbacks evs = [] /\
        In (EvLog VERB_DETAIL "received unsolicited udp reply. dropped." []) evs.
Proof.
  intros Ho Htree Hok Hin Hp Hback.
  exists {| w_outnet :=
              Some (with_tree o (Some (rbtree_delete (w_pend w) tree pd)));
            w_pend := delete p (w_pend w);
            w_trace :=
              w_trace w ++
              [EvLog VERB_ALGO "timeout udp" [];
               EvCallback (pend_cb pd) (pend_c pd) (pend_cb_arg pd)
                          NETEVENT_TIMEOUT] ++
              match pend_timer pd with
              | Some _ => [EvTimerDelete p]
              | None => []
              end;
            w_asked := w_asked w; w_rnd := w_rnd w |},
         (rbtree_delete (w_pend w) tree pd).
  split; [|split; [done|split; [|split; [done|split]]]].
  - unfold pending_udp_timer_cb, pending_delete. run. rewrite Hp. run.
    rewrite Hp, Hback. run. rewrite Ho. run. rewrite Hp, Htree. run.
    rewrite Hp. destruct (pend_timer pd); run; rewrite Hp;
      rewrite <- ?app_assoc; reflexivity.
  - intros Hbad.
    apply (rbtree_delete_removes _ tree p pd Hok Hin Hp) in Hbad. tauto.
  - cbn [w_trace]. rewrite callbacks_app. f_equal.
    destruct (pend_timer pd); reflexivity.
  - intros c reply buf Hkey. eexists. split; [|split].
    + unfold outnet_udp_cb, with_datagram. run. rewrite Z.eqb_refl. run.
      cbn [udp_buff pending_tree with_udp_buff with_tree]. run.
      rewrite (rbtree_search_after_delete _ tree _ p pd Hok Hin Hp Hkey).
      run. rewrite <- !app_assoc. reflexivity.
    + reflexivity.
    + cbn. tauto.
Qed.

Lemma timeout_then_late_reply_witness :
  exists w1 tree1,
    pending_udp_timer_cb 0%nat ex_world = Done tt w1 /\
    w_outnet w1 = Some (with_tree ex_outnet (Some tree1)) /\
    ~ In 0%nat tree1 /\
    w_pend w1 = delete 0%nat (w_pend ex_world) /\
    callbacks (w_trace w1) =
      callbacks (w_trace ex_world) ++
      [EvCallback (pend_cb ex_pending) (pend_c ex_pending)
                  (pend_cb_arg ex_pending) NETEVENT_TIMEOUT] /\
    forall c reply buf,
      pending_cmp (lookup_key ex_env buf reply) ex_pending = 0 ->
      exists evs,
        outnet_udp_cb ex_env c (Some the_outnet) NETEVENT_NOERROR (Some reply)
                      (with_datagram w1 buf) =
          Done 0 (logged (with_datagram w1 buf) evs) /\
        callbacks evs = [] /\
        In (EvLog VERB_DETAIL "received unsolicited udp reply. dropped." []) evs.
Proof.
  apply (timeout_then_late_reply ex_env ex_world ex_outnet [0%nat] 0%nat
           ex_pending); try reflexivity. by left.
Defined.

(** ** The wire ID *)

Lemma random_id_range r : 0 <= random_id r < 65536.
Proof.
  unfold random_id. change 65535 with (Z.ones 16).
  rewrite Z.land_ones by lia.
  pose proof (Z.mod_pos_bound (Z.shiftr (to_unsigned r) 8) (2 ^ 16)). lia.
Qed.

Lemma id_bytes_join id :
  0 <= id < 65536 ->
  Z.lor (Z.shiftl (Z.land (Z.shiftr id 8) 255) 8) (Z.land id 255) = id.
Proof.
  intros Hid. apply Z.bits_inj'. intros n Hn.
  rewrite Z.lor_spec, Z.land_spec. change 255 with (Z.ones 8).
  rewrite (Z.testbit_ones_nonneg 8 n) by lia.
  destruct (Z.ltb_spec n 8).
  - rewrite Z.shiftl_spec_low by lia. simpl. by rewrite andb_true_r.
  - rewrite Z.shiftl_spec by lia.
    rewrite Z.land_spec, Z.shiftr_spec by lia.
    rewrite Z.testbit_ones_nonneg by lia.
    replace (n - 8 + 8) with n by lia.
    rewrite andb_false_r, orb_false_r.
    destruct (Z.ltb_spec (n - 8) 8); [by rewrite andb_true_r|].
    rewrite andb_false_r. symmetry.
    rewrite <- (Z.mod_small id (2 ^ 16)) by lia.
    apply Z.mod_pow2_bits_high. lia.
Qed.

Lemma LDNS_ID_SET_wire packet id w packet' w' :
  0 <= id < 65536 ->
  LDNS_ID_SET packet id w = Done packet' w' ->
  LDNS_ID_WIRE packet' = id /\ w' = w /\ length packet' = length packet.
Proof.
  intros Hid. unfold LDNS_ID_SET.
  destruct (Nat.leb_spec 2 (length packet)) as [Hlen|Hlen]; [|done].
  unfold ret. intros [= <- <-]. split; [|split; [done|]].
  - unfold LDNS_ID_WIRE, byte_at. rewrite !nth_lookup.
    rewrite list_lookup_insert_ne by done.
    rewrite list_lookup_insert_eq by lia.
    rewrite list_lookup_insert_eq by (rewrite length_insert; lia).
    simpl. by apply id_bytes_join.
  - by rewrite !length_insert.
Qed.

Lemma LDNS_ID_SET_runs packet id w :
  (2 <= length packet)%nat ->
  exists packet', LDNS_ID_SET packet id w = Done packet' w /\
                  length packet' = length packet.
Proof.
  intros Hlen. unfold LDNS_ID_SET.
  destruct (Nat.leb_spec 2 (length packet)); [|lia].
  eexists. split; [reflexivity|]. by rewrite !length_insert.
Qed.

(** ** Registering a new pending *)

Lemma with_id_id pd : with_id pd (pend_id pd) = pd.
Proof. by destruct pd. Qed.

Lemma with_id_with_id pd a b : with_id (with_id pd a) b = with_id pd b.
Proof. reflexivity. Qed.

Lemma insert_node_run w o tree pend pd :
  w_outnet w = Some o ->
  pending_tree o = Some tree ->
  w_pend w !! pend = Some pd ->
  insert_node (Some the_outnet) pend w =
    match rbtree_search (w_pend w) tree pd with
    | Some _ => Done false w
    | None =>
        Done true {| w_outnet := Some (with_tree o (Some (tree ++ [pend])));
                     w_pend := w_pend w; w_trace := w_trace w;
                     w_asked := w_asked w; w_rnd := w_rnd w |}
    end.
Proof.
  intros Ho Htree Hp. unfold insert_node, rbtree_insert. run.
  rewrite Ho. run. rewrite Hp. run. rewrite Htree, Hp.
  destruct (rbtree_search (w_pend w) tree pd); reflexivity.
Qed.

(** What a completed run of the insertion loop leaves behind: either the
    pending is gone again, or it is in the tree with the ID that is on
    the wire, and that ID is the first one or was drawn in the loop. *)
Lemma new_pending_loop_spec env pend fuel :
  forall id_tries w packet o tree pd res packet' w',
  w_outnet w = Some o ->
  pending_tree o = Some tree ->
  w_pend w !! pend = Some pd ->
  LDNS_ID_WIRE packet = pend_id pd ->
  new_pending_loop env fuel id_tries (Some the_outnet) pend packet w
    = Done (res, packet') w' ->
  (res = None /\ w_pend w' = delete pend (w_pend w) /\
   w_outnet w' = w_outnet w /\
   callbacks (w_trace w') = callbacks (w_trace w))
  \/
  (res = Some pend /\
   exists id',
     w_pend w' = <[pend := with_id pd id']> (w_pend w) /\
     LDNS_ID_WIRE packet' = id' /\
     w_outnet w' = Some (with_tree o (Some (tree ++ [pend]))) /\
     w_trace w' = w_trace w /\
     (w_rnd w <= w_rnd w')%nat /\
     ((id' = pend_id pd /\ w_rnd w' = w_rnd w) \/
      exists k, (w_rnd w <= k < w_rnd w')%nat /\
                id' = random_id (env_random env k))).
Proof.
  induction fuel as [|fuel IH];
    intros id_tries w packet o tree pd res packet' w' Ho Htree Hp Hwire;
    cbn [new_pending_loop]; unfold bind at 1;
    rewrite (insert_node_run w o tree pend pd Ho Htree Hp);
    (destruct (rbtree_search (w_pend w) tree pd) as [q|] eqn:Hs;
     [| unfold ret; intros [= <- <- <-]; right; split; [done|];
        exists (pend_id pd); cbn [w_pend w_outnet w_trace w_rnd];
        rewrite with_id_id, insert_id by done; eauto 10 ]);
    run; rewrite Hp; run; rewrite lookup_insert_eq; run;
    (destruct (LDNS_ID_SET packet _ _) as [packet1 w1|] eqn:Hset; [|done]);
    (apply LDNS_ID_SET_wire in Hset as (Hw1 & -> & Hlen1);
      [|apply random_id_range]);
    cbn [pend_id with_id];
    (destruct (to_int (id_tries + 1) =? MAX_ID_RETRY)).
  all: try (unfold pending_delete; run; rewrite lookup_insert_eq;
            cbn [pend_timer with_id]; set (tm := pend_timer pd);
            destruct tm; run; rewrite lookup_insert_eq;
            intros [= <- <- <-]; left; cbn [w_pend w_outnet w_trace];
            rewrite delete_insert_eq, Ho, !callbacks_app;
            cbn; rewrite ?app_nil_r; done).
  - done.
  - intros Hrun.
    eapply IH in Hrun; cbn [w_outnet w_pend];
      [ | exact Ho | exact Htree | apply lookup_insert_eq | exact Hw1 ].
    cbn [w_outnet w_pend w_trace w_rnd] in Hrun.
    destruct Hrun as [(-> & Hh & Hon & Hcb)|(-> & id' & Hh & Hw & Hon & Htr & Hrnd & Hid)].
    + left. rewrite delete_insert_eq in Hh. done.
    + right. split; [done|]. exists id'.
      rewrite insert_insert_eq in Hh.
      split; [done|]. split; [done|]. split; [done|]. split; [done|].
      split; [lia|]. right.
      destruct Hid as [[-> Hr]|(k & Hk & ->)].
      * exists (w_rnd w). split; [lia|done].
      * exists k. split; [lia|done].
Qed.

Lemma new_pending_loop_no_tree env pend fuel id_tries w packet o pd :
  w_outnet w = Some o ->
  pending_tree o = None ->
  w_pend w !! pend = Some pd ->
  new_pending_loop env fuel id_tries (Some the_outnet) pend packet w = Fault.
Proof.
  intros Ho Htree Hp.
  destruct fuel; cbn [new_pending_loop]; unfold insert_node; run;
    rewrite Ho; run; rewrite Hp; run; by rewrite Htree.
Qed.

(** [run], with the reads and writes of the same heap cell resolved. *)
Ltac heap_run :=
  repeat (progress (run; rewrite ?insert_insert_eq, ?lookup_insert_eq)).

(** Events other than callbacks do not show among the callbacks. *)
Lemma callbacks_quiet tr e :
  is_callback e = false -> callbacks (tr ++ [e]) = callbacks tr.
Proof.
  intros He. rewrite callbacks_app. unfold callbacks at 2. simpl.
  rewrite He. apply app_nil_r.
Qed.

Lemma fresh_not_live (h : gmap ptr pending) : h !! fresh (dom h) = None.
Proof. apply not_elem_of_dom, is_fresh. Qed.

(** What a completed run of [new_pending] leaves behind. *)
Lemma new_pending_spec env w packet addr addrlen cb cb_arg res packet' w' :
  new_pending env (Some the_outnet) packet addr addrlen cb cb_arg w
    = Done (res, packet') w' ->
  (res = None /\ w_pend w' = w_pend w /\ w_outnet w' = w_outnet w /\
   callbacks (w_trace w') = callbacks (w_trace w))
  \/
  (exists pend id o tree,
     res = Some pend /\
     pend = fresh (dom (w_pend w)) /\
     w_pend w' = <[pend := fresh_pending id addr addrlen cb cb_arg]> (w_pend w) /\
     LDNS_ID_WIRE packet' = id /\
     (exists k, (w_rnd w <= k < w_rnd w')%nat /\
                id = random_id (env_random env k)) /\
     w_outnet w = Some o /\ pending_tree o = Some tree /\
     w_outnet w' = Some (with_tree o (Some (tree ++ [pend]))) /\
     callbacks (w_trace w') = callbacks (w_trace w)).
Proof.
  unfold new_pending. run.
  destruct (env_alloc env (w_asked w)).
  2:{ run. intros [= <- <- <-]. left. cbn [w_pend w_outnet w_trace].
      by rewrite callbacks_quiet. }
  run. set (pend := fresh (dom (w_pend w))).
  pose proof (fresh_not_live (w_pend w)) as Hfresh. fold pend in Hfresh.
  destruct (w_outnet w) as [o|] eqn:Ho; [|done]. run.
  destruct (env_alloc env (S (w_asked w))).
  2:{ run. rewrite lookup_insert_eq. run. intros [= <- <- <-]. left. cbn.
      rewrite delete_insert_id by done. done. }
  heap_run.
  cbn [pend_id with_id with_timer zero_pending pend_addr pend_c pend_timer].
  destruct (LDNS_ID_SET packet _ _) as [packet1 w1|] eqn:Hset; [|done].
  apply LDNS_ID_SET_wire in Hset as (Hw1 & -> & Hlen1);
    [|apply random_id_range].
  heap_run.
  cbn [pend_id with_id with_timer zero_pending pend_addr pend_c pend_timer].
  set (id0 := random_id (env_random env (w_rnd w))) in *.
  fold (fresh_pending id0 addr addrlen cb cb_arg).
  match goal with
  | |- context [new_pending_loop ?e ?f ?t ?on ?p ?pk ?w0] =>
      destruct (new_pending_loop e f t on p pk w0) as [[res1 packet2] w2|]
        eqn:Hloop; [|done]
  end.
  destruct (pending_tree o) as [tree|] eqn:Htree.
  2:{ erewrite new_pending_loop_no_tree in Hloop; try done.
      apply lookup_insert_eq. }
  eapply new_pending_loop_spec in Hloop;
    [ | reflexivity | exact Htree | apply lookup_insert_eq | exact Hw1 ].
  cbn [w_outnet w_pend w_trace w_rnd] in Hloop.
  destruct Hloop as [(-> & Hh & Hon & Hcb)
                    |(-> & id' & Hh & Hw & Hon & Htr & Hrnd & Hid)].
  - run. intros [= <- <- <-]. left.
    rewrite delete_insert_id in Hh by done. done.
  - run. rewrite Hh, lookup_insert_eq. run. intros [= <- <- <-]. right.
    rewrite insert_insert_eq in Hh.
    exists pend, id', o, tree. cbn [w_pend w_outnet w_trace w_rnd].
    split; [done|]. split; [done|]. split; [exact Hh|]. split; [exact Hw|].
    split.
    { destruct Hid as [[-> Hr]|(k & Hk & ->)].
      - exists (w_rnd w). split; [lia|done].
      - exists k. split; [lia|done]. }
    split; [done|]. split; [done|]. split; [exact Hon|].
    rewrite !callbacks_quiet by done. by rewrite Htr.
Qed.

Lemma with_c_c pd : with_c pd (pend_c pd) = pd.
Proof. by destruct pd. Qed.

Lemma array_get_world {A} (a : option (list A)) i w x w' :
  array_get a i w = Done x w' -> w' = w /\ exists l, a = Some l /\
  0 <= i /\ l !! Z.to_nat i = Some x.
Proof.
  unfold array_get. destruct a as [l|]; [|done].
  destruct (Z.ltb_spec i 0); [done|].
  destruct (l !! Z.to_nat i) eqn:E; [|done].
  unfold ret. intros [= <- <-]. eauto.
Qed.

(** What a completed run of [select_port] leaves behind: at most the
    socket reference of the pending has changed, and one line is logged. *)
Lemma select_port_spec env pend w w' pd :
  select_port env (Some the_outnet) pend w = Done tt w' ->
  w_pend w !! pend = Some pd ->
  exists c e,
    w_pend w' = <[pend := with_c pd c]> (w_pend w) /\
    w_outnet w' = w_outnet w /\
    w_trace w' = w_trace w ++ [e] /\
    is_callback e = false /\ is_send e = false /\
    (w_rnd w <= w_rnd w')%nat.
Proof.
  intros Hrun Hp. revert Hrun. unfold select_port. run.
  destruct (w_outnet w) as [o|] eqn:Ho; [|done]. run. rewrite Hp. run.
  match goal with |- context [if ?b =? 0 then _ else _] =>
    destruct (b =? 0) end.
  - run. intros [= <-]. exists (pend_c pd). eexists.
    cbn [w_pend w_outnet w_trace w_rnd].
    rewrite with_c_c, insert_id by done. eauto 10.
  - run.
    match goal with |- context [(if ?b then ?x else ?y) ?w0] =>
      destruct ((if b then x else y) w0) as [c w1|] eqn:Hget end; [|done].
    assert (w1 = {| w_outnet := Some o; w_pend := w_pend w;
                    w_trace := w_trace w; w_asked := w_asked w;
                    w_rnd := S (w_rnd w) |}) as ->.
    { destruct (addr_is_ip6 (pend_addr pd));
        apply array_get_world in Hget as [-> _]; by rewrite Ho. }
    run. rewrite Hp. run. intros [= <-]. exists c. eexists.
    cbn [w_pend w_outnet w_trace w_rnd]. split; [done|].
    split; [done|]. split; [done|]. split; [done|]. split; [done|]. lia.
Qed.

(** A completed [pending_delete] has freed the pending. *)
Lemma pending_delete_heap outnet p w w' :
  pending_delete outnet (Some p) w = Done tt w' ->
  w_pend w' = delete p (w_pend w).
Proof.
  unfold pending_delete. run.
  destruct outnet as [[]|]; run.
  - destruct (w_outnet w) as [o|]; [|done]. run.
    destruct (w_pend w !! p) as [pd|] eqn:Hp; [|done]. run.
    destruct (pending_tree o); [|done]. run. rewrite Hp. run.
    destruct (pend_timer pd); run; rewrite Hp; run; by intros [= <-].
  - destruct (w_pend w !! p) as [pd|] eqn:Hp; [|done]. run.
    destruct (pend_timer pd); run; rewrite Hp; run; by intros [= <-].
Qed.

Lemma random_id_discards_low_byte r :
  random_id r = (to_unsigned r / 2 ^ 8) mod 2 ^ 16.
Proof.
  unfold random_id. change 65535 with (Z.ones 16).
  rewrite Z.land_ones, Z.shiftr_div_pow2 by lia. reflexivity.
Qed.

(** ** The ID on the wire *)

(** C5. After a submit that leaves a new pending registered, the ID in
    the first two bytes of the packet, which is the packet that was
    handed to the socket, is the ID stored in that pending, and the
    pending is a node of the index; this ID comes from one of the random
    words drawn during the call, and the ID of a random word is that
    word without its low byte, reduced to 16 bits. *)
Theorem id_patch_round_trip env w packet addr addrlen timeout cb cb_arg
    packet' w' p pd :
  pending_udp_query env (Some the_outnet) packet addr addrlen timeout
                    cb cb_arg w = Done packet' w' ->
  w_pend w !! p = None ->
  w_pend w' !! p = Some pd ->
  LDNS_ID_WIRE packet' = pend_id pd /\
  In (EvSend (pend_c pd) packet' addr addrlen) (w_trace w') /\
  (exists o' tree',
     w_outnet w' = Some o' /\ pending_tree o' = Some tree' /\ In p tree') /\
  (exists k, (w_rnd w <= k < w_rnd w')%nat /\
             pend_id pd = random_id (env_random env k)) /\
  (forall r, random_id r = (to_unsigned r / 2 ^ 8) mod 2 ^ 16).
Proof.
  intros Hrun Hold Hnew. revert Hrun. unfold pending_udp_query.
  unfold bind at 1.
  destruct (new_pending env _ packet addr addrlen cb cb_arg w)
    as [[res packet1] w1|] eqn:Hnp; [|done].
  apply new_pending_spec in Hnp
    as [(-> & Hh & Hon & Hcb)
       |(pend & id & o & tree & -> & Hfr & Hh & Hw & Hid & Ho & Htree & Hon & Hcb)].
  { run. intros [= <- <-]. cbn [w_pend] in Hnew. congruence. }
  unfold bind at 1.
  destruct (select_port env (Some the_outnet) pend w1) as [[] w2|] eqn:Hsel;
    [|done].
  eapply select_port_spec in Hsel as (c & e & Hh2 & Hon2 & Htr2 & He & Hes & Hrnd2);
    [|rewrite Hh; apply lookup_insert_eq].
  rewrite Hh, insert_insert_eq in Hh2.
  unfold comm_point_send_udp_msg.
  run. rewrite Hh2, lookup_insert_eq. run.
  destruct (env_send_udp_msg env (w_asked w2)).
  - unfold comm_timer_set. heap_run. rewrite Hh2. heap_run.
    cbn [pend_timer with_c fresh_pending].
    heap_run. intros [= <- <-].
    cbn [w_pend w_outnet w_trace w_rnd] in *.
    destruct (decide (p = pend)) as [->|Hne];
      [|rewrite lookup_insert_ne in Hnew by done; congruence].
    rewrite lookup_insert_eq in Hnew. injection Hnew as <-.
    cbn [pend_id pend_c with_timer with_c fresh_pending].
    split; [exact Hw|]. split.
    { apply in_or_app. left. apply in_or_app. right. by left. }
    split.
    { rewrite Hon2, Hon. do 2 eexists. split; [done|]. split; [done|].
      apply in_or_app. right. by left. }
    split; [|exact random_id_discards_low_byte].
    destruct Hid as (k & Hk & Hidk). exists k. split; [lia|done].
  - run.
    match goal with |- context [pending_delete ?on ?q ?w0] =>
      destruct (pending_delete on q w0) as [[] w3|] eqn:Hdel; [|done] end.
    apply pending_delete_heap in Hdel. cbn [w_pend] in Hdel.
    rewrite Hh2, delete_insert_id in Hdel
      by (rewrite Hfr; apply fresh_not_live).
    intros [= <- <-]. congruence.
Qed.

(** ** Running out of IDs *)

Lemma rbtree_search_insert_other (h : gmap ptr pending) tree key q x :
  ~ In q tree ->
  rbtree_search (<[q := x]> h) tree key = rbtree_search h tree key.
Proof.
  unfold rbtree_search. induction tree as [|a t IH]; simpl; [done|].
  intros Hq. unfold key_matches at 1 3.
  rewrite lookup_insert_ne by (intros ->; apply Hq; by left).
  rewrite IH by tauto. reflexivity.
Qed.

Lemma pending_cmp_fresh_pending id addr addrlen cb cb_arg pd :
  pending_cmp (fresh_pending id addr addrlen cb cb_arg) pd =
  pending_cmp (fresh_pending id addr addrlen 0%nat 0) pd.
Proof. reflexivity. Qed.

(** When every ID that is tried collides, the insertion loop gives up at
    the moment its counter reaches [MAX_ID_RETRY], and the pending is
    deleted without having entered the tree. *)
Lemma new_pending_loop_exhaust env pend addr addrlen cb cb_arg h0 tree o :
  ~ In pend tree ->
  pending_tree o = Some tree ->
  forall n fuel id_tries w packet id,
    (1 <= n <= 1000)%nat ->
    id_tries = MAX_ID_RETRY - Z.of_nat n ->
    (n <= S fuel)%nat ->
    w_outnet w = Some o ->
    w_pend w = <[pend := fresh_pending id addr addrlen cb cb_arg]> h0 ->
    (2 <= length packet)%nat ->
    rbtree_search h0 tree (fresh_pending id addr addrlen cb cb_arg) <> None ->
    (forall j, (j < n - 1)%nat ->
       rbtree_search h0 tree
         (fresh_pending (random_id (env_random env (w_rnd w + j)))
                        addr addrlen cb cb_arg) <> None) ->
    exists packet',
      new_pending_loop env fuel id_tries (Some the_outnet) pend packet w =
        Done (None, packet')
             {| w_outnet := Some o; w_pend := delete pend h0;
                w_trace :=
                  w_trace w ++
                  [EvLog LOG_ERR "failed to generate unique ID, drop msg" [];
                   EvTimerDelete pend];
                w_asked := w_asked w; w_rnd := (w_rnd w + n)%nat |}.
Proof.
  intros Hnotin Htree. induction n as [|n IH];
    intros fuel id_tries w packet id Hn Htries Hfuel Ho Hh Hlen Hcol Hcols;
    [lia|].
  assert (w_pend w !! pend = Some (fresh_pending id addr addrlen cb cb_arg))
    as Hp by (rewrite Hh; apply lookup_insert_eq).
  assert (forall fuel',
    new_pending_loop env fuel' id_tries (Some the_outnet) pend packet w =
    (let* r := ub_random env in
     modify pend (fun pd => with_id pd (random_id r)) ;;;
     let* pd := deref pend in
     let* packet := LDNS_ID_SET packet (pend_id pd) in
     let id_tries := to_int (id_tries + 1) in
     if id_tries =? MAX_ID_RETRY then
       emit (EvLog LOG_ERR "failed to generate unique ID, drop msg" []) ;;;
       pending_delete None (Some pend) ;;;
       ret (None, packet)
     else
       match fuel' with
       | O => fault
       | S fuel'' =>
           new_pending_loop env fuel'' id_tries (Some the_outnet) pend packet
       end) w) as Hstep.
  { intros fuel'. destruct fuel'; cbn [new_pending_loop]; unfold bind at 1;
      rewrite (insert_node_run w o tree pend _ Ho Htree Hp), Hh,
        rbtree_search_insert_other by done;
      (destruct (rbtree_search h0 tree _); [reflexivity|done]). }
  rewrite Hstep. clear Hstep. run. rewrite Hp. heap_run.
  cbn [pend_id with_id fresh_pending].
  destruct (LDNS_ID_SET_runs packet
              (random_id (env_random env (w_rnd w)))
              {| w_outnet := w_outnet w;
                 w_pend := <[pend := with_id
                                       (fresh_pending id addr addrlen cb cb_arg)
                                       (random_id (env_random env (w_rnd w)))]>
                             (w_pend w);
                 w_trace := w_trace w; w_asked := w_asked w;
                 w_rnd := S (w_rnd w) |} Hlen)
    as (packet1 & -> & Hlen1).
  rewrite to_int_small by (unfold MAX_ID_RETRY in *; lia).
  destruct (Z.eqb_spec (id_tries + 1) MAX_ID_RETRY) as [Elast|Emore].
  - assert (n = 0)%nat as -> by lia.
    exists packet1. unfold pending_delete. heap_run.
    cbn [pend_timer with_id fresh_pending]. heap_run.
    rewrite Hh, insert_insert_eq, delete_insert_eq, Ho, <- app_assoc.
    replace (w_rnd w + 1)%nat with (S (w_rnd w)) by lia. reflexivity.
  - destruct fuel as [|fuel]; [lia|].
    destruct (IH fuel (id_tries + 1)
                {| w_outnet := w_outnet w;
                   w_pend := <[pend := with_id
                                         (fresh_pending id addr addrlen cb cb_arg)
                                         (random_id (env_random env (w_rnd w)))]>
                               (w_pend w);
                   w_trace := w_trace w; w_asked := w_asked w;
                   w_rnd := S (w_rnd w) |}
                packet1 (random_id (env_random env (w_rnd w))))
      as (packet2 & Hrun); try lia; cbn [w_outnet w_pend w_rnd w_trace w_asked].
    + done.
    + rewrite Hh, insert_insert_eq. reflexivity.
    + specialize (Hcols 0%nat). rewrite Nat.add_0_r in Hcols.
      apply Hcols. lia.
    + intros j Hj. specialize (Hcols (S j)).
      replace (S (w_rnd w) + j)%nat with (w_rnd w + S j)%nat by lia.
      apply Hcols. lia.
    + exists packet2. rewrite Hrun.
      cbn [w_outnet w_pend w_rnd w_trace w_asked].
      replace (S (w_rnd w) + n)%nat with (w_rnd w + S n)%nat by lia.
      reflexivity.
Qed.

(** C2, as the source has it. When the first 1000 IDs that are drawn
    all collide with keys of the index, submit gives up: the event is
    logged, the pending is destroyed (its timer deleted, its memory freed,
    the index and the other pendings as before), 1001 random words are
    used up, and the user callback is invoked once, with the status
    closed and no comm point. *)
Theorem submit_ids_exhausted env w o tree packet addr addrlen timeout
    cb cb_arg :
  w_outnet w = Some o ->
  pending_tree o = Some tree ->
  index_ok (w_pend w) tree = true ->
  env_alloc env (w_asked w) = true ->
  env_alloc env (S (w_asked w)) = true ->
  (2 <= length packet)%nat ->
  (forall k, (k < 1000)%nat ->
     rbtree_search (w_pend w) tree
       (fresh_pending (random_id (env_random env (w_rnd w + k)))
                      addr addrlen cb cb_arg) <> None) ->
  exists packet',
    pending_udp_query env (Some the_outnet) packet addr addrlen timeout
                      cb cb_arg w =
      Done packet'
        {| w_outnet := w_outnet w; w_pend := w_pend w;
           w_trace :=
             w_trace w ++
             [EvLog LOG_ERR "failed to generate unique ID, drop msg" [];
              EvTimerDelete (fresh (dom (w_pend w)));
              EvCallback cb None cb_arg NETEVENT_CLOSED];
           w_asked := S (S (w_asked w)); w_rnd := (w_rnd w + 1001)%nat |}.
Proof.
  intros Ho Htree Hok Hal1 Hal2 Hlen Hcols.
  set (pend := fresh (dom (w_pend w))).
  pose proof (fresh_not_live (w_pend w)) as Hfresh. fold pend in Hfresh.
  assert (~ In pend tree) as Hnotin.
  { intros Hin. apply (index_ok_live _ _ _ Hok) in Hin as [? Hin]. congruence. }
  unfold pending_udp_query, new_pending. run. rewrite Hal1. run.
  fold pend. rewrite Ho. run. rewrite Hal2. heap_run.
  cbn [pend_id with_id with_timer zero_pending].
  set (id0 := random_id (env_random env (w_rnd w))).
  match goal with |- context [LDNS_ID_SET packet id0 ?w0] =>
    destruct (LDNS_ID_SET_runs packet id0 w0 Hlen) as (packet1 & -> & Hlen1)
  end.
  heap_run.
  cbn [pend_id with_id with_timer zero_pending pend_addr pend_c pend_timer].
  fold (fresh_pending id0 addr addrlen cb cb_arg).
  match goal with |- context [new_pending_loop env ?f 0 ?on pend packet1 ?w0] =>
    destruct (new_pending_loop_exhaust env pend addr addrlen cb cb_arg
                (w_pend w) tree o Hnotin Htree 1000%nat f 0 w0 packet1 id0)
      as (packet2 & ->)
  end; cbn [w_outnet w_pend w_rnd w_trace w_asked];
    try done; try (unfold MAX_ID_RETRY; lia).
  - specialize (Hcols 0%nat). rewrite Nat.add_0_r in Hcols. apply Hcols. lia.
  - intros j Hj. specialize (Hcols (S j)).
    replace (S (w_rnd w) + j)%nat with (w_rnd w + S j)%nat by lia.
    apply Hcols. lia.
  - run. exists packet2. rewrite delete_id by done.
    rewrite <- app_assoc.
    replace (S (w_rnd w) + 1000)%nat with (w_rnd w + 1001)%nat by lia.
    reflexivity.
Qed.

Lemma submit_ids_exhausted_witness :
  exists packet',
    pending_udp_query ex_env_stuck (Some the_outnet) ex_packet ex_dest 16 3
                      7%nat 9 ex_world =
      Done packet'
        {| w_outnet := w_outnet ex_world; w_pend := w_pend ex_world;
           w_trace :=
             w_trace ex_world ++
             [EvLog LOG_ERR "failed to generate unique ID, drop msg" [];
              EvTimerDelete (fresh (dom (w_pend ex_world)));
              EvCallback 7%nat None 9 NETEVENT_CLOSED];
           w_asked := S (S (w_asked ex_world));
           w_rnd := (w_rnd ex_world + 1001)%nat |}.
Proof.
  apply (submit_ids_exhausted ex_env_stuck ex_world ex_outnet [0%nat]
           ex_packet ex_dest 16 3 7%nat 9); try reflexivity.
  - simpl. lia.
  - intros k _. vm_compute. discriminate.
Defined.

(** C2, as the specification states it, fails: in [ex_world], with a
    random source that repeats the ID of the pending already in the
    index, all of the first 1000 IDs of a submit to the same destination
    collide, and the submit ends with the user callback invoked. *)
Lemma submit_ids_exhausted_calls_back :
  (forall k, (k < 1000)%nat ->
     rbtree_search (w_pend ex_world) [0%nat]
       (fresh_pending
          (random_id (env_random ex_env_stuck (w_rnd ex_world + k)))
          ex_dest 16 7%nat 9) <> None) /\
  match pending_udp_query ex_env_stuck (Some the_outnet) ex_packet ex_dest
                          16 3 7%nat 9 ex_world with
  | Done _ w' =>
      callbacks (w_trace w') = [EvCallback 7%nat None 9 NETEVENT_CLOSED] /\
      ~ (callbacks (w_trace w') = callbacks (w_trace ex_world))
  | Fault => False
  end.
Proof.
  split.
  - intros k _. vm_compute. discriminate.
  - vm_compute. split; [reflexivity|discriminate].
Qed.

Lemma id_patch_round_trip_witness :
  LDNS_ID_WIRE ex_packet_sent = pend_id ex_submitted /\
  In (EvSend (pend_c ex_submitted) ex_packet_sent ex_dest 16)
     (w_trace ex_after_submit) /\
  (exists o' tree',
     w_outnet ex_after_submit = Some o' /\ pending_tree o' = Some tree' /\
     In 1%nat tree') /\
  (exists k, (w_rnd ex_world <= k < w_rnd ex_after_submit)%nat /\
             pend_id ex_submitted = random_id (env_random ex_env k)) /\
  (forall r, random_id r = (to_unsigned r / 2 ^ 8) mod 2 ^ 16).
Proof.
  apply (id_patch_round_trip ex_env ex_world ex_packet ex_dest 16 3 7%nat 9
           ex_packet_sent ex_after_submit 1%nat ex_submitted);
    vm_compute; reflexivity.
Defined.

(** ** Submitting without a socket of the family *)

(** C1, on the source. [ex_world] has no IPv6 socket.  A submit to an
    IPv6 destination logs that there are no ports of that family and goes
    on: the packet is handed to the send routine with a NULL comm point.
    When the send is reported to have worked, the pending stays in the
    index with its timer set; when it is reported to have failed, the
    user callback is invoked with the status closed. *)
Lemma submit_without_ports_sends :
  match pending_udp_query ex_env (Some the_outnet) ex_packet ex_dest6 28 3
                          7%nat 9 ex_world with
  | Done packet' w' =>
      In (EvLog LOG_ERR "Need to send query but have no ports of that family"
                []) (w_trace w') /\
      List.filter is_send (w_trace w') = [EvSend None packet' ex_dest6 28] /\
      (exists pd, w_pend w' !! 1%nat = Some pd /\ pend_c pd = None /\
                  pend_timer pd = Some {| tm_timeout := Some 3 |}) /\
      (exists o', w_outnet w' = Some o' /\
                  pending_tree o' = Some [0%nat; 1%nat])
  | Fault => False
  end /\
  match pending_udp_query ex_env_nosend (Some the_outnet) ex_packet ex_dest6
                          28 3 7%nat 9 ex_world with
  | Done packet' w' =>
      List.filter is_send (w_trace w') = [EvSend None packet' ex_dest6 28] /\
      callbacks (w_trace w') = [EvCallback 7%nat None 9 NETEVENT_CLOSED]
  | Fault => False
  end.
Proof.
  split.
  - vm_compute. split; [tauto|]. split; [reflexivity|]. split; eauto.
  - vm_compute. split; reflexivity.
Qed.

(** ** Opening the sockets *)

Lemma created_app tr1 tr2 : created (tr1 ++ tr2) = created tr1 ++ created tr2.
Proof. unfold created. apply omap_app. Qed.

Lemma created_cons_create fd c tr :
  created (EvCommPointCreate fd c :: tr) =
  match c with Some cp => [cp] | None => [] end ++ created tr.
Proof. by destruct c. Qed.

Lemma open_udp_port_range_run env ifname hints porthint w :
  exists fd w',
    open_udp_port_range env ifname hints porthint w = Done fd w' /\
    w_outnet w' = w_outnet w /\ w_pend w' = w_pend w /\
    exists evs, w_trace w' = w_trace w ++ evs /\ created evs = [].
Proof.
  unfold open_udp_port_range. run.
  destruct (env_getaddrinfo env (w_asked w)) as [r res].
  destruct (negb (r =? 0) || negb res); run;
    do 2 eexists; (split; [reflexivity|]); cbn [w_outnet w_pend w_trace];
    (split; [done|]); (split; [done|]); eexists;
    rewrite <- !app_assoc; (split; [reflexivity|]); reflexivity.
Qed.

Lemma ports_of_with_ports which o a :
  ports_of which (with_ports which o a) = Some a.
Proof. by destruct which. Qed.

Lemma with_ports_with_ports which o a b :
  with_ports which (with_ports which o a) b = with_ports which o b.
Proof. by destruct which. Qed.

(** A store through [coms] inside the array. *)
Lemma coms_set_run which base i c w o arr :
  w_outnet w = Some o ->
  ports_of which o = Some arr ->
  0 <= base + i -> (Z.to_nat (base + i) < length arr)%nat ->
  coms_set (Some the_outnet) (which, base) i c w =
    Done tt {| w_outnet :=
                 Some (with_ports which o (<[Z.to_nat (base + i) := c]> arr));
               w_pend := w_pend w; w_trace := w_trace w;
               w_asked := w_asked w; w_rnd := w_rnd w |}.
Proof.
  intros Ho Harr Hlo Hhi. unfold coms_set. run. rewrite Ho. run.
  destruct which; cbn [ports_of] in Harr; rewrite Harr; unfold array_set;
    (destruct (Z.ltb_spec (base + i) 0); [lia|]);
    (destruct (Nat.ltb_spec (Z.to_nat (base + i)) (length arr)); [|lia]);
    reflexivity.
Qed.

(** The loop of [make_udp_range], in an array with room for [n] more
    entries from the fill position on: it returns, the comm points it
    created fill the array from the fill position on without a hole, and
    nothing below the fill position has changed. *)
Lemma make_udp_range_loop_spec env which base ifname hints n :
  forall porthint dn w o arr,
  w_outnet w = Some o ->
  ports_of which o = Some arr ->
  0 <= base -> 0 <= dn -> dn + Z.of_nat n < 2 ^ 64 ->
  (Z.to_nat (base + dn) + n <= length arr)%nat ->
  exists d' w' arr' cs evs,
    make_udp_range_loop env n (which, base) ifname hints porthint
                        (Some the_outnet) dn w = Done d' w' /\
    w_outnet w' = Some (with_ports which o arr') /\
    w_pend w' = w_pend w /\
    w_trace w' = w_trace w ++ evs /\
    created evs = cs /\
    d' = dn + Z.of_nat (length cs) /\
    (length cs <= n)%nat /\
    length arr' = length arr /\
    (forall i, (i < Z.to_nat (base + dn))%nat -> arr' !! i = arr !! i) /\
    (forall j c, cs !! j = Some c ->
       arr' !! (Z.to_nat (base + dn) + j)%nat = Some (Some c)).
Proof.
  induction n as [|n IH];
    intros porthint dn w o arr Ho Harr Hbase Hdn Hwrap Hroom.
  { exists dn, w, arr, [], []. cbn [make_udp_range_loop].
    rewrite app_nil_r. destruct which; destruct o; cbn in *; subst;
      repeat split; try done; lia. }
  cbn [make_udp_range_loop]. unfold bind at 1.
  destruct (open_udp_port_range_run env ifname hints porthint w)
    as (fd & w1 & Hopen & Hon1 & Hp1 & evs1 & Htr1 & Hcr1).
  rewrite Hopen.
  destruct (fd =? -1).
  { edestruct (IH (if negb (porthint =? -1) then to_int (porthint + 1)
                   else porthint) dn w1 o arr)
      as (d' & w' & arr' & cs & evs & Hrun & H1 & H2 & H3 & H4 & H5 & H6 & H7 & H8 & H9);
      [ by rewrite Hon1 | done | lia.. | ].
    exists d', w', arr', cs, (evs1 ++ evs).
    rewrite H3, Htr1, <- app_assoc, created_app, Hcr1, H2.
    repeat split; try done. lia. }
  run. rewrite Hon1, Ho. run.
  set (c := env_comm_point_create_udp env (w_asked w1)).
  rewrite (coms_set_run which base dn c _ o arr)
    by (cbn [w_outnet]; first [by rewrite Hon1 | done | lia]).
  cbn [w_outnet w_pend w_trace w_asked w_rnd].
  match goal with
  | |- context [make_udp_range_loop env n _ _ _ ?ph _ ?dn1 ?w2] =>
      edestruct (IH ph dn1 w2 (with_ports which o (<[Z.to_nat (base + dn) := c]> arr))
                    (<[Z.to_nat (base + dn) := c]> arr))
        as (d' & w' & arr' & cs & evs & Hrun & H1 & H2 & H3 & H4 & H5 & H6 & H7 & H8 & H9)
  end;
    [ reflexivity | apply ports_of_with_ports | lia
    | destruct c; rewrite ?to_size_t_small; lia
    | destruct c; rewrite ?to_size_t_small; lia
    | rewrite length_insert; destruct c; rewrite ?to_size_t_small; lia
    | ].
  rewrite Hrun.
  cbn [w_outnet w_pend w_trace] in H1, H2, H3.
  rewrite with_ports_with_ports in H1. rewrite length_insert in H7.
  destruct c as [cp|].
  - rewrite to_size_t_small in * by lia.
    exists d', w', arr', (cp :: cs),
      (evs1 ++ EvCommPointCreate fd (Some cp) :: evs).
    split; [done|]. split; [done|]. split; [by rewrite H2|]. split.
    { rewrite H3, Htr1, <- !app_assoc. reflexivity. }
    split. { by rewrite created_app, Hcr1, created_cons_create, H4. }
    split. { cbn [length]. lia. }
    split. { cbn [length]. lia. }
    split; [done|]. split.
    + intros i Hi. rewrite H8 by lia. apply list_lookup_insert_ne. lia.
    + intros [|j] c0 Hc0.
      * cbn in Hc0. injection Hc0 as <-. rewrite Nat.add_0_r.
        rewrite H8 by lia. apply list_lookup_insert_eq. lia.
      * cbn in Hc0. apply H9 in Hc0.
        replace (Z.to_nat (base + dn) + S j)%nat
          with (Z.to_nat (base + (dn + 1)) + j)%nat by lia. done.
  - exists d', w', arr', cs, (evs1 ++ EvCommPointCreate fd None :: evs).
    split; [done|]. split; [done|]. split; [by rewrite H2|]. split.
    { rewrite H3, Htr1, <- !app_assoc. reflexivity. }
    split. { by rewrite created_app, Hcr1, created_cons_create, H4. }
    split; [done|]. split; [lia|]. split; [done|]. split.
    + intros i Hi. rewrite H8 by lia. apply list_lookup_insert_ne. lia.
    + done.
Qed.

Lemma nfam_nil env ip6 : nfam env ip6 [] = 0.
Proof. reflexivity. Qed.

Lemma nfam_cons env ip6 x l :
  nfam env ip6 (x :: l) =
  (if Bool.eqb (env_str_is_ip6 env x) ip6 then 1 else 0) + nfam env ip6 l.
Proof.
  unfold nfam. cbn [List.filter].
  destruct (Bool.eqb (env_str_is_ip6 env x) ip6); cbn [length]; lia.
Qed.

Lemma nfam_nonneg env ip6 l : 0 <= nfam env ip6 l.
Proof. unfold nfam. lia. Qed.

Lemma nfam_le_length env ip6 l : nfam env ip6 l <= Z.of_nat (length l).
Proof.
  induction l as [|x l IH]; [done|]. rewrite nfam_cons. cbn [length].
  destruct (Bool.eqb _ _); lia.
Qed.

Lemma array_get_run {A} (l : list A) i x w :
  0 <= i -> l !! Z.to_nat i = Some x -> array_get (Some l) i w = Done x w.
Proof.
  intros Hi Hx. unfold array_get.
  destruct (Z.ltb_spec i 0); [lia|]. by rewrite Hx.
Qed.

Lemma take_drop_step {A} (l : list A) k n x :
  l !! k = Some x -> take (S n) (drop k l) = x :: take n (drop (S k) l).
Proof. intros Hx. by rewrite (drop_S _ _ _ Hx). Qed.

(** [calc_num46] counts, per family, the ports per interface times the
    interfaces of the family. *)
Lemma calc_num46_loop_spec env do4 do6 m ifs n :
  forall i a4 a6 w,
  0 <= i -> (Z.to_nat i + n <= length ifs)%nat -> 0 <= m ->
  0 <= a4 -> 0 <= a6 ->
  a4 + Z.of_nat n * m < 2 ^ 64 -> a6 + Z.of_nat n * m < 2 ^ 64 ->
  calc_num46_loop env n i ifs do4 do6 m a4 a6 w =
    Done (a4 + (if do4 then nfam env false (take n (drop (Z.to_nat i) ifs)) * m
                else 0),
          a6 + (if do6 then nfam env true (take n (drop (Z.to_nat i) ifs)) * m
                else 0)) w.
Proof.
  induction n as [|n IH]; intros i a4 a6 w Hi Hlen Hm H4 H6 Hw4 Hw6.
  { cbn. unfold ret. rewrite !nfam_nil.
    destruct do4, do6; repeat f_equal; lia. }
  cbn [calc_num46_loop]. unfold bind at 1.
  destruct (lookup_lt_is_Some_2 ifs (Z.to_nat i)) as [x Hx]; [lia|].
  rewrite (array_get_run ifs i x w Hi Hx).
  rewrite (take_drop_step ifs _ n x Hx), !nfam_cons.
  replace (S (Z.to_nat i)) with (Z.to_nat (i + 1)) by lia.
  assert (to_size_t (a4 + m) = a4 + m) as E4 by (apply to_size_t_small; nia).
  assert (to_size_t (a6 + m) = a6 + m) as E6 by (apply to_size_t_small; nia).
  rewrite E4, E6.
  destruct (env_str_is_ip6 env x); cbn [Bool.eqb].
  - rewrite IH by (destruct do6; nia).
    destruct do4, do6; unfold ret; f_equal; f_equal; ring.
  - rewrite IH by (destruct do4; nia).
    destruct do4, do6; unfold ret; f_equal; f_equal; ring.
Qed.

Lemma calc_num46_spec env ifs num_ifs do4 do6 m w :
  num_ifs <= Z.of_nat (length ifs) -> 0 <= m ->
  Z.max num_ifs 1 * m + 1 < 2 ^ 64 ->
  calc_num46 env ifs num_ifs do4 do6 m w =
    Done (requested env false ifs num_ifs do4 m,
          requested env true ifs num_ifs do6 m) w.
Proof.
  intros Hlen Hm Hwrap. unfold calc_num46, requested, ifs_used.
  destruct (Z.leb_spec num_ifs 0); [reflexivity|].
  rewrite calc_num46_loop_spec by lia. reflexivity.
Qed.

Lemma with_ports_id which o arr :
  ports_of which o = Some arr -> with_ports which o arr = o.
Proof. destruct which, o; cbn; by intros ->. Qed.

(** One optional call of [make_udp_range] at the fill position [base], as
    the loop over the interfaces makes it. *)
Lemma range_step env which (cond : bool) base ifname num_ports do4 do6
    port_base w o arr :
  w_outnet w = Some o ->
  ports_of which o = Some arr ->
  0 <= base -> 0 <= num_ports -> base + num_ports < 2 ^ 64 ->
  base + (if cond then num_ports else 0) <= Z.of_nat (length arr) ->
  exists d' w' arr' cs evs,
    (if cond then
       let* d := make_udp_range env (which, base) ifname num_ports do4 do6
                   port_base (Some the_outnet) in
       ret (to_size_t (base + d))
     else ret base) w = Done d' w' /\
    w_outnet w' = Some (with_ports which o arr') /\
    w_pend w' = w_pend w /\
    w_trace w' = w_trace w ++ evs /\
    created evs = cs /\
    d' = base + Z.of_nat (length cs) /\
    Z.of_nat (length cs) <= (if cond then num_ports else 0) /\
    length arr' = length arr /\
    (forall i, (i < Z.to_nat base)%nat -> arr' !! i = arr !! i) /\
    (forall j c, cs !! j = Some c ->
       arr' !! (Z.to_nat base + j)%nat = Some (Some c)).
Proof.
  intros Ho Harr Hbase Hnp Hwrap Hroom. destruct cond.
  - unfold make_udp_range.
    match goal with
    | |- context [make_udp_range_loop env ?n ?cm ?ifn ?hints ?ph ?on 0] =>
        destruct (make_udp_range_loop_spec env which base ifn hints n ph 0
                    w o arr Ho Harr)
          as (d & w' & arr' & cs & evs & Hrun & H1 & H2 & H3 & H4 & H5 & H6 & H7 & H8 & H9);
          try lia
    end.
    exists (base + d), w', arr', cs, evs. unfold bind at 1. rewrite Hrun.
    unfold ret. rewrite to_size_t_small by lia.
    replace (Z.to_nat (base + 0)) with (Z.to_nat base) in * by lia.
    repeat split; try done; lia.
  - exists base, w, arr, [], []. rewrite app_nil_r, with_ports_id by done.
    repeat split; try done. cbn. lia.
Qed.

(** The loop of [outside_network_create] over the interfaces fills both
    arrays without a hole, from the fill positions on. *)
Lemma create_ifs_loop_spec env num_ports (do4 do6 : bool) port_base ifs n :
  forall k done_4 done_6 w o (a4 a6 : list (option comm_point)),
  w_outnet w = Some o ->
  udp4_ports o = Some a4 -> udp6_ports o = Some a6 ->
  0 <= num_ports -> 0 <= k -> 0 <= done_4 -> 0 <= done_6 ->
  (Z.to_nat k + n <= length ifs)%nat ->
  done_4 + (if do4
            then nfam env false (take n (drop (Z.to_nat k) ifs)) * num_ports
            else 0) <= Z.of_nat (length a4) ->
  done_6 + (if do6
            then nfam env true (take n (drop (Z.to_nat k) ifs)) * num_ports
            else 0) <= Z.of_nat (length a6) ->
  done_4 + Z.of_nat n * num_ports < 2 ^ 64 ->
  done_6 + Z.of_nat n * num_ports < 2 ^ 64 ->
  exists d4 d6 w' (a4' a6' : list (option comm_point)) cs4 cs6 evs,
    create_ifs_loop env n k ifs num_ports do4 do6 port_base (Some the_outnet)
                    done_4 done_6 w = Done (d4, d6) w' /\
    w_outnet w' = Some (both o a4' a6') /\
    w_pend w' = w_pend w /\
    w_trace w' = w_trace w ++ evs /\
    (forall c, c ∈ created evs <-> c ∈ cs4 \/ c ∈ cs6) /\
    length (created evs) = (length cs4 + length cs6)%nat /\
    d4 = done_4 + Z.of_nat (length cs4) /\
    d6 = done_6 + Z.of_nat (length cs6) /\
    Z.of_nat (length cs4) <=
      (if do4 then nfam env false (take n (drop (Z.to_nat k) ifs)) * num_ports
       else 0) /\
    Z.of_nat (length cs6) <=
      (if do6 then nfam env true (take n (drop (Z.to_nat k) ifs)) * num_ports
       else 0) /\
    length a4' = length a4 /\ length a6' = length a6 /\
    (forall i, (i < Z.to_nat done_4)%nat -> a4' !! i = a4 !! i) /\
    (forall j c, cs4 !! j = Some c ->
       a4' !! (Z.to_nat done_4 + j)%nat = Some (Some c)) /\
    (forall i, (i < Z.to_nat done_6)%nat -> a6' !! i = a6 !! i) /\
    (forall j c, cs6 !! j = Some c ->
       a6' !! (Z.to_nat done_6 + j)%nat = Some (Some c)).
Proof.
  induction n as [|n IH];
    intros k done_4 done_6 w o a4 a6 Ho H4 H6 Hnp Hk Hd4 Hd6 Hlen Hr4 Hr6
           Hw4 Hw6.
  { exists done_4, done_6, w, a4, a6, [], [], [].
    cbn [create_ifs_loop]. rewrite app_nil_r.
    assert (both o a4 a6 = o) as ->
      by (destruct o; cbn in *; by subst).
    cbn [length]. rewrite !nfam_nil.
    split; [done|]. split; [done|]. split; [done|]. split; [done|].
    split; [intros c; cbn; rewrite !elem_of_nil; tauto|].
    split; [done|]. split; [lia|]. split; [lia|].
    split; [destruct do4; lia|]. split; [destruct do6; lia|].
    repeat split; done. }
  cbn [create_ifs_loop]. unfold bind at 1.
  destruct (lookup_lt_is_Some_2 ifs (Z.to_nat k)) as [x Hx]; [lia|].
  rewrite (array_get_run ifs k x w Hk Hx).
  rewrite (take_drop_step ifs _ n x Hx), !nfam_cons in *.
  replace (S (Z.to_nat k)) with (Z.to_nat (k + 1)) in * by lia.
  pose proof (nfam_nonneg env false (take n (drop (Z.to_nat (k + 1)) ifs))).
  pose proof (nfam_nonneg env true (take n (drop (Z.to_nat (k + 1)) ifs))).
  set (is6 := env_str_is_ip6 env x) in *.
  (* the IPv6 range of this interface *)
  destruct (range_step env Udp6 (is6 && do6) done_6 (Some x) num_ports
              false true port_base w o a6 Ho H6)
    as (d6 & w1 & a6' & cs6 & evs6 & Hrun6 & Ho1 & Hp1 & Ht1 & Hc6 & Hd6' & Hl6 & Hlen6 & Hpre6 & Hfill6);
    [ lia | lia | nia | destruct is6, do6; cbn in *; nia | ].
  unfold bind at 1. rewrite Hrun6.
  (* the IPv4 range of this interface *)
  destruct (range_step env Udp4 (negb is6 && do4) done_4 (Some x) num_ports
              true false port_base w1 (with_ports Udp6 o a6') a4 Ho1 H4)
    as (d4 & w2 & a4' & cs4 & evs4 & Hrun4 & Ho2 & Hp2 & Ht2 & Hc4 & Hd4' & Hl4 & Hlen4 & Hpre4 & Hfill4);
    [ lia | lia | nia | destruct is6, do4; cbn in *; nia | ].
  unfold bind at 1. rewrite Hrun4.
  (* the remaining interfaces *)
  destruct (IH (k + 1) d4 d6 w2 (both o a4' a6') a4' a6')
    as (e4 & e6 & w3 & b4 & b6 & ds4 & ds6 & evs & Hrun & Ho3 & Hp3 & Ht3 & Hmem & Hcnt & He4 & He6 & Hb4 & Hb6 & Hlb4 & Hlb6 & Hpre4' & Hfill4' & Hpre6' & Hfill6');
    try done; try lia.
  { rewrite Hlen4. destruct is6, do4; cbn in *; nia. }
  { rewrite Hlen6. destruct is6, do6; cbn in *; nia. }
  { destruct is6, do4; cbn in *; nia. }
  { destruct is6, do6; cbn in *; nia. }
  exists e4, e6, w3, b4, b6, (cs4 ++ ds4), (cs6 ++ ds6), (evs6 ++ evs4 ++ evs).
  split; [exact Hrun|]. split; [exact Ho3|].
  split; [by rewrite Hp3, Hp2|].
  split. { rewrite Ht3, Ht2, Ht1, <- !app_assoc. reflexivity. }
  split. { intros c. rewrite !created_app, Hc6, Hc4, !elem_of_app, Hmem. tauto. }
  rewrite !created_app, !length_app, Hc6, Hc4, Hcnt.
  split; [lia|].
  split; [lia|]. split; [lia|].
  split. { destruct is6, do4; cbn in *; nia. }
  split. { destruct is6, do6; cbn in *; nia. }
  split; [lia|]. split; [lia|].
  split. { intros i Hi. rewrite Hpre4' by lia. apply Hpre4. lia. }
  split.
  { intros j c Hc. apply lookup_app_Some in Hc as [Hc|[Hj Hc]].
    - rewrite Hpre4' by (apply lookup_lt_Some in Hc; lia). by apply Hfill4.
    - apply Hfill4' in Hc.
      replace (Z.to_nat done_4 + j)%nat
        with (Z.to_nat d4 + (j - length cs4))%nat by lia. done. }
  split. { intros i Hi. rewrite Hpre6' by lia. apply Hpre6. lia. }
  intros j c Hc. apply lookup_app_Some in Hc as [Hc|[Hj Hc]].
  - rewrite Hpre6' by (apply lookup_lt_Some in Hc; lia). by apply Hfill6.
  - apply Hfill6' in Hc.
    replace (Z.to_nat done_6 + j)%nat
      with (Z.to_nat d6 + (j - length cs6))%nat by lia. done.
Qed.

(** ** Tearing the dispatcher down *)

Lemma delete_ports_loop_run arr n :
  forall i w,
  0 <= i -> (Z.to_nat i + n <= length arr)%nat ->
  delete_ports_loop n i (Some arr) w =
    Done tt (logged w (EvCommPointDelete <$> take n (drop (Z.to_nat i) arr))).
Proof.
  induction n as [|n IH]; intros i w Hi Hlen.
  { cbn. unfold ret. by rewrite logged_nil. }
  cbn [delete_ports_loop]. unfold bind at 1.
  destruct (lookup_lt_is_Some_2 arr (Z.to_nat i)) as [x Hx]; [lia|].
  rewrite (array_get_run arr i x w Hi Hx). run.
  rewrite IH by lia. rewrite (take_drop_step arr _ n x Hx).
  replace (S (Z.to_nat i)) with (Z.to_nat (i + 1)) by lia.
  unfold logged. cbn [w_outnet w_pend w_trace w_asked w_rnd fmap list_fmap].
  by rewrite <- app_assoc.
Qed.

Lemma port_deletes_run a n w :
  (forall l, a = Some l -> 0 <= n <= Z.of_nat (length l)) ->
  match a with
  | Some _ => delete_ports_loop (Z.to_nat n) 0 a
  | None => ret tt
  end w = Done tt (logged w (port_deletes a n)).
Proof.
  intros Hn. destruct a as [l|]; cbn [port_deletes].
  - specialize (Hn l eq_refl). rewrite delete_ports_loop_run by lia.
    reflexivity.
  - unfold ret. by rewrite logged_nil.
Qed.

(** The teardown of a dispatcher that has no pending queries. *)
Lemma outside_network_delete_run w o :
  w_outnet w = Some o ->
  pending_tree o = None \/ pending_tree o = Some [] ->
  (forall l, udp4_ports o = Some l -> 0 <= num_udp4 o <= Z.of_nat (length l)) ->
  (forall l, udp6_ports o = Some l -> 0 <= num_udp6 o <= Z.of_nat (length l)) ->
  outside_network_delete (Some the_outnet) w =
    Done tt {| w_outnet := None; w_pend := w_pend w;
               w_trace := w_trace w ++ teardown_events o;
               w_asked := w_asked w; w_rnd := w_rnd w |}.
Proof.
  intros Ho Htree H4 H6. unfold outside_network_delete.
  unfold bind at 1. unfold deref_outnet at 1. rewrite Ho.
  unfold bind at 1.
  assert (match pending_tree o with
          | Some t => traverse_postorder t pending_node_del None
          | None => ret tt
          end w = Done tt w) as -> by (destruct Htree as [-> | ->]; reflexivity).
  unfold bind at 1. rewrite (port_deletes_run _ _ _ H4).
  unfold bind at 1. rewrite (port_deletes_run _ _ _ H6).
  run. unfold teardown_events. by rewrite <- !app_assoc.
Qed.

Lemma created_port_deletes a n : created (port_deletes a n) = [].
Proof.
  destruct a as [l|]; [|done]. cbn. induction (take (Z.to_nat n) l); done.
Qed.

Lemma created_teardown o : created (teardown_events o) = [].
Proof.
  unfold teardown_events. by rewrite !created_app, !created_port_deletes.
Qed.

Lemma free_in_teardown o : EvFreeOutnet ∈ teardown_events o.
Proof. unfold teardown_events. set_solver. Qed.

Lemma delete_in_port_deletes (l : list (option comm_point)) n j c :
  l !! j = Some (Some c) -> Z.of_nat j < n ->
  EvCommPointDelete (Some c) ∈ port_deletes (Some l) n.
Proof.
  intros Hj Hn. cbn. apply list_elem_of_fmap. exists (Some c).
  split; [done|]. apply list_elem_of_lookup. exists j.
  rewrite lookup_take_lt by lia. done.
Qed.

(** ** Building the dispatcher *)

Lemma requested_nonneg env ip6 ifs num_ifs enabled num_ports :
  0 <= num_ports -> 0 <= requested env ip6 ifs num_ifs enabled num_ports.
Proof.
  intros Hnp. unfold requested. destruct enabled; [|done].
  destruct (num_ifs <=? 0); [done|].
  pose proof (nfam_nonneg env ip6 (ifs_used ifs num_ifs)). nia.
Qed.

Lemma requested_bound env ip6 ifs num_ifs enabled num_ports :
  0 <= num_ports ->
  requested env ip6 ifs num_ifs enabled num_ports
    <= Z.max num_ifs 1 * num_ports.
Proof.
  intros Hnp. unfold requested. destruct enabled; [|nia].
  destruct (Z.leb_spec num_ifs 0); [nia|].
  pose proof (nfam_le_length env ip6 (ifs_used ifs num_ifs)).
  pose proof (nfam_nonneg env ip6 (ifs_used ifs num_ifs)).
  unfold ifs_used in *. rewrite length_take in *. nia.
Qed.

Lemma length_calloc_ports n : length (calloc_ports n) = Z.to_nat n.
Proof. apply length_replicate. Qed.

Lemma length_fresh_bytes env n capacity :
  length (fresh_bytes env n capacity) = Z.to_nat capacity.
Proof. unfold fresh_bytes. by rewrite length_fmap, length_seq. Qed.

(** The members of a fresh dispatcher after the allocations: the port
    arrays that were allocated are zeroed arrays of the requested size
    plus one, and the tree, when allocated, is empty. *)
Lemma create_members_spec env bufsize w o :
  w_outnet w = Some o ->
  udp_buff o = None -> udp4_ports o = None -> udp6_ports o = None ->
  pending_tree o = None ->
  exists ok w' o',
    create_members env (Some the_outnet) bufsize w = Done ok w' /\
    w_outnet w' = Some o' /\ w_pend w' = w_pend w /\
    w_trace w' = w_trace w /\
    num_udp4 o' = num_udp4 o /\ num_udp6 o' = num_udp6 o /\
    (pending_tree o' = None \/ pending_tree o' = Some []) /\
    (forall l, udp4_ports o' = Some l ->
               l = calloc_ports (to_size_t (num_udp4 o + 1))) /\
    (forall l, udp6_ports o' = Some l ->
               l = calloc_ports (to_size_t (num_udp6 o + 1))) /\
    (ok = true ->
     udp4_ports o' = Some (calloc_ports (to_size_t (num_udp4 o + 1))) /\
     udp6_ports o' = Some (calloc_ports (to_size_t (num_udp6 o + 1))) /\
     pending_tree o' = Some []).
Proof.
  intros Ho Hb H4 H6 Ht. unfold create_members, modify_outnet. run.
  destruct (env_alloc env (w_asked w)); run.
  2:{ do 3 eexists. split; [reflexivity|]. cbn [w_outnet w_pend w_trace].
      split; [exact Ho|].
      repeat split; try done; try (by left); try congruence. }
  rewrite Ho. run.
  destruct (env_alloc env (S (w_asked w))); run.
  2:{ do 3 eexists. split; [reflexivity|]. cbn [w_outnet w_pend w_trace].
      split; [reflexivity|]. cbn.
      repeat split; try done; try (by left); try congruence. }
  destruct (env_alloc env (S (S (w_asked w)))); run.
  2:{ do 3 eexists. split; [reflexivity|]. cbn [w_outnet w_pend w_trace].
      split; [reflexivity|]. cbn.
      repeat split; try done; try (by left); try congruence. }
  destruct (env_alloc env (S (S (S (w_asked w))))); run.
  2:{ do 3 eexists. split; [reflexivity|]. cbn [w_outnet w_pend w_trace].
      split; [reflexivity|]. cbn.
      repeat split; try done; try (by left); try congruence. }
  do 3 eexists. split; [reflexivity|]. cbn [w_outnet w_pend w_trace].
  split; [reflexivity|]. cbn.
  repeat split; try done; try (by right); try congruence.
Qed.

Lemma set_count_id which o arr :
  ports_of which o = Some arr ->
  match which with Udp4 => num_udp4 o | Udp6 => num_udp6 o end = 0 ->
  set_count which (with_ports which o arr) 0 = o.
Proof. destruct which, o; cbn; by intros -> ->. Qed.

(** One optional call of [make_udp_range] on a whole array, with the
    number of opened ports stored as the array's count, as
    [outside_network_create] does it when no interface is given. *)
Lemma count_step env which (cond : bool) num_ports do4 do6 port_base w o arr :
  w_outnet w = Some o ->
  ports_of which o = Some arr ->
  (cond = false ->
   match which with Udp4 => num_udp4 o | Udp6 => num_udp6 o end = 0) ->
  0 <= num_ports < 2 ^ 64 ->
  (if cond then num_ports else 0) <= Z.of_nat (length arr) ->
  exists w' arr' cs evs,
    (if cond then
       let* n := make_udp_range env (which, 0) None num_ports do4 do6
                   port_base (Some the_outnet) in
       modify_outnet (Some the_outnet) (fun o => set_count which o n)
     else ret tt) w = Done tt w' /\
    w_outnet w' =
      Some (set_count which (with_ports which o arr')
                      (Z.of_nat (length cs))) /\
    w_pend w' = w_pend w /\
    w_trace w' = w_trace w ++ evs /\
    created evs = cs /\
    Z.of_nat (length cs) <= (if cond then num_ports else 0) /\
    length arr' = length arr /\
    (forall j c, cs !! j = Some c -> arr' !! j = Some (Some c)).
Proof.
  intros Ho Harr Hzero Hnp Hroom. destruct cond.
  - unfold make_udp_range.
    match goal with
    | |- context [make_udp_range_loop env ?n ?cm ?ifn ?hints ?ph ?on 0] =>
        destruct (make_udp_range_loop_spec env which 0 ifn hints n ph 0
                    w o arr Ho Harr)
          as (d & w' & arr' & cs & evs & Hrun & H1 & H2 & H3 & H4 & H5 & H6 & H7 & H8 & H9);
          try lia
    end.
    unfold bind at 1. rewrite Hrun. unfold modify_outnet. run.
    rewrite H1. run. eexists. exists arr', cs, evs. split; [reflexivity|].
    cbn [w_outnet w_pend w_trace]. rewrite H5, Z.add_0_l.
    split; [reflexivity|]. split; [exact H2|]. split; [exact H3|].
    split; [exact H4|]. split; [lia|]. split; [exact H7|].
    intros j c Hc. by apply H9 in Hc.
  - exists w, arr, [], []. rewrite app_nil_r. cbn [length Z.of_nat].
    rewrite set_count_id by auto. repeat split; done.
Qed.

(** The second half of [outside_network_create] on a freshly allocated
    dispatcher: it returns; with a dispatcher, when each family has as
    many comm points as requested, which then fill the arrays without a
    hole; with NULL otherwise, after every comm point it created was
    deleted and the dispatcher freed. *)
Lemma create_ports_spec env num_ports ifs num_ifs (do4 do6 : bool) port_base
    w o :
  w_outnet w = Some o ->
  num_udp4 o = requested env false ifs num_ifs do4 num_ports ->
  num_udp6 o = requested env true ifs num_ifs do6 num_ports ->
  udp4_ports o = Some (calloc_ports (to_size_t (num_udp4 o + 1))) ->
  udp6_ports o = Some (calloc_ports (to_size_t (num_udp6 o + 1))) ->
  pending_tree o = Some [] ->
  0 <= num_ports ->
  num_ifs <= Z.of_nat (length ifs) ->
  Z.max num_ifs 1 * num_ports + 1 < 2 ^ 64 ->
  exists r w' evs cs4 cs6,
    create_ports env (Some the_outnet) num_ports ifs num_ifs do4 do6
                 port_base w = Done r w' /\
    w_pend w' = w_pend w /\
    w_trace w' = w_trace w ++ evs /\
    (forall c, c ∈ created evs <-> c ∈ cs4 \/ c ∈ cs6) /\
    length (created evs) = (length cs4 + length cs6)%nat /\
    Z.of_nat (length cs4) <= num_udp4 o /\
    Z.of_nat (length cs6) <= num_udp6 o /\
    match r with
    | Some _ =>
        r = Some the_outnet /\
        Z.of_nat (length cs4) = num_udp4 o /\
        Z.of_nat (length cs6) = num_udp6 o /\
        exists o' a4 a6,
          w_outnet w' = Some o' /\
          num_udp4 o' = num_udp4 o /\ num_udp6 o' = num_udp6 o /\
          udp4_ports o' = Some a4 /\ udp6_ports o' = Some a6 /\
          (forall j c, cs4 !! j = Some c -> a4 !! j = Some (Some c)) /\
          (forall j c, cs6 !! j = Some c -> a6 !! j = Some (Some c))
    | None =>
        w_outnet w' = None /\
        (forall c, c ∈ created evs -> EvCommPointDelete (Some c) ∈ evs) /\
        EvFreeOutnet ∈ evs
    end.
Proof.
  intros Ho Hn4 Hn6 Ha4 Ha6 Htree Hnp Hifs Hwrap.
  pose proof (requested_nonneg env false ifs num_ifs do4 num_ports Hnp) as Hr4.
  pose proof (requested_nonneg env true ifs num_ifs do6 num_ports Hnp) as Hr6.
  pose proof (requested_bound env false ifs num_ifs do4 num_ports Hnp) as Hb4.
  pose proof (requested_bound env true ifs num_ifs do6 num_ports Hnp) as Hb6.
  rewrite <- Hn4 in Hr4, Hb4. rewrite <- Hn6 in Hr6, Hb6.
  rewrite to_size_t_small in Ha4, Ha6 by lia.
  set (a4 := calloc_ports (num_udp4 o + 1)) in *.
  set (a6 := calloc_ports (num_udp6 o + 1)) in *.
  assert (length a4 = Z.to_nat (num_udp4 o + 1)) as Hl4
    by apply length_calloc_ports.
  assert (length a6 = Z.to_nat (num_udp6 o + 1)) as Hl6
    by apply length_calloc_ports.
  unfold create_ports.
  destruct (Z.eqb_spec num_ifs 0) as [Hzero|Hnz].
  - (* no interface given *)
    assert (num_udp4 o = if do4 then num_ports else 0) as Hq4
      by (rewrite Hn4; unfold requested; subst num_ifs; by destruct do4).
    assert (num_udp6 o = if do6 then num_ports else 0) as Hq6
      by (rewrite Hn6; unfold requested; subst num_ifs; by destruct do6).
    destruct (count_step env Udp6 do6 num_ports false true port_base w o a6
                Ho Ha6)
      as (w1 & b6 & cs6 & evs6 & Hrun6 & Ho1 & Hp1 & Ht1 & Hc6 & Hle6 & Hlb6 & Hf6);
      [ intros ->; exact Hq6 | lia | destruct do6; lia | ].
    cbn [set_count] in Hrun6. unfold bind at 1. rewrite Hrun6.
    destruct (count_step env Udp4 do4 num_ports true false port_base w1 _ a4
                Ho1 Ha4)
      as (w2 & b4 & cs4 & evs4 & Hrun4 & Ho2 & Hp2 & Ht2 & Hc4 & Hle4 & Hlb4 & Hf4);
      [ intros ->; exact Hq4 | lia | destruct do4; lia | ].
    cbn [set_count] in Hrun4. unfold bind at 1. rewrite Hrun4.
    run. rewrite Ho2. run.
    cbn [set_count with_ports with_udp4 with_udp6 num_udp4 num_udp6
         udp4_ports udp6_ports].
    match goal with |- context [if ?b then _ else _] =>
      destruct b eqn:Hcheck end.
    + (* a family came out short *)
      run.
      erewrite outside_network_delete_run;
        [ | cbn [w_outnet]; eassumption | right; exact Htree
          | intros l [= <-]; cbn; lia | intros l [= <-]; cbn; lia ].
      exists None. eexists.
      exists (evs6 ++ evs4 ++
              EvLog LOG_ERR "Could not open all networkside ports" [] ::
              teardown_events
                (set_count Udp4
                   (with_ports Udp4
                      (set_count Udp6 (with_ports Udp6 o b6)
                                 (Z.of_nat (length cs6))) b4)
                   (Z.of_nat (length cs4)))), cs4, cs6.
      split; [reflexivity|]. cbn [w_outnet w_pend w_trace].
      split; [by rewrite Hp2, Hp1|].
      split. { rewrite Ht2, Ht1, <- !app_assoc. reflexivity. }
      assert (created (evs6 ++ evs4 ++
                EvLog LOG_ERR "Could not open all networkside ports" [] ::
                teardown_events
                  (set_count Udp4
                     (with_ports Udp4
                        (set_count Udp6 (with_ports Udp6 o b6)
                                   (Z.of_nat (length cs6))) b4)
                     (Z.of_nat (length cs4)))) = cs6 ++ cs4) as Hcr.
      { rewrite !created_app, Hc6, Hc4.
        change (created (?e :: ?t)) with (created t).
        by rewrite created_teardown, app_nil_r. }
      rewrite Hcr.
      split. { intros c. rewrite elem_of_app. tauto. }
      split. { rewrite length_app. lia. }
      split; [destruct do4; lia|]. split; [destruct do6; lia|].
      split; [done|]. split.
      * intros c Hc. rewrite !elem_of_app, elem_of_cons.
        right. right. right. unfold teardown_events.
        rewrite !elem_of_app. apply elem_of_app in Hc as [Hc|Hc];
          apply list_elem_of_lookup in Hc as [j Hj].
        -- right. left. eapply (delete_in_port_deletes _ _ j).
           ++ by apply Hf6.
           ++ apply lookup_lt_Some in Hj. cbn. lia.
        -- left. eapply (delete_in_port_deletes _ _ j).
           ++ by apply Hf4.
           ++ apply lookup_lt_Some in Hj. cbn. lia.
      * rewrite !elem_of_app, elem_of_cons. right. right. right.
        apply free_in_teardown.
    + (* both families are complete *)
      run. apply orb_false_iff in Hcheck as [Hck4 Hck6].
      exists (Some the_outnet). eexists. exists (evs6 ++ evs4), cs4, cs6.
      split; [reflexivity|].
      split; [by rewrite Hp2, Hp1|].
      split. { rewrite Ht2, Ht1, <- !app_assoc. reflexivity. }
      rewrite !created_app, Hc6, Hc4.
      split. { intros c. rewrite elem_of_app. tauto. }
      split. { rewrite length_app. lia. }
      split; [destruct do4; lia|]. split; [destruct do6; lia|].
      split; [done|].
      assert (Z.of_nat (length cs4) = num_udp4 o) as E4.
      { rewrite Hq4. destruct do4; [|lia]. cbn in Hck4.
        apply negb_false_iff, Z.eqb_eq in Hck4. done. }
      assert (Z.of_nat (length cs6) = num_udp6 o) as E6.
      { rewrite Hq6. destruct do6; [|lia]. cbn in Hck6.
        apply negb_false_iff, Z.eqb_eq in Hck6. done. }
      split; [done|]. split; [done|].
      do 3 eexists. split; [exact Ho2|]. cbn.
      split; [done|]. split; [done|]. split; [reflexivity|].
      split; [reflexivity|]. split; assumption.
  - (* over the interfaces *)
    set (n := Z.to_nat num_ifs).
    assert (Z.of_nat n <= Z.max num_ifs 1) as Hn by lia.
    assert ((if do4 then nfam env false (take n ifs) * num_ports else 0)
            <= num_udp4 o) as Hq4.
    { rewrite Hn4. unfold requested, ifs_used. destruct do4; [|lia].
      destruct (Z.leb_spec num_ifs 0); [|subst n; lia].
      subst n. replace (Z.to_nat num_ifs) with 0%nat by lia.
      rewrite take_0, nfam_nil. lia. }
    assert ((if do6 then nfam env true (take n ifs) * num_ports else 0)
            <= num_udp6 o) as Hq6.
    { rewrite Hn6. unfold requested, ifs_used. destruct do6; [|lia].
      destruct (Z.leb_spec num_ifs 0); [|subst n; lia].
      subst n. replace (Z.to_nat num_ifs) with 0%nat by lia.
      rewrite take_0, nfam_nil. lia. }
    destruct (create_ifs_loop_spec env num_ports do4 do6 port_base ifs n
                0 0 0 w o a4 a6 Ho Ha4 Ha6)
      as (d4 & d6 & w1 & b4 & b6 & cs4 & cs6 & evs & Hrun & Ho1 & Hp1 & Ht1 & Hmem & Hcnt & Hd4 & Hd6 & Hle4 & Hle6 & Hlb4 & Hlb6 & Hpre4 & Hf4 & Hpre6 & Hf6);
      try (change (drop (Z.to_nat 0) ifs) with ifs; first [lia | nia]).
    change (drop (Z.to_nat 0) ifs) with ifs in Hle4, Hle6.
    unfold bind at 1. rewrite Hrun. run. rewrite Ho1. run.
    cbn [both with_ports with_udp4 with_udp6 num_udp4 num_udp6].
    match goal with |- context [if ?b then _ else _] =>
      destruct b eqn:Hcheck end.
    + run.
      erewrite outside_network_delete_run;
        [ | cbn [w_outnet]; eassumption | right; exact Htree
          | intros l [= <-]; cbn; lia | intros l [= <-]; cbn; lia ].
      exists None. eexists.
      exists (evs ++
              EvLog LOG_ERR "Could not open all ports on all interfaces" [] ::
              teardown_events (both o b4 b6)), cs4, cs6.
      split; [reflexivity|]. cbn [w_outnet w_pend w_trace].
      split; [done|].
      split. { rewrite Ht1, <- !app_assoc. reflexivity. }
      assert (created (evs ++
                EvLog LOG_ERR "Could not open all ports on all interfaces" [] ::
                teardown_events (both o b4 b6)) = created evs) as Hcr.
      { rewrite !created_app.
        change (created (?e :: ?t)) with (created t).
        by rewrite created_teardown, app_nil_r. }
      rewrite Hcr.
      split; [done|]. split; [done|].
      split; [lia|]. split; [lia|].
      split; [done|]. split.
      * intros c Hc. rewrite !elem_of_app, elem_of_cons.
        right. right. unfold teardown_events.
        rewrite !elem_of_app. apply Hmem in Hc as [Hc|Hc];
          apply list_elem_of_lookup in Hc as [j Hj].
        -- left. eapply (delete_in_port_deletes _ _ j).
           ++ by apply Hf4.
           ++ apply lookup_lt_Some in Hj. cbn. lia.
        -- right. left. eapply (delete_in_port_deletes _ _ j).
           ++ by apply Hf6.
           ++ apply lookup_lt_Some in Hj. cbn. lia.
      * rewrite !elem_of_app, elem_of_cons. right. right.
        apply free_in_teardown.
    + unfold modify_outnet. run. rewrite Ho1. run.
      apply orb_false_iff in Hcheck as [Hck6 Hck4].
      apply negb_false_iff, Z.eqb_eq in Hck4, Hck6.
      exists (Some the_outnet). eexists. exists evs, cs4, cs6.
      split; [reflexivity|]. cbn [w_outnet w_pend w_trace].
      split; [done|]. split; [done|]. split; [done|]. split; [done|].
      split; [lia|]. split; [lia|].
      split; [done|]. split; [lia|]. split; [lia|].
      do 3 eexists. split; [reflexivity|]. cbn.
      split; [lia|]. split; [lia|]. split; [reflexivity|].
      split; [reflexivity|]. split; assumption.
Qed.

(** [outside_network_create] in a world without a dispatcher, with
    [num_ifs] interfaces at hand and counts that fit [size_t]: it returns;
    with a dispatcher when each family has as many comm points as
    requested, and these fill the arrays without a hole; with NULL
    otherwise, after every comm point it created was deleted and the
    dispatcher, if it was allocated, freed. *)
Lemma outside_network_create_spec env cbase bufsize num_ports ifs num_ifs
    do_ip4 do_ip6 port_base w :
  w_outnet w = None ->
  0 <= num_ports ->
  num_ifs <= Z.of_nat (length ifs) ->
  Z.max num_ifs 1 * num_ports + 1 < 2 ^ 64 ->
  let req4 := requested env false ifs num_ifs do_ip4 num_ports in
  let req6 := requested env true ifs num_ifs
                        (if env_INET6 env then do_ip6 else false) num_ports in
  exists r w' evs cs4 cs6,
    outside_network_create env cbase bufsize num_ports ifs num_ifs
                           do_ip4 do_ip6 port_base w = Done r w' /\
    w_pend w' = w_pend w /\
    w_trace w' = w_trace w ++ evs /\
    (forall c, c ∈ created evs <-> c ∈ cs4 \/ c ∈ cs6) /\
    length (created evs) = (length cs4 + length cs6)%nat /\
    Z.of_nat (length cs4) <= req4 /\
    Z.of_nat (length cs6) <= req6 /\
    match r with
    | Some _ =>
        r = Some the_outnet /\
        Z.of_nat (length cs4) = req4 /\
        Z.of_nat (length cs6) = req6 /\
        exists o' a4 a6,
          w_outnet w' = Some o' /\
          num_udp4 o' = req4 /\ num_udp6 o' = req6 /\
          udp4_ports o' = Some a4 /\ udp6_ports o' = Some a6 /\
          (forall j c, cs4 !! j = Some c -> a4 !! j = Some (Some c)) /\
          (forall j c, cs6 !! j = Some c -> a6 !! j = Some (Some c))
    | None =>
        w_outnet w' = None /\
        (forall c, c ∈ created evs -> EvCommPointDelete (Some c) ∈ evs) /\
        (env_alloc env (w_asked w) = true -> EvFreeOutnet ∈ evs)
    end.
Proof.
  intros Hnone Hnp Hifs Hwrap req4 req6.
  pose proof (requested_nonneg env false ifs num_ifs do_ip4 num_ports Hnp)
    as Hr4.
  pose proof (requested_nonneg env true ifs num_ifs
                (if env_INET6 env then do_ip6 else false) num_ports Hnp) as Hr6.
  pose proof (requested_bound env false ifs num_ifs do_ip4 num_ports Hnp)
    as Hb4.
  pose proof (requested_bound env true ifs num_ifs
                (if env_INET6 env then do_ip6 else false) num_ports Hnp) as Hb6.
  fold req4 in Hr4, Hb4. fold req6 in Hr6, Hb6.
  unfold outside_network_create. run.
  destruct (env_alloc env (w_asked w)) eqn:Halloc; run.
  2:{ exists None. eexists. exists [EvLog LOG_ERR "malloc failed" []], [], [].
      split; [reflexivity|]. cbn [w_outnet w_pend w_trace length].
      split; [done|]. split; [done|].
      change (created [EvLog LOG_ERR "malloc failed" []]) with (@nil comm_point).
      split. { intros c. rewrite !elem_of_nil. tauto. }
      split; [done|]. cbn [length]. split; [lia|]. split; [lia|].
      split; [done|]. split; [|done].
      intros c H. inversion H. }
  rewrite Hnone. unfold modify_outnet. run.
  rewrite calc_num46_spec by done.
  fold req4 req6. run.
  cbn [with_udp4 with_udp6 zero_outnet base udp_buff udp4_ports udp6_ports
       num_udp4 num_udp6 pending_tree].
  match goal with
  | |- context [create_members env _ bufsize ?w0] =>
      destruct (create_members_spec env bufsize w0
                  {| base := cbase; udp_buff := None; udp4_ports := None;
                     num_udp4 := req4; udp6_ports := None; num_udp6 := req6;
                     pending_tree := None |})
        as (ok & w1 & o1 & Hrun & Ho1 & Hp1 & Ht1 & Hn4 & Hn6 & Htree & Hs4 & Hs6 & Hok);
        try reflexivity
  end.
  cbn [num_udp4 num_udp6] in Hn4, Hn6, Hs4, Hs6, Hok.
  rewrite Hrun. destruct ok; cbn [negb].
  - (* all members allocated *)
    destruct (Hok eq_refl) as (Ha4 & Ha6 & Htr).
    destruct (create_ports_spec env num_ports ifs num_ifs do_ip4
                (if env_INET6 env then do_ip6 else false) port_base w1 o1)
      as (r & w2 & evs & cs4 & cs6 & Hrun2 & Hp2 & Ht2 & Hmem & Hcnt & Hle4 & Hle6 & Hres);
      try done; try (rewrite ?Hn4, ?Hn6; done).
    rewrite Hn4 in Hle4. rewrite Hn6 in Hle6.
    exists r, w2, evs, cs4, cs6.
    split; [exact Hrun2|]. cbn [w_pend w_trace] in Hp1, Ht1.
    split; [by rewrite Hp2, Hp1|]. split; [by rewrite Ht2, Ht1|].
    split; [done|]. split; [done|]. split; [done|]. split; [done|].
    destruct r as [rr|].
    + destruct Hres as (Hr & E4 & E6 & o' & a4 & a6 & Hw & Hm4 & Hm6 & Hrest).
      rewrite Hn4 in E4, Hm4. rewrite Hn6 in E6, Hm6.
      split; [done|]. split; [done|]. split; [done|].
      exists o', a4, a6. split; [done|]. split; [done|]. split; done.
    + destruct Hres as (Hw & Hdel & Hfree). split; [done|]. split; done.
  - (* an allocation failed *)
    run.
    erewrite outside_network_delete_run;
      [ | cbn [w_outnet]; exact Ho1 | exact Htree
        | intros l Hl; apply Hs4 in Hl; subst l;
          rewrite length_calloc_ports, to_size_t_small; lia
        | intros l Hl; apply Hs6 in Hl; subst l;
          rewrite length_calloc_ports, to_size_t_small; lia ].
    exists None. eexists.
    exists (EvLog LOG_ERR "malloc failed" [] :: teardown_events o1), [], [].
    split; [reflexivity|]. cbn [w_outnet w_pend w_trace] in *.
    split; [done|]. split. { by rewrite Ht1, <- app_assoc. }
    change (created (?e :: ?t)) with (created t).
    rewrite created_teardown. cbn [length].
    split. { intros c. rewrite !elem_of_nil. tauto. }
    split; [done|]. split; [lia|]. split; [lia|].
    split; [done|]. split.
    + intros c H. inversion H.
    + intros _. apply elem_of_cons. right. apply free_in_teardown.
Qed.

(** ** A shortfall of sockets *)

(** C6. The teardown after a shortfall leaves a socket open.
    [outside_network_create] is asked for two IPv4 ports on the default
    interface; [create_udp_sock] returns the descriptors 6 and 9, and
    [comm_point_create_udp] makes a comm point for the first and returns
    NULL for the second.  The family is one short, so the call logs the
    failure, tears the dispatcher down and returns NULL.  The teardown
    calls [comm_point_delete] on the one comm point of the pool and frees
    the structure; the descriptor 9, which is in no comm point, is passed
    to no call after [comm_point_create_udp]: these nine events are all
    that the call does. *)
Theorem create_leaks_descriptor :
  outside_network_create ex_env_nocomm 0 16 2 [] 0 true false (-1) ex_empty =
  Done None
    {| w_outnet := None; w_pend := w_pend ex_empty;
       w_trace :=
         [EvGetaddrinfo None None (udp_hints None true false);
          EvCreateUdpSock 6; EvCommPointCreate 6 (Some 107%nat);
          EvGetaddrinfo None None (udp_hints None true false);
          EvCreateUdpSock 9; EvCommPointCreate 9 None;
          EvLog LOG_ERR "Could not open all networkside ports" [];
          EvCommPointDelete (Some 107%nat); EvFreeOutnet];
       w_asked := 11; w_rnd := 0 |}.
Proof. vm_compute. reflexivity. Qed.

(** X22. [outside_network_create], called in a world without a dispatcher
    with [num_ifs] interfaces at hand and counts that fit [size_t],
    returns.  No family gets more comm points than were requested for it,
    so a family is short exactly when the number of comm points created
    differs from the sum of the requests; in that case the result is NULL,
    no dispatcher is left, every comm point that was created has been
    deleted, and the dispatcher structure, when it was allocated, has been
    freed. *)
Theorem create_shortfall_tears_down env cbase bufsize num_ports ifs num_ifs
    do_ip4 do_ip6 port_base w :
  w_outnet w = None ->
  0 <= num_ports ->
  num_ifs <= Z.of_nat (length ifs) ->
  Z.max num_ifs 1 * num_ports + 1 < 2 ^ 64 ->
  exists r w' evs,
    outside_network_create env cbase bufsize num_ports ifs num_ifs
                           do_ip4 do_ip6 port_base w = Done r w' /\
    w_trace w' = w_trace w ++ evs /\
    Z.of_nat (length (created evs)) <=
      requested env false ifs num_ifs do_ip4 num_ports +
      requested env true ifs num_ifs
                (if env_INET6 env then do_ip6 else false) num_ports /\
    (Z.of_nat (length (created evs)) <>
       requested env false ifs num_ifs do_ip4 num_ports +
       requested env true ifs num_ifs
                 (if env_INET6 env then do_ip6 else false) num_ports ->
     r = None /\
     w_outnet w' = None /\
     (forall c, In c (created evs) -> In (EvCommPointDelete (Some c)) evs) /\
     (env_alloc env (w_asked w) = true -> In EvFreeOutnet evs)).
Proof.
  intros Hnone Hnp Hifs Hwrap.
  destruct (outside_network_create_spec env cbase bufsize num_ports ifs
              num_ifs do_ip4 do_ip6 port_base w Hnone Hnp Hifs Hwrap)
    as (r & w' & evs & cs4 & cs6 & Hrun & _ & Htr & Hmem & Hcnt & Hle4 & Hle6 & Hres).
  exists r, w', evs. split; [exact Hrun|]. split; [exact Htr|].
  split; [lia|]. intros Hshort.
  destruct r as [rr|].
  - destruct Hres as (_ & E4 & E6 & _). lia.
  - destruct Hres as (Hw & Hdel & Hfree). split; [done|]. split; [done|].
    split.
    + intros c Hc. apply list_elem_of_In, Hdel, list_elem_of_In, Hc.
    + intros Ha. apply list_elem_of_In, Hfree, Ha.
Qed.

Lemma create_shortfall_tears_down_witness :
  exists r w' evs,
    outside_network_create ex_env_short 0 16 4 [] 0 true false (-1) ex_empty
      = Done r w' /\
    w_trace w' = w_trace ex_empty ++ evs /\
    Z.of_nat (length (created evs)) <=
      requested ex_env_short false [] 0 true 4 +
      requested ex_env_short true [] 0
                (if env_INET6 ex_env_short then false else false) 4 /\
    (Z.of_nat (length (created evs)) <>
       requested ex_env_short false [] 0 true 4 +
       requested ex_env_short true [] 0
                 (if env_INET6 ex_env_short then false else false) 4 ->
     r = None /\
     w_outnet w' = None /\
     (forall c, In c (created evs) -> In (EvCommPointDelete (Some c)) evs) /\
     (env_alloc ex_env_short (w_asked ex_empty) = true -> In EvFreeOutnet evs)).
Proof.
  apply (create_shortfall_tears_down ex_env_short 0 16 4 [] 0 true false (-1)
           ex_empty); [reflexivity | lia | simpl; lia | simpl; lia].
Defined.

(** The shortfall of the witness, run: three of the four ports come up,
    the result is NULL, and the three comm points are deleted again. *)
Example create_short_of_one_port :
  match ex_create ex_env_short with
  | Done r w' =>
      r = None /\ w_outnet w' = None /\
      created (w_trace w') = [107; 110; 114]%nat /\
      List.filter (fun e => match e with
                            | EvCommPointDelete _ | EvFreeOutnet => true
                            | _ => false
                            end) (w_trace w') =
        [EvCommPointDelete (Some 107%nat); EvCommPointDelete (Some 110%nat);
         EvCommPointDelete (Some 114%nat); EvFreeOutnet]
  | Fault => False
  end.
Proof. vm_compute. repeat split; reflexivity. Qed.

(** ** The arrays of a new dispatcher *)

(** C9. After a successful [outside_network_create] the entries of both
    port arrays below their counts are comm points, none is NULL; and on
    such a dispatcher [select_port] gives a pending a comm point, not
    NULL, whenever the count of its family is positive (and fits the
    [int] that [select_port] computes in). *)
Theorem create_ports_hole_free env cbase bufsize num_ports ifs num_ifs
    do_ip4 do_ip6 port_base w w' o' :
  w_outnet w = None ->
  0 <= num_ports ->
  num_ifs <= Z.of_nat (length ifs) ->
  Z.max num_ifs 1 * num_ports + 1 < 2 ^ 64 ->
  outside_network_create env cbase bufsize num_ports ifs num_ifs
                         do_ip4 do_ip6 port_base w
    = Done (Some the_outnet) w' ->
  w_outnet w' = Some o' ->
  (forall i, 0 <= i < num_udp4 o' ->
     exists arr c, udp4_ports o' = Some arr /\
                   arr !! Z.to_nat i = Some (Some c)) /\
  (forall i, 0 <= i < num_udp6 o' ->
     exists arr c, udp6_ports o' = Some arr /\
                   arr !! Z.to_nat i = Some (Some c)) /\
  (forall w2 pend pd,
     w_outnet w2 = Some o' ->
     w_pend w2 !! pend = Some pd ->
     0 < (if addr_is_ip6 (pend_addr pd) then num_udp6 o' else num_udp4 o')
       <= INT_MAX ->
     exists c w3,
       select_port env (Some the_outnet) pend w2 = Done tt w3 /\
       w_pend w3 !! pend = Some (with_c pd (Some c))).
Proof.
  intros Hnone Hnp Hifs Hwrap Hrun Ho'.
  destruct (outside_network_create_spec env cbase bufsize num_ports ifs
              num_ifs do_ip4 do_ip6 port_base w Hnone Hnp Hifs Hwrap)
    as (r & w0 & evs & cs4 & cs6 & Hrun0 & _ & _ & _ & _ & _ & _ & Hres).
  rewrite Hrun in Hrun0. injection Hrun0 as <- <-.
  destruct Hres as (_ & E4 & E6 & o0 & a4 & a6 & Hw & Hn4 & Hn6 & Ha4 & Ha6 & Hf4 & Hf6).
  rewrite Ho' in Hw. injection Hw as <-.
  assert (forall i, 0 <= i < num_udp4 o' ->
            exists c, a4 !! Z.to_nat i = Some (Some c)) as Hfull4.
  { intros i Hi.
    destruct (lookup_lt_is_Some_2 cs4 (Z.to_nat i)) as [c Hc]; [lia|].
    exists c. by apply Hf4. }
  assert (forall i, 0 <= i < num_udp6 o' ->
            exists c, a6 !! Z.to_nat i = Some (Some c)) as Hfull6.
  { intros i Hi.
    destruct (lookup_lt_is_Some_2 cs6 (Z.to_nat i)) as [c Hc]; [lia|].
    exists c. by apply Hf6. }
  split; [|split].
  - intros i Hi. destruct (Hfull4 i Hi) as [c Hc]. by exists a4, c.
  - intros i Hi. destruct (Hfull6 i Hi) as [c Hc]. by exists a6, c.
  - intros w2 pend pd Hw2 Hpd HN.
    set (N := if addr_is_ip6 (pend_addr pd) then num_udp6 o' else num_udp4 o')
      in *.
    set (ports := if addr_is_ip6 (pend_addr pd) then a6 else a4).
    assert (forall i, 0 <= i < N -> exists c, ports !! Z.to_nat i = Some (Some c))
      as Hfull by (subst N ports; destruct (addr_is_ip6 _); done).
    destruct (select_port_reads_pool env w2 o' pend pd ports N)
      as (i & c & w3 & Hi & Hc & Hsel & Hh & _); try done.
    { subst ports. by destruct (addr_is_ip6 _). }
    { destruct (Hfull (N - 1)) as [c Hc]; [lia|].
      apply lookup_lt_Some in Hc. lia. }
    destruct (Hfull i Hi) as [c' Hc']. rewrite Hc' in Hc. injection Hc as <-.
    exists c', w3. split; [done|]. rewrite Hh. apply lookup_insert_eq.
Qed.

Lemma create_ports_hole_free_witness :
  (forall i, 0 <= i < num_udp4 ex_created_outnet ->
     exists arr c, udp4_ports ex_created_outnet = Some arr /\
                   arr !! Z.to_nat i = Some (Some c)) /\
  (forall i, 0 <= i < num_udp6 ex_created_outnet ->
     exists arr c, udp6_ports ex_created_outnet = Some arr /\
                   arr !! Z.to_nat i = Some (Some c)) /\
  (forall w2 pend pd,
     w_outnet w2 = Some ex_created_outnet ->
     w_pend w2 !! pend = Some pd ->
     0 < (if addr_is_ip6 (pend_addr pd) then num_udp6 ex_created_outnet
          else num_udp4 ex_created_outnet) <= INT_MAX ->
     exists c w3,
       select_port ex_env (Some the_outnet) pend w2 = Done tt w3 /\
       w_pend w3 !! pend = Some (with_c pd (Some c))).
Proof.
  apply (create_ports_hole_free ex_env 0 16 4 [] 0 true false (-1) ex_empty
           ex_created_world ex_created_outnet);
    [reflexivity | lia | simpl; lia | simpl; lia
    | vm_compute; reflexivity | vm_compute; reflexivity].
Defined.

(** The dispatcher of the witness: four comm points, then the spare
    entry. *)
Example create_four_ports :
  udp4_ports ex_created_outnet =
    Some [Some 107; Some 110; Some 113; Some 116; None]%nat /\
  num_udp4 ex_created_outnet = 4 /\ num_udp6 ex_created_outnet = 0.
Proof. vm_compute. repeat split; reflexivity. Qed.

(* ===================================================================== *)
(** * Further properties of the dispatcher *)
(* ===================================================================== *)

(** ** The tree invariant, spelled out *)

Lemma same_key_refl (h : gmap ptr pending) q :
  is_Some (h !! q) -> same_key h q q = true.
Proof.
  intros [pd Hq]. unfold same_key. rewrite Hq.
  apply Z.eqb_eq, pending_cmp_refl.
Qed.

Lemma index_ok_spec (h : gmap ptr pending) tree :
  index_ok h tree = true <->
  NoDup tree /\
  (forall q, In q tree -> is_Some (h !! q)) /\
  (forall q1 q2, In q1 tree -> In q2 tree ->
                 same_key h q1 q2 = true -> q1 = q2).
Proof.
  split.
  - intros Hok. split; [|split].
    + induction tree as [|a t IH]; [constructor|].
      pose proof (index_ok_live h (a :: t) a Hok (or_introl eq_refl)) as Hla.
      simpl in Hok. rewrite !andb_true_iff, negb_true_iff in Hok.
      destruct Hok as [[_ Hex] Ht]. constructor; [|by apply IH].
      intros Hin%list_elem_of_In.
      assert (existsb (same_key h a) t = true); [|congruence].
      apply existsb_exists. exists a. split; [done|by apply same_key_refl].
    + intros q. by apply index_ok_live.
    + intros q1 q2. by apply index_ok_unique.
  - intros (Hnd & Hlive & Huniq).
    induction tree as [|a t IH]; [done|]. simpl.
    apply NoDup_cons in Hnd as [Hna Hnd].
    rewrite !andb_true_iff, negb_true_iff. split; [split|].
    + unfold live. destruct (Hlive a (or_introl eq_refl)) as [pd ->]. done.
    + destruct (existsb (same_key h a) t) eqn:E; [|done].
      apply existsb_exists in E as (q & Hq & Hk).
      assert (a = q) as -> by (apply Huniq; [by left|by right|done]).
      destruct Hna. by apply list_elem_of_In.
    + apply IH; [done| |]; intros; [apply Hlive|apply Huniq]; auto;
        by right.
Qed.

Lemma remove_first_sublist f tree : sublist (remove_first f tree) tree.
Proof.
  induction tree as [|a t IH]; simpl; [constructor|].
  destruct (f a); [by apply sublist_cons|by apply sublist_skip].
Qed.

(** The key of a pending is made of its [id], [addr] and [addrlen]. *)
Lemma pending_cmp_same_key_l p1 p1' p2 :
  pend_id p1 = pend_id p1' -> pend_addr p1 = pend_addr p1' ->
  pend_addrlen p1 = pend_addrlen p1' ->
  pending_cmp p1 p2 = pending_cmp p1' p2.
Proof. unfold pending_cmp. by intros -> -> ->. Qed.

Lemma pending_cmp_same_key_r p1 p2 p2' :
  pend_id p2 = pend_id p2' -> pend_addr p2 = pend_addr p2' ->
  pend_addrlen p2 = pend_addrlen p2' ->
  pending_cmp p1 p2 = pending_cmp p1 p2'.
Proof. unfold pending_cmp. by intros -> -> ->. Qed.

Lemma remove_first_ext (f g : ptr -> bool) tree :
  (forall q, In q tree -> f q = g q) ->
  remove_first f tree = remove_first g tree.
Proof.
  induction tree as [|a t IH]; simpl; [done|]. intros H.
  rewrite (H a) by auto. destruct (g a); [done|].
  f_equal. apply IH. auto.
Qed.

(** Changing fields of a node that are not part of its key does not
    change what the deletion of its key removes. *)
Lemma rbtree_delete_touch (h : gmap ptr pending) tree p pd pd' :
  h !! p = Some pd ->
  pend_id pd' = pend_id pd -> pend_addr pd' = pend_addr pd ->
  pend_addrlen pd' = pend_addrlen pd ->
  rbtree_delete (<[p := pd']> h) tree pd' = rbtree_delete h tree pd.
Proof.
  intros Hp Hid Haddr Hlen. unfold rbtree_delete.
  apply remove_first_ext. intros q _. unfold key_matches.
  destruct (decide (q = p)) as [->|Hne].
  - rewrite lookup_insert_eq, Hp.
    by rewrite (pending_cmp_same_key_l pd' pd), (pending_cmp_same_key_r pd pd' pd).
  - rewrite lookup_insert_ne by done.
    destruct (h !! q); [|done].
    by rewrite (pending_cmp_same_key_l pd' pd).
Qed.

Lemma same_key_delete (h : gmap ptr pending) p q1 q2 :
  q1 <> p -> q2 <> p -> same_key (delete p h) q1 q2 = same_key h q1 q2.
Proof.
  intros H1 H2. unfold same_key. by rewrite !lookup_delete_ne.
Qed.

(** Deleting a node and freeing it keeps the invariant. *)
Lemma index_ok_delete (h : gmap ptr pending) tree p pd :
  index_ok h tree = true -> In p tree -> h !! p = Some pd ->
  index_ok (delete p h) (rbtree_delete h tree pd) = true.
Proof.
  intros Hok Hin Hp.
  pose proof (rbtree_delete_removes h tree p pd Hok Hin Hp) as Hrem.
  apply index_ok_spec in Hok as (Hnd & Hlive & Huniq).
  apply index_ok_spec. split; [|split].
  - eapply sublist_NoDup; [done|apply remove_first_sublist].
  - intros q [Hq Hne]%Hrem. rewrite lookup_delete_ne by done. auto.
  - intros q1 q2 [H1 Hn1]%Hrem [H2 Hn2]%Hrem.
    rewrite same_key_delete by done. auto.
Qed.

Lemma node_ok_delete (h : gmap ptr pending) p q :
  q <> p -> node_ok (delete p h) q = node_ok h q.
Proof. intros Hne. unfold node_ok. by rewrite lookup_delete_ne. Qed.

(** ** What [dispatcher_ok] says *)

Lemma dispatcher_ok_spec w :
  dispatcher_ok w = true <->
  exists o buf tree,
    w_outnet w = Some o /\ udp_buff o = Some buf /\
    pending_tree o = Some tree /\
    index_ok (w_pend w) tree = true /\
    (forall q, In q tree -> node_ok (w_pend w) q = true) /\
    pool_ok (udp4_ports o) (num_udp4 o) = true /\
    pool_ok (udp6_ports o) (num_udp6 o) = true.
Proof.
  unfold dispatcher_ok. split.
  - destruct (w_outnet w) as [o|]; [|done].
    destruct (udp_buff o) as [buf|] eqn:Hb; [|done].
    destruct (pending_tree o) as [tree|] eqn:Ht; [|done].
    rewrite !andb_true_iff, forallb_forall.
    intros [[[? ?] ?] ?]. exists o, buf, tree. auto 10.
  - intros (o & buf & tree & -> & -> & -> & ? & ? & ? & ?).
    rewrite !andb_true_iff, forallb_forall. auto.
Qed.

Lemma dispatcher_ok_logged w evs :
  dispatcher_ok (logged w evs) = dispatcher_ok w.
Proof. reflexivity. Qed.

(** ** The reply handler *)

(** What the handler does with a datagram that hits a pending on the
    socket chosen for it. *)
Lemma outnet_udp_cb_hit env w o buf tree c reply p pd t :
  w_outnet w = Some o ->
  udp_buff o = Some buf ->
  pending_tree o = Some tree ->
  index_ok (w_pend w) tree = true ->
  In p tree ->
  w_pend w !! p = Some pd ->
  pending_cmp (lookup_key env buf reply) pd = 0 ->
  pend_c pd = Some c ->
  pend_timer pd = Some t ->
  outnet_udp_cb env c (Some the_outnet) NETEVENT_NOERROR (Some reply) w =
    Done 0
      {| w_outnet :=
           Some (with_tree o (Some (rbtree_delete (w_pend w) tree pd)));
         w_pend := delete p (w_pend w);
         w_trace :=
           w_trace w ++
           [EvLog VERB_ALGO "answer cb" [];
            EvLog VERB_ALGO "Incoming reply id=%4.4x addr=" [LDNS_ID_WIRE buf];
            EvLogAddr (pend_addr (lookup_key env buf reply))
                      (reply_addrlen reply);
            EvLog VERB_ALGO "lookup size is %d entries"
                  [Z.of_nat (length tree)];
            EvLog VERB_ALGO "received udp reply." [];
            EvTimerDisable p;
            EvLog VERB_ALGO "outnet handle udp reply" [];
            EvCallback (pend_cb pd) (Some c) (pend_cb_arg pd) NETEVENT_NOERROR;
            EvTimerDelete p];
         w_asked := w_asked w; w_rnd := w_rnd w |}.
Proof.
  intros Ho Hbuf Htree Hok Hin Hp Hkey Hc Ht.
  unfold outnet_udp_cb, comm_timer_disable, pending_delete.
  run. rewrite Z.eqb_refl. run.
  rewrite Ho. run. rewrite Hbuf. run. rewrite Htree. run.
  rewrite (rbtree_search_finds (w_pend w) tree _ p pd Hok Hin Hp Hkey).
  run. rewrite Hp. run.
  rewrite bool_decide_eq_false_2 by (rewrite Hc; auto). run.
  rewrite Hp. run. rewrite Ht. run. rewrite Hp. heap_run.
  rewrite Htree. heap_run. cbn [pend_timer with_timer]. heap_run.
  rewrite (rbtree_delete_touch (w_pend w) tree p pd) by done.
  rewrite delete_insert_eq, Hc, <- !app_assoc. reflexivity.
Qed.

Lemma dispatcher_ok_after_delete w o buf tree p pd tr :
  w_outnet w = Some o -> udp_buff o = Some buf ->
  pending_tree o = Some tree ->
  dispatcher_ok w = true ->
  In p tree -> w_pend w !! p = Some pd ->
  dispatcher_ok
    {| w_outnet :=
         Some (with_tree o (Some (rbtree_delete (w_pend w) tree pd)));
       w_pend := delete p (w_pend w);
       w_trace := tr; w_asked := w_asked w; w_rnd := w_rnd w |} = true.
Proof.
  intros Ho Hbuf Htree Hok Hin Hp.
  apply dispatcher_ok_spec in Hok
    as (o' & buf' & tree' & Ho' & Hbuf' & Htree' & Hidx & Hnodes & H4 & H6).
  assert (o' = o) as -> by congruence.
  assert (tree' = tree) as -> by congruence.
  apply dispatcher_ok_spec.
  exists (with_tree o (Some (rbtree_delete (w_pend w) tree pd))), buf,
         (rbtree_delete (w_pend w) tree pd).
  cbn [w_outnet w_pend with_tree udp_buff pending_tree udp4_ports udp6_ports
       num_udp4 num_udp6].
  repeat split; try done.
  - by apply index_ok_delete.
  - intros q Hq.
    apply (rbtree_delete_removes _ tree p pd Hidx Hin Hp) in Hq as [Hq Hne].
    rewrite node_ok_delete by done. auto.
Qed.

Lemma node_ok_timer (h : gmap ptr pending) q pd :
  node_ok h q = true -> h !! q = Some pd ->
  (exists t, pend_timer pd = Some t) /\ pend_outnet pd = Some the_outnet.
Proof.
  unfold node_ok. intros H Hq. rewrite Hq in H.
  destruct (pend_outnet pd) as [[]|], (pend_timer pd); try done. eauto.
Qed.

(** X1. A datagram whose key matches a pending of the index, received on
    the socket that was chosen for that pending, is delivered: the handler
    disables the pending's timer, calls the user's callback once, with
    that socket, the user's argument and the status NETEVENT_NOERROR, and
    then takes the pending out of the index, deletes its timer and frees
    it.  The other pendings and the rest of the dispatcher are as before,
    and the dispatcher is well formed again. *)
Theorem reply_is_delivered env w o buf tree c reply p pd :
  dispatcher_ok w = true ->
  w_outnet w = Some o ->
  udp_buff o = Some buf ->
  pending_tree o = Some tree ->
  In p tree ->
  w_pend w !! p = Some pd ->
  pending_cmp (lookup_key env buf reply) pd = 0 ->
  pend_c pd = Some c ->
  exists w' tree',
    outnet_udp_cb env c (Some the_outnet) NETEVENT_NOERROR (Some reply) w =
      Done 0 w' /\
    w_outnet w' = Some (with_tree o (Some tree')) /\
    (forall q, In q tree' <-> In q tree /\ q <> p) /\
    w_pend w' = delete p (w_pend w) /\
    w_trace w' =
      w_trace w ++
      [EvLog VERB_ALGO "answer cb" [];
       EvLog VERB_ALGO "Incoming reply id=%4.4x addr=" [LDNS_ID_WIRE buf];
       EvLogAddr (pend_addr (lookup_key env buf reply)) (reply_addrlen reply);
       EvLog VERB_ALGO "lookup size is %d entries" [Z.of_nat (length tree)];
       EvLog VERB_ALGO "received udp reply." [];
       EvTimerDisable p;
       EvLog VERB_ALGO "outnet handle udp reply" [];
       EvCallback (pend_cb pd) (Some c) (pend_cb_arg pd) NETEVENT_NOERROR;
       EvTimerDelete p] /\
    w_asked w' = w_asked w /\ w_rnd w' = w_rnd w /\
    dispatcher_ok w' = true.
Proof.
  intros Hok Ho Hbuf Htree Hin Hp Hkey Hc.
  pose proof Hok as Hok'.
  apply dispatcher_ok_spec in Hok'
    as (o' & buf' & tree' & Ho' & Hbuf' & Htree' & Hidx & Hnodes & H4 & H6).
  assert (o' = o) as -> by congruence.
  assert (tree' = tree) as -> by congruence.
  destruct (node_ok_timer _ p pd (Hnodes p Hin) Hp) as [[t Ht] _].
  eexists _, (rbtree_delete (w_pend w) tree pd).
  split; [by apply (outnet_udp_cb_hit env w o buf tree c reply p pd t)|].
  cbn [w_outnet w_pend w_trace w_asked w_rnd].
  repeat split; try done.
  - by apply (rbtree_delete_removes _ tree p pd Hidx Hin Hp).
  - by apply (rbtree_delete_removes _ tree p pd Hidx Hin Hp).
  - intros [? ?]. by apply (rbtree_delete_removes _ tree p pd Hidx Hin Hp).
  - by apply (dispatcher_ok_after_delete w o buf tree p pd).
Qed.

Lemma reply_is_delivered_witness :
  exists w' tree',
    outnet_udp_cb ex_env 100%nat (Some the_outnet) NETEVENT_NOERROR
                  (Some ex_reply) ex_world = Done 0 w' /\
    w_outnet w' = Some (with_tree ex_outnet (Some tree')) /\
    (forall q, In q tree' <-> In q [0%nat] /\ q <> 0%nat) /\
    w_pend w' = delete 0%nat (w_pend ex_world) /\
    w_trace w' =
      w_trace ex_world ++
      [EvLog VERB_ALGO "answer cb" [];
       EvLog VERB_ALGO "Incoming reply id=%4.4x addr="
             [LDNS_ID_WIRE ex_datagram];
       EvLogAddr (pend_addr (lookup_key ex_env ex_datagram ex_reply))
                 (reply_addrlen ex_reply);
       EvLog VERB_ALGO "lookup size is %d entries" [Z.of_nat (length [0%nat])];
       EvLog VERB_ALGO "received udp reply." [];
       EvTimerDisable 0%nat;
       EvLog VERB_ALGO "outnet handle udp reply" [];
       EvCallback (pend_cb ex_pending) (Some 100%nat) (pend_cb_arg ex_pending)
                  NETEVENT_NOERROR;
       EvTimerDelete 0%nat] /\
    w_asked w' = w_asked ex_world /\ w_rnd w' = w_rnd ex_world /\
    dispatcher_ok w' = true.
Proof.
  apply (reply_is_delivered ex_env ex_world ex_outnet ex_datagram [0%nat]
           100%nat ex_reply 0%nat ex_pending); try reflexivity. by left.
Defined.

(** What the handler does with a datagram that misses in the index. *)
Lemma outnet_udp_cb_miss env w o buf tree c reply :
  w_outnet w = Some o ->
  udp_buff o = Some buf ->
  pending_tree o = Some tree ->
  rbtree_search (w_pend w) tree (lookup_key env buf reply) = None ->
  outnet_udp_cb env c (Some the_outnet) NETEVENT_NOERROR (Some reply) w =
    Done 0 (logged w
      [EvLog VERB_ALGO "answer cb" [];
       EvLog VERB_ALGO "Incoming reply id=%4.4x addr=" [LDNS_ID_WIRE buf];
       EvLogAddr (pend_addr (lookup_key env buf reply)) (reply_addrlen reply);
       EvLog VERB_ALGO "lookup size is %d entries" [Z.of_nat (length tree)];
       EvLog VERB_DETAIL "received unsolicited udp reply. dropped." []]).
Proof.
  intros Ho Hbuf Htree Hmiss.
  unfold outnet_udp_cb. run. rewrite Z.eqb_refl. run.
  rewrite Ho. run. rewrite Hbuf. run. rewrite Htree. run.
  rewrite Hmiss. run. rewrite <- !app_assoc. reflexivity.
Qed.

(** X2. A datagram whose key (the ID on the wire, the sender's address
    and its length) matches no pending of the index is dropped as
    unsolicited: the handler returns 0 after five log lines, without a
    callback and without touching the index, the pendings or a timer.
    This holds for an empty index as for one whose pendings differ from
    the datagram in the ID or in the address. *)
Theorem reply_unsolicited_is_dropped env w o buf tree c reply :
  w_outnet w = Some o ->
  udp_buff o = Some buf ->
  pending_tree o = Some tree ->
  (forall q pd, In q tree -> w_pend w !! q = Some pd ->
                pending_cmp (lookup_key env buf reply) pd <> 0) ->
  outnet_udp_cb env c (Some the_outnet) NETEVENT_NOERROR (Some reply) w =
    Done 0 (logged w
      [EvLog VERB_ALGO "answer cb" [];
       EvLog VERB_ALGO "Incoming reply id=%4.4x addr=" [LDNS_ID_WIRE buf];
       EvLogAddr (pend_addr (lookup_key env buf reply)) (reply_addrlen reply);
       EvLog VERB_ALGO "lookup size is %d entries" [Z.of_nat (length tree)];
       EvLog VERB_DETAIL "received unsolicited udp reply. dropped." []]).
Proof.
  intros Ho Hbuf Htree Hno.
  apply (outnet_udp_cb_miss env w o buf tree c reply); try done.
  apply find_all_false. intros q Hq. unfold key_matches.
  destruct (w_pend w !! q) as [pd|] eqn:E; [|done].
  apply Z.eqb_neq. by apply (Hno q).
Qed.

(** A datagram with the ID of [ex_pending] from another port of the same
    host. *)
Lemma reply_unsolicited_is_dropped_witness :
  outnet_udp_cb ex_env 100%nat (Some the_outnet) NETEVENT_NOERROR
    (Some {| reply_addr := [2; 0; 0; 54; 192; 0; 2; 1; 0; 0; 0; 0; 0; 0; 0; 0];
             reply_addrlen := 16 |}) ex_world =
    Done 0 (logged ex_world
      [EvLog VERB_ALGO "answer cb" [];
       EvLog VERB_ALGO "Incoming reply id=%4.4x addr="
             [LDNS_ID_WIRE ex_datagram];
       EvLogAddr
         (pend_addr
            (lookup_key ex_env ex_datagram
               {| reply_addr :=
                    [2; 0; 0; 54; 192; 0; 2; 1; 0; 0; 0; 0; 0; 0; 0; 0];
                  reply_addrlen := 16 |}))
         16;
       EvLog VERB_ALGO "lookup size is %d entries" [Z.of_nat (length [0%nat])];
       EvLog VERB_DETAIL "received unsolicited udp reply. dropped." []]).
Proof.
  apply (reply_unsolicited_is_dropped ex_env ex_world ex_outnet ex_datagram
           [0%nat]); try reflexivity.
  intros q pd [<-|[]] Hpd. vm_compute in Hpd.
  injection Hpd as <-. vm_compute. discriminate.
Defined.

(** X3. A reply is delivered once.  After the handler has delivered a
    datagram to a pending, a second datagram with the key of that pending,
    on whatever socket it is received, misses in the index and is dropped
    as unsolicited: no second callback. *)
Theorem reply_is_delivered_once env w o buf tree c reply p pd :
  dispatcher_ok w = true ->
  w_outnet w = Some o ->
  udp_buff o = Some buf ->
  pending_tree o = Some tree ->
  In p tree ->
  w_pend w !! p = Some pd ->
  pending_cmp (lookup_key env buf reply) pd = 0 ->
  pend_c pd = Some c ->
  exists w1,
    outnet_udp_cb env c (Some the_outnet) NETEVENT_NOERROR (Some reply) w =
      Done 0 w1 /\
    callbacks (w_trace w1) =
      callbacks (w_trace w) ++
      [EvCallback (pend_cb pd) (Some c) (pend_cb_arg pd) NETEVENT_NOERROR] /\
    forall c' reply' buf',
      pending_cmp (lookup_key env buf' reply') pd = 0 ->
      exists evs,
        outnet_udp_cb env c' (Some the_outnet) NETEVENT_NOERROR (Some reply')
                      (with_datagram w1 buf') =
          Done 0 (logged (with_datagram w1 buf') evs) /\
        callbacks evs = [] /\
        In (EvLog VERB_DETAIL "received unsolicited udp reply. dropped." [])
           evs.
Proof.
  intros Hok Ho Hbuf Htree Hin Hp Hkey Hc.
  apply dispatcher_ok_spec in Hok
    as (o' & buf' & tree' & Ho' & Hbuf' & Htree' & Hidx & Hnodes & H4 & H6).
  assert (o' = o) as -> by congruence.
  assert (tree' = tree) as -> by congruence.
  destruct (node_ok_timer _ p pd (Hnodes p Hin) Hp) as [[t Ht] _].
  eexists. split; [|split].
  - by apply (outnet_udp_cb_hit env w o buf tree c reply p pd t).
  - cbn [w_trace]. rewrite callbacks_app. reflexivity.
  - intros c2 reply2 buf2 Hkey2. eexists. split; [|split].
    + apply outnet_udp_cb_miss
        with (o := with_udp_buff
                     (with_tree o (Some (rbtree_delete (w_pend w) tree pd)))
                     (Some buf2))
             (tree := rbtree_delete (w_pend w) tree pd); try reflexivity.
      cbn [with_datagram w_pend].
      by apply (rbtree_search_after_delete _ tree _ p pd).
    + reflexivity.
    + cbn. tauto.
Qed.

Lemma reply_is_delivered_once_witness :
  exists w1,
    outnet_udp_cb ex_env 100%nat (Some the_outnet) NETEVENT_NOERROR
                  (Some ex_reply) ex_world = Done 0 w1 /\
    callbacks (w_trace w1) =
      callbacks (w_trace ex_world) ++
      [EvCallback (pend_cb ex_pending) (Some 100%nat) (pend_cb_arg ex_pending)
                  NETEVENT_NOERROR] /\
    forall c' reply' buf',
      pending_cmp (lookup_key ex_env buf' reply') ex_pending = 0 ->
      exists evs,
        outnet_udp_cb ex_env c' (Some the_outnet) NETEVENT_NOERROR
                      (Some reply') (with_datagram w1 buf') =
          Done 0 (logged (with_datagram w1 buf') evs) /\
        callbacks evs = [] /\
        In (EvLog VERB_DETAIL "received unsolicited udp reply. dropped." [])
           evs.
Proof.
  apply (reply_is_delivered_once ex_env ex_world ex_outnet ex_datagram
           [0%nat] 100%nat ex_reply 0%nat ex_pending); try reflexivity.
  by left.
Defined.

(** X4. A reply that is dropped for the socket it came in on does not use
    up the pending: when the same datagram is then received on the socket
    that was chosen for the pending, it is delivered, with the one
    callback of the query. *)
Theorem reply_wrong_port_then_right env w o buf tree c c' reply p pd :
  dispatcher_ok w = true ->
  w_outnet w = Some o ->
  udp_buff o = Some buf ->
  pending_tree o = Some tree ->
  In p tree ->
  w_pend w !! p = Some pd ->
  pending_cmp (lookup_key env buf reply) pd = 0 ->
  pend_c pd = Some c ->
  c' <> c ->
  exists w1 w2,
    outnet_udp_cb env c' (Some the_outnet) NETEVENT_NOERROR (Some reply) w =
      Done 0 w1 /\
    callbacks (w_trace w1) = callbacks (w_trace w) /\
    w_pend w1 = w_pend w /\ w_outnet w1 = w_outnet w /\
    outnet_udp_cb env c (Some the_outnet) NETEVENT_NOERROR (Some reply) w1 =
      Done 0 w2 /\
    callbacks (w_trace w2) =
      callbacks (w_trace w) ++
      [EvCallback (pend_cb pd) (Some c) (pend_cb_arg pd) NETEVENT_NOERROR] /\
    w_pend w2 = delete p (w_pend w).
Proof.
  intros Hok Ho Hbuf Htree Hin Hp Hkey Hc Hne.
  apply dispatcher_ok_spec in Hok
    as (o' & buf' & tree' & Ho' & Hbuf' & Htree' & Hidx & Hnodes & H4 & H6).
  assert (o' = o) as -> by congruence.
  assert (tree' = tree) as -> by congruence.
  destruct (node_ok_timer _ p pd (Hnodes p Hin) Hp) as [[t Ht] _].
  eexists (logged w _), _.
  split; [|split; [|split; [|split; [|split; [|split]]]]].
  - unfold outnet_udp_cb. run. rewrite Z.eqb_refl. run.
    rewrite Ho. run. rewrite Hbuf. run. rewrite Htree. run.
    rewrite (rbtree_search_finds (w_pend w) tree _ p pd Hidx Hin Hp Hkey).
    run. rewrite Hp. run.
    rewrite bool_decide_eq_true_2 by (rewrite Hc; congruence). run.
    rewrite <- !app_assoc. reflexivity.
  - cbn [logged w_trace]. rewrite callbacks_app, app_nil_r. reflexivity.
  - reflexivity.
  - reflexivity.
  - by apply (outnet_udp_cb_hit env _ o buf tree c reply p pd t).
  - cbn [logged w_trace]. rewrite !callbacks_app, <- app_assoc. reflexivity.
  - reflexivity.
Qed.

Lemma reply_wrong_port_then_right_witness :
  exists w1 w2,
    outnet_udp_cb ex_env 101%nat (Some the_outnet) NETEVENT_NOERROR
                  (Some ex_reply) ex_world = Done 0 w1 /\
    callbacks (w_trace w1) = callbacks (w_trace ex_world) /\
    w_pend w1 = w_pend ex_world /\ w_outnet w1 = w_outnet ex_world /\
    outnet_udp_cb ex_env 100%nat (Some the_outnet) NETEVENT_NOERROR
                  (Some ex_reply) w1 = Done 0 w2 /\
    callbacks (w_trace w2) =
      callbacks (w_trace ex_world) ++
      [EvCallback (pend_cb ex_pending) (Some 100%nat) (pend_cb_arg ex_pending)
                  NETEVENT_NOERROR] /\
    w_pend w2 = delete 0%nat (w_pend ex_world).
Proof.
  apply (reply_wrong_port_then_right ex_env ex_world ex_outnet ex_datagram
           [0%nat] 100%nat 101%nat ex_reply 0%nat ex_pending);
    try reflexivity; [by left|discriminate].
Defined.

(** ** What a submit can change *)

(** Events that are neither a user callback nor a packet handed to a
    socket. *)
Lemma sends_app tr1 tr2 :
  List.filter is_send (tr1 ++ tr2) =
  List.filter is_send tr1 ++ List.filter is_send tr2.
Proof. apply List.filter_app. Qed.

(** [LDNS_ID_SET] writes the first two bytes of the packet and no
    other. *)
Lemma LDNS_ID_SET_body packet id w packet' w' :
  LDNS_ID_SET packet id w = Done packet' w' ->
  w' = w /\ length packet' = length packet /\ drop 2 packet' = drop 2 packet.
Proof.
  unfold LDNS_ID_SET. destruct (2 <=? length packet)%nat; [|done].
  unfold ret. intros [= <- <-].
  rewrite !length_insert, !drop_insert_lt by lia. done.
Qed.

Lemma with_tree_id o tree : pending_tree o = Some tree -> with_tree o (Some tree) = o.
Proof. destruct o. simpl. by intros ->. Qed.

(** A node with a key that the tree does not hold yet can be appended. *)
Lemma index_ok_snoc (h : gmap ptr pending) tree pend pd :
  index_ok h tree = true ->
  h !! pend = Some pd ->
  ~ In pend tree ->
  rbtree_search h tree pd = None ->
  index_ok h (tree ++ [pend]) = true.
Proof.
  intros Hok Hp Hnotin Hs.
  apply index_ok_spec in Hok as (Hnd & Hlive & Huniq).
  assert (forall q, In q tree -> same_key h q pend = false) as Hnew.
  { intros q Hq. rewrite same_key_sym. unfold same_key. rewrite Hp.
    destruct (h !! q) as [pdq|] eqn:E; [|done].
    pose proof (find_none _ _ Hs q Hq) as Hm.
    unfold key_matches in Hm. by rewrite E in Hm. }
  apply index_ok_spec. split; [|split].
  - apply NoDup_app. split; [done|]. split; [|apply NoDup_singleton].
    intros q Hq%list_elem_of_In [->|[]%elem_of_nil]%elem_of_cons. done.
  - intros q [Hq|[<-|[]]]%in_app_or; [auto|eauto].
  - intros q1 q2 [H1|[<-|[]]]%in_app_or [H2|[<-|[]]]%in_app_or Hk; auto.
    + rewrite Hnew in Hk; done.
    + rewrite same_key_sym, Hnew in Hk; done.
Qed.

(** Changes to a pending that is not a node of the tree, or that leave
    the key of a node alone, do not change the invariant. *)
Lemma index_ok_ext (h h' : gmap ptr pending) tree :
  (forall q, In q tree -> h' !! q = h !! q) ->
  index_ok h' tree = index_ok h tree.
Proof.
  induction tree as [|a t IH]; simpl; [done|]. intros H.
  rewrite IH by auto. f_equal. f_equal.
  - unfold live. by rewrite H by auto.
  - f_equal.
    assert (forall l, (forall q, In q l -> In q t) ->
              existsb (same_key h' a) l = existsb (same_key h a) l) as Hex.
    { induction l as [|b l IHl]; simpl; [done|]. intros Hl.
      rewrite IHl by auto. f_equal. unfold same_key.
      rewrite !H by auto. done. }
    apply Hex. auto.
Qed.

Lemma index_ok_insert_other (h : gmap ptr pending) tree q x :
  ~ In q tree -> index_ok (<[q := x]> h) tree = index_ok h tree.
Proof.
  intros Hq. apply index_ok_ext. intros a Ha.
  apply lookup_insert_ne. by intros ->.
Qed.

Lemma key_matches_touch (h : gmap ptr pending) key p pd pd' q :
  h !! p = Some pd ->
  pend_id pd' = pend_id pd -> pend_addr pd' = pend_addr pd ->
  pend_addrlen pd' = pend_addrlen pd ->
  key_matches (<[p := pd']> h) key q = key_matches h key q.
Proof.
  intros Hp Hid Haddr Hlen. unfold key_matches.
  destruct (decide (q = p)) as [->|Hne].
  - rewrite lookup_insert_eq, Hp.
    by rewrite (pending_cmp_same_key_r key pd' pd).
  - by rewrite lookup_insert_ne.
Qed.

Lemma same_key_touch (h : gmap ptr pending) p pd pd' q1 q2 :
  h !! p = Some pd ->
  pend_id pd' = pend_id pd -> pend_addr pd' = pend_addr pd ->
  pend_addrlen pd' = pend_addrlen pd ->
  same_key (<[p := pd']> h) q1 q2 = same_key h q1 q2.
Proof.
  intros Hp Hid Haddr Hlen. unfold same_key.
  destruct (decide (q1 = p)) as [->|Hn1], (decide (q2 = p)) as [->|Hn2];
    rewrite ?lookup_insert_eq, ?Hp, ?lookup_insert_ne by done.
  - by rewrite (pending_cmp_same_key_l pd' pd), (pending_cmp_same_key_r pd pd' pd).
  - destruct (h !! q2); [|done]. by rewrite (pending_cmp_same_key_l pd' pd).
  - destruct (h !! q1); [|done]. by rewrite (pending_cmp_same_key_r _ pd' pd).
  - done.
Qed.

Lemma index_ok_touch (h : gmap ptr pending) tree p pd pd' :
  h !! p = Some pd ->
  pend_id pd' = pend_id pd -> pend_addr pd' = pend_addr pd ->
  pend_addrlen pd' = pend_addrlen pd ->
  index_ok (<[p := pd']> h) tree = index_ok h tree.
Proof.
  intros Hp Hid Haddr Hlen.
  induction tree as [|a t IH]; simpl; [done|].
  rewrite IH. f_equal. f_equal.
  - unfold live. destruct (decide (a = p)) as [->|Hne].
    + by rewrite lookup_insert_eq, Hp.
    + by rewrite lookup_insert_ne.
  - f_equal. clear IH. induction t as [|b t IHt]; simpl; [done|].
    by rewrite IHt, (same_key_touch h p pd pd').
Qed.

Lemma rbtree_search_touch (h : gmap ptr pending) tree key p pd pd' :
  h !! p = Some pd ->
  pend_id pd' = pend_id pd -> pend_addr pd' = pend_addr pd ->
  pend_addrlen pd' = pend_addrlen pd ->
  rbtree_search (<[p := pd']> h) tree key = rbtree_search h tree key.
Proof.
  intros Hp Hid Haddr Hlen. unfold rbtree_search.
  induction tree as [|a t IH]; simpl; [done|].
  by rewrite IH, (key_matches_touch h key p pd pd').
Qed.

(** Deleting the key of the node that was appended last, when no other
    node has that key, gives the tree as it was. *)
Lemma rbtree_delete_last (h : gmap ptr pending) tree pend pd :
  h !! pend = Some pd ->
  rbtree_search h tree pd = None ->
  rbtree_delete h (tree ++ [pend]) pd = tree.
Proof.
  intros Hp Hs. unfold rbtree_delete, rbtree_search in *.
  induction tree as [|a t IH]; simpl in *.
  - unfold key_matches. rewrite Hp, pending_cmp_refl. done.
  - destruct (key_matches h pd a); [done|]. f_equal. by apply IH.
Qed.

(** What a completed run of the insertion loop leaves behind. *)
Lemma new_pending_loop_done env pend fuel :
  forall id_tries w packet o tree pd res packet' w',
  w_outnet w = Some o ->
  pending_tree o = Some tree ->
  w_pend w !! pend = Some pd ->
  new_pending_loop env fuel id_tries (Some the_outnet) pend packet w
    = Done (res, packet') w' ->
  length packet' = length packet /\
  drop 2 packet' = drop 2 packet /\
  w_asked w' = w_asked w /\
  ((res = None /\
    w_pend w' = delete pend (w_pend w) /\
    w_outnet w' = w_outnet w /\
    w_trace w' =
      w_trace w ++
      EvLog LOG_ERR "failed to generate unique ID, drop msg" [] ::
      match pend_timer pd with Some _ => [EvTimerDelete pend] | None => [] end)
   \/
   (res = Some pend /\
    exists id',
      w_pend w' = <[pend := with_id pd id']> (w_pend w) /\
      rbtree_search (w_pend w') tree (with_id pd id') = None /\
      w_outnet w' = Some (with_tree o (Some (tree ++ [pend]))) /\
      w_trace w' = w_trace w)).
Proof.
  induction fuel as [|fuel IH];
    intros id_tries w packet o tree pd res packet' w' Ho Htree Hp;
    cbn [new_pending_loop]; unfold bind at 1;
    rewrite (insert_node_run w o tree pend pd Ho Htree Hp);
    (destruct (rbtree_search (w_pend w) tree pd) as [q|] eqn:Hs;
     [| unfold ret; intros [= <- <- <-];
        (split; [done|]); (split; [done|]); (split; [done|]);
        right; (split; [done|]);
        exists (pend_id pd); cbn [w_pend w_outnet w_trace w_rnd];
        rewrite with_id_id, insert_id by done; eauto 10 ]);
    run; rewrite Hp; run; rewrite lookup_insert_eq; run;
    (destruct (LDNS_ID_SET packet _ _) as [packet1 w1|] eqn:Hset; [|done]);
    apply LDNS_ID_SET_body in Hset as (-> & Hlen1 & Hbody1);
    cbn [pend_id with_id];
    (destruct (to_int (id_tries + 1) =? MAX_ID_RETRY)).
  all: try (unfold pending_delete; run; rewrite lookup_insert_eq;
            cbn [pend_timer with_id]; set (tm := pend_timer pd);
            destruct tm; run; rewrite lookup_insert_eq;
            intros [= <- <- <-];
            (split; [done|]); (split; [done|]); (split; [done|]);
            left; cbn [w_pend w_outnet w_trace];
            rewrite delete_insert_eq, Ho, <- ?app_assoc; done).
  - done.
  - intros Hrun.
    eapply IH in Hrun; cbn [w_outnet w_pend];
      [ | exact Ho | exact Htree | apply lookup_insert_eq ].
    cbn [w_outnet w_pend w_trace w_rnd w_asked pend_timer with_id] in Hrun.
    destruct Hrun as (Hlen & Hbody & Hask & Hrun).
    split; [congruence|]. split; [congruence|]. split; [done|].
    destruct Hrun as [(-> & Hh & Hon & Htr)|(-> & id' & Hh & Hsr & Hon & Htr)].
    + left. rewrite delete_insert_eq in Hh. done.
    + right. split; [done|]. exists id'.
      rewrite insert_insert_eq in Hh. done.
Qed.

(** What a completed run of [new_pending] leaves behind. *)
Lemma new_pending_done env w packet addr addrlen cb cb_arg res packet' w' :
  new_pending env (Some the_outnet) packet addr addrlen cb cb_arg w
    = Done (res, packet') w' ->
  length packet' = length packet /\
  drop 2 packet' = drop 2 packet /\
  exists evs,
    w_trace w' = w_trace w ++ evs /\
    callbacks evs = [] /\ List.filter is_send evs = [] /\
    ((res = None /\ w_pend w' = w_pend w /\ w_outnet w' = w_outnet w)
     \/
     (exists pend id o tree,
        res = Some pend /\
        pend = fresh (dom (w_pend w)) /\
        w_pend w' =
          <[pend := fresh_pending id addr addrlen cb cb_arg]> (w_pend w) /\
        rbtree_search (w_pend w') tree
          (fresh_pending id addr addrlen cb cb_arg) = None /\
        LDNS_ID_WIRE packet' = id /\
        w_outnet w = Some o /\ pending_tree o = Some tree /\
        w_outnet w' = Some (with_tree o (Some (tree ++ [pend]))) /\
        w_asked w' = S (S (w_asked w)))).
Proof.
  intros Hrun.
  (* the ID on the wire and the shape of the result, as for the claims *)
  pose proof (new_pending_spec env w packet addr addrlen cb cb_arg res packet'
                w' Hrun) as Hspec.
  revert Hrun. unfold new_pending. run.
  destruct (env_alloc env (w_asked w)).
  2:{ run. intros [= <- <- <-]. split; [done|]. split; [done|].
      eexists. split; [reflexivity|]. split; [done|]. split; [done|].
      left. done. }
  run. set (pend := fresh (dom (w_pend w))).
  pose proof (fresh_not_live (w_pend w)) as Hfresh. fold pend in Hfresh.
  destruct (w_outnet w) as [o|] eqn:Ho; [|done]. run.
  destruct (env_alloc env (S (w_asked w))).
  2:{ run. rewrite lookup_insert_eq. run. intros [= <- <- <-].
      split; [done|]. split; [done|].
      exists []. cbn [w_trace w_pend w_outnet]. rewrite app_nil_r.
      split; [done|]. split; [done|]. split; [done|].
      left. rewrite delete_insert_id by done. done. }
  heap_run.
  cbn [pend_id with_id with_timer zero_pending pend_addr pend_c pend_timer].
  destruct (LDNS_ID_SET packet _ _) as [packet1 w1|] eqn:Hset; [|done].
  apply LDNS_ID_SET_body in Hset as (-> & Hlen1 & Hbody1).
  heap_run.
  cbn [pend_id with_id with_timer zero_pending pend_addr pend_c pend_timer].
  set (id0 := random_id (env_random env (w_rnd w))) in *.
  fold (fresh_pending id0 addr addrlen cb cb_arg).
  match goal with
  | |- context [new_pending_loop ?e ?f ?t ?on ?p ?pk ?w0] =>
      destruct (new_pending_loop e f t on p pk w0) as [[res1 packet2] w2|]
        eqn:Hloop; [|done]
  end.
  destruct (pending_tree o) as [tree|] eqn:Htree.
  2:{ erewrite new_pending_loop_no_tree in Hloop; try done.
      apply lookup_insert_eq. }
  eapply new_pending_loop_done in Hloop;
    [ | reflexivity | exact Htree | apply lookup_insert_eq ].
  cbn [w_outnet w_pend w_trace w_rnd w_asked] in Hloop.
  destruct Hloop as (Hlen2 & Hbody2 & Hask & Hloop).
  destruct Hloop as [(-> & Hh & Hon & Htr)|(-> & id' & Hh & Hsr & Hon & Htr)].
  - run. intros [= <- <- <-].
    split; [congruence|]. split; [congruence|].
    eexists. split; [exact Htr|]. split; [done|]. split; [done|].
    left. rewrite delete_insert_id in Hh by done. done.
  - run. rewrite Hh, lookup_insert_eq. run. intros [= <- <- <-].
    split; [congruence|]. split; [congruence|].
    cbn [w_trace w_pend w_outnet w_asked]. rewrite Htr.
    eexists. split; [rewrite <- app_assoc; reflexivity|].
    split; [done|]. split; [done|]. right.
    rewrite insert_insert_eq in Hh.
    destruct Hspec as [(Hbad & _)|(pend' & id2 & o2 & tree2 & Hspec)];
      [done|].
    exists pend, id', o, tree.
    assert (pend' = pend) as -> by (destruct Hspec as (_ & -> & _); reflexivity).
    assert (id2 = id') as ->.
    { destruct Hspec as (_ & _ & Hh' & _). cbn [w_pend] in Hh'.
      rewrite Hh in Hh'.
      apply (f_equal (fun m => pend_id <$> (m !! pend))) in Hh'.
      rewrite !lookup_insert_eq in Hh'. by injection Hh'. }
    destruct Hspec as (_ & _ & _ & Hw & _).
    split; [done|]. split; [done|]. split; [exact Hh|].
    split; [exact Hsr|]. split; [exact Hw|]. done.
Qed.

(** What a completed run of [select_port] leaves behind, with the origin
    of the socket it stored: the pool of the destination's family, read
    at the clamped index, unless that pool counts no socket. *)
Lemma select_port_done env pend w w' o pd :
  select_port env (Some the_outnet) pend w = Done tt w' ->
  w_outnet w = Some o ->
  w_pend w !! pend = Some pd ->
  w_outnet w' = w_outnet w /\ w_asked w' = w_asked w /\
  exists c e,
    w_pend w' = <[pend := with_c pd c]> (w_pend w) /\
    w_trace w' = w_trace w ++ [e] /\
    is_callback e = false /\ is_send e = false /\
    ((c = pend_c pd /\ to_int (pool_size o (pend_addr pd)) = 0 /\
      w_rnd w' = w_rnd w)
     \/
     (exists ports,
        pool_for o (pend_addr pd) = Some ports /\
        ports !! Z.to_nat
                   (clamp_chosen
                      (env_double_index env (env_random env (w_rnd w))
                         (to_int (pool_size o (pend_addr pd))))
                      (to_int (pool_size o (pend_addr pd)))) = Some c /\
        to_int (pool_size o (pend_addr pd)) <> 0 /\
        w_rnd w' = S (w_rnd w))).
Proof.
  intros Hrun Ho Hp. revert Hrun. unfold select_port. run.
  rewrite Ho. run. rewrite Hp. run.
  assert ((if addr_is_ip6 (pend_addr pd) then to_int (num_udp6 o)
           else to_int (num_udp4 o)) = to_int (pool_size o (pend_addr pd)))
    as -> by (unfold pool_size; by destruct (addr_is_ip6 _)).
  set (nummax := to_int (pool_size o (pend_addr pd))).
  destruct (Z.eqb_spec nummax 0) as [E|E].
  - run. intros [= <-]. cbn [w_pend w_outnet w_trace w_rnd w_asked].
    split; [done|]. split; [done|]. exists (pend_c pd). eexists.
    rewrite with_c_c, insert_id by done.
    split; [done|]. split; [done|]. split; [done|]. split; [done|].
    left. done.
  - run.
    assert ((if addr_is_ip6 (pend_addr pd)
             then array_get (udp6_ports o)
                    (clamp_chosen
                       (env_double_index env (env_random env (w_rnd w)) nummax)
                       nummax)
             else array_get (udp4_ports o)
                    (clamp_chosen
                       (env_double_index env (env_random env (w_rnd w)) nummax)
                       nummax))
            = array_get (pool_for o (pend_addr pd))
                (clamp_chosen
                   (env_double_index env (env_random env (w_rnd w)) nummax)
                   nummax)) as ->
      by (unfold pool_for; by destruct (addr_is_ip6 _)).
    match goal with |- context [array_get ?a ?i ?w0] =>
      destruct (array_get a i w0) as [c w1|] eqn:Hget end; [|done].
    apply array_get_world in Hget as (-> & ports & Hports & Hi & Hc).
    run. rewrite Hp. run. intros [= <-].
    cbn [w_pend w_outnet w_trace w_rnd w_asked].
    split; [done|]. split; [done|]. exists c. eexists.
    split; [done|]. split; [done|]. split; [done|]. split; [done|].
    right. exists ports. done.
Qed.

(** The socket that [select_port] stores is a comm point when the pool it
    draws from is hole-free and its count fits an [int]. *)
Lemma pool_ok_get a n i c :
  pool_ok a n = true ->
  0 <= i < n ->
  (exists ports, a = Some ports /\ ports !! Z.to_nat i = Some c) ->
  exists cp, c = Some cp.
Proof.
  unfold pool_ok. intros Hok Hi (ports & -> & Hc).
  rewrite !andb_true_iff, forallb_forall in Hok.
  destruct Hok as [_ Hall].
  assert (In c (take (Z.to_nat n) ports)) as Hin.
  { apply list_elem_of_In, list_elem_of_lookup. exists (Z.to_nat i).
    rewrite lookup_take_lt by lia. done. }
  apply Hall in Hin. destruct c; [eauto|done].
Qed.

Lemma fresh_pending_key id addr addrlen cb cb_arg c t :
  let pd := with_timer (with_c (fresh_pending id addr addrlen cb cb_arg) c) t in
  pend_id pd = id /\ pend_addr pd = stored_addr addr addrlen /\
  pend_addrlen pd = addrlen.
Proof. done. Qed.

Lemma rbtree_search_key (h : gmap ptr pending) tree key key' :
  pend_id key' = pend_id key -> pend_addr key' = pend_addr key ->
  pend_addrlen key' = pend_addrlen key ->
  rbtree_search h tree key' = rbtree_search h tree key.
Proof.
  intros Hid Haddr Hlen. unfold rbtree_search.
  induction tree as [|a t IH]; simpl; [done|]. rewrite IH.
  unfold key_matches. destruct (h !! a) as [pd|]; [|done].
  by rewrite (pending_cmp_same_key_l key' key).
Qed.

(** [pending_delete] on a node of the tree that owns a timer. *)
Lemma pending_delete_run w o tree p pd t :
  w_outnet w = Some o ->
  pending_tree o = Some tree ->
  w_pend w !! p = Some pd ->
  pend_timer pd = Some t ->
  pending_delete (Some the_outnet) (Some p) w =
    Done tt {| w_outnet :=
                 Some (with_tree o (Some (rbtree_delete (w_pend w) tree pd)));
               w_pend := delete p (w_pend w);
               w_trace := w_trace w ++ [EvTimerDelete p];
               w_asked := w_asked w; w_rnd := w_rnd w |}.
Proof.
  intros Ho Htree Hp Ht. unfold pending_delete. run.
  rewrite Ho. run. rewrite Hp, Htree. run. rewrite Hp, Ht. run.
  rewrite Hp. reflexivity.
Qed.

(** What a completed submit leaves behind: either the failure has been
    reported to the user and nothing has changed, or the query is
    registered. *)
Lemma pending_udp_query_done env w packet addr addrlen timeout cb cb_arg
    packet' w' :
  pending_udp_query env (Some the_outnet) packet addr addrlen timeout
                    cb cb_arg w = Done packet' w' ->
  length packet' = length packet /\
  drop 2 packet' = drop 2 packet /\
  exists evs,
    w_trace w' = w_trace w ++ evs /\
    ((w_pend w' = w_pend w /\ w_outnet w' = w_outnet w /\
      exists c,
        callbacks evs = [EvCallback cb c cb_arg NETEVENT_CLOSED] /\
        (List.filter is_send evs = [] /\ c = None \/
         List.filter is_send evs = [EvSend c packet' addr addrlen]))
     \/
     (exists c o tree,
        let pend := fresh (dom (w_pend w)) in
        let pd :=
          with_timer
            (with_c (fresh_pending (LDNS_ID_WIRE packet') addr addrlen
                                   cb cb_arg) c)
            (Some {| tm_timeout := Some timeout |}) in
        w_outnet w = Some o /\ pending_tree o = Some tree /\
        w_outnet w' = Some (with_tree o (Some (tree ++ [pend]))) /\
        w_pend w' = <[pend := pd]> (w_pend w) /\
        rbtree_search (w_pend w') tree pd = None /\
        callbacks evs = [] /\
        List.filter is_send evs = [EvSend c packet' addr addrlen] /\
        In (EvTimerSet pend timeout) evs /\
        (c = None /\
         to_int (pool_size o (stored_addr addr addrlen)) = 0
         \/
         exists ports i,
           pool_for o (stored_addr addr addrlen) = Some ports /\
           ports !! Z.to_nat i = Some c /\
           (0 < pool_size o (stored_addr addr addrlen) <= INT_MAX ->
            0 <= i < pool_size o (stored_addr addr addrlen))))).
Proof.
  unfold pending_udp_query. unfold bind at 1.
  destruct (new_pending env _ packet addr addrlen cb cb_arg w)
    as [[res packet1] w1|] eqn:Hnp; [|done].
  apply new_pending_done in Hnp
    as (Hlen & Hbody & evs1 & Htr1 & Hcb1 & Hsd1 & Hnp).
  destruct Hnp as [(-> & Hh & Hon)
                  |(pend & id & o & tree & -> & Hfr & Hh & Hsr & Hw & Ho
                    & Htree & Hon & Hask)].
  { run. intros [= <- <-]. split; [done|]. split; [done|].
    exists (evs1 ++ [EvCallback cb None cb_arg NETEVENT_CLOSED]).
    cbn [w_trace w_pend w_outnet]. rewrite Htr1, <- app_assoc.
    split; [done|]. left. split; [done|]. split; [done|].
    exists None. rewrite callbacks_app, sends_app, Hcb1, Hsd1. auto. }
  unfold bind at 1.
  destruct (select_port env (Some the_outnet) pend w1) as [[] w2|] eqn:Hsel;
    [|done].
  eapply select_port_done in Hsel as (Hon2 & Hask2 & c & e & Hh2 & Htr2 & He
                                      & Hes & Hc);
    [|exact Hon|rewrite Hh; apply lookup_insert_eq].
  rewrite Hh, insert_insert_eq in Hh2.
  unfold comm_point_send_udp_msg.
  run. rewrite Hh2, lookup_insert_eq. run.
  cbn [pend_c pend_cb pend_cb_arg with_c fresh_pending].
  assert (callbacks [e] = []) as Hcbe by (cbn; by rewrite He).
  assert (List.filter is_send [e] = []) as Hsde by (cbn; by rewrite Hes).
  destruct (env_send_udp_msg env (w_asked w2)).
  - unfold comm_timer_set. heap_run. rewrite Hh2. heap_run.
    cbn [pend_timer with_c fresh_pending].
    heap_run. intros [= <- <-].
    split; [done|]. split; [done|].
    exists (evs1 ++ [e] ++
            [EvSend c packet1 addr addrlen; EvTimerSet pend timeout]).
    cbn [w_trace w_pend w_outnet w_rnd].
    split; [rewrite Htr2, Htr1, <- !app_assoc; reflexivity|].
    right. exists c, o, tree.
    rewrite <- Hfr, Hw.
    split; [done|]. split; [done|]. split; [by rewrite Hon2|].
    split; [reflexivity|]. split.
    { rewrite Hh in Hsr.
      rewrite <- (rbtree_search_touch
                    (<[pend := fresh_pending id addr addrlen cb cb_arg]>
                       (w_pend w)) tree _ pend
                    (fresh_pending id addr addrlen cb cb_arg)
                    (with_timer
                       (with_c (fresh_pending id addr addrlen cb cb_arg) c)
                       (Some {| tm_timeout := Some timeout |})))
        in Hsr; [|apply lookup_insert_eq|done..].
      rewrite insert_insert_eq in Hsr.
      by rewrite (rbtree_search_key _ tree
                    (fresh_pending id addr addrlen cb cb_arg)). }
    split; [by rewrite !callbacks_app, Hcb1, Hcbe|].
    split; [by rewrite !sends_app, Hsd1, Hsde|].
    split; [rewrite !in_app_iff; right; right; right; by left|].
    destruct Hc as [(-> & Hz & _)|(ports & Hports & Hget & Hnz & _)].
    + left. done.
    + right. exists ports. eexists. split; [exact Hports|].
      split; [exact Hget|]. intros Hrange.
      change (pool_size (with_tree o (Some (tree ++ [pend])))
                (pend_addr (fresh_pending id addr addrlen cb cb_arg)))
        with (pool_size o (stored_addr addr addrlen)).
      rewrite to_int_small by (unfold INT_MAX in *; lia).
      apply clamp_chosen_range. done.
  - run.
    assert (w_pend w2 !! pend =
            Some (with_c (fresh_pending id addr addrlen cb cb_arg) c)) as Hp2
      by (rewrite Hh2; apply lookup_insert_eq).
    match goal with |- context [pending_delete ?on ?q ?w0] =>
      rewrite (pending_delete_run w0 _ (tree ++ [pend]) pend _
                 {| tm_timeout := None |}
                 ltac:(cbn [w_outnet]; rewrite Hon2; exact Hon)
                 eq_refl Hp2 eq_refl)
    end.
    run. intros [= <- <-]. split; [done|]. split; [done|].
    exists (evs1 ++ [e] ++
            [EvSend c packet1 addr addrlen;
             EvCallback cb c cb_arg NETEVENT_CLOSED; EvTimerDelete pend]).
    cbn [w_trace w_pend w_outnet].
    split; [rewrite Htr2, Htr1, <- !app_assoc; reflexivity|].
    left. split.
    { rewrite Hh2, delete_insert_id by (rewrite Hfr; apply fresh_not_live).
      done. }
    split.
    { rewrite Ho. f_equal.
      rewrite rbtree_delete_last; cbn [with_tree pending_tree];
        [by destruct o; simpl in *; subst|exact Hp2|].
      rewrite Hh in Hsr.
      rewrite <- (rbtree_search_touch
                    (<[pend := fresh_pending id addr addrlen cb cb_arg]>
                       (w_pend w)) tree _ pend
                    (fresh_pending id addr addrlen cb cb_arg)
                    (with_c (fresh_pending id addr addrlen cb cb_arg) c))
        in Hsr; [|apply lookup_insert_eq|done..].
      rewrite insert_insert_eq in Hsr. rewrite Hh2.
      by rewrite (rbtree_search_key _ tree
                    (fresh_pending id addr addrlen cb cb_arg)). }
    exists c. rewrite !callbacks_app, !sends_app, Hcb1, Hcbe, Hsd1, Hsde.
    split; [done|]. right. done.
Qed.

(** ** Submitting a query *)

(** X5. A submit that returns has done one of two things.  Either it has
    reported a failure: the user's callback has been invoked once, with
    the user's argument and the status NETEVENT_CLOSED, and the pendings
    and the dispatcher are what they were before the call.  Or it has
    registered the query: no callback has been invoked, the packet has
    been passed to the send routine once, and a new pending, at an address that
    was free, holds the ID that is on the wire, the destination, the
    socket, the user's callback and argument and a timer set to the
    timeout; it is the last node of the index, and every other pending is
    untouched. *)
Theorem submit_registers_or_reports env w packet addr addrlen timeout
    cb cb_arg packet' w' :
  pending_udp_query env (Some the_outnet) packet addr addrlen timeout
                    cb cb_arg w = Done packet' w' ->
  exists evs c,
    w_trace w' = w_trace w ++ evs /\
    ((callbacks evs = [EvCallback cb c cb_arg NETEVENT_CLOSED] /\
      w_pend w' = w_pend w /\ w_outnet w' = w_outnet w)
     \/
     (callbacks evs = [] /\
      List.filter is_send evs = [EvSend c packet' addr addrlen] /\
      In (EvTimerSet (fresh (dom (w_pend w))) timeout) evs /\
      w_pend w !! fresh (dom (w_pend w)) = None /\
      w_pend w' =
        <[fresh (dom (w_pend w)) :=
            with_timer
              (with_c (fresh_pending (LDNS_ID_WIRE packet') addr addrlen
                                     cb cb_arg) c)
              (Some {| tm_timeout := Some timeout |})]> (w_pend w) /\
      exists o tree,
        w_outnet w = Some o /\ pending_tree o = Some tree /\
        w_outnet w' =
          Some (with_tree o (Some (tree ++ [fresh (dom (w_pend w))]))))).
Proof.
  intros Hrun.
  apply pending_udp_query_done in Hrun as (_ & _ & evs & Htr & Hrun).
  exists evs.
  destruct Hrun as [(Hh & Hon & c & Hcb & _)
                   |(c & o & tree & Ho & Htree & Hon & Hh & _ & Hcb & Hsd
                     & Hset & _)].
  - exists c. split; [done|]. left. done.
  - exists c. split; [done|]. right.
    split; [done|]. split; [done|]. split; [done|].
    split; [apply fresh_not_live|]. split; [done|]. eauto.
Qed.

Lemma submit_registers_or_reports_witness :
  exists evs c,
    w_trace ex_after_submit = w_trace ex_world ++ evs /\
    ((callbacks evs = [EvCallback 7%nat c 9 NETEVENT_CLOSED] /\
      w_pend ex_after_submit = w_pend ex_world /\
      w_outnet ex_after_submit = w_outnet ex_world)
     \/
     (callbacks evs = [] /\
      List.filter is_send evs = [EvSend c ex_packet_sent ex_dest 16] /\
      In (EvTimerSet (fresh (dom (w_pend ex_world))) 3) evs /\
      w_pend ex_world !! fresh (dom (w_pend ex_world)) = None /\
      w_pend ex_after_submit =
        <[fresh (dom (w_pend ex_world)) :=
            with_timer
              (with_c (fresh_pending (LDNS_ID_WIRE ex_packet_sent) ex_dest 16
                                     7%nat 9) c)
              (Some {| tm_timeout := Some 3 |})]> (w_pend ex_world) /\
      exists o tree,
        w_outnet ex_world = Some o /\ pending_tree o = Some tree /\
        w_outnet ex_after_submit =
          Some (with_tree o
                  (Some (tree ++ [fresh (dom (w_pend ex_world))]))))).
Proof.
  apply (submit_registers_or_reports ex_env ex_world ex_packet ex_dest 16 3
           7%nat 9 ex_packet_sent ex_after_submit).
  vm_compute. reflexivity.
Defined.

(** X6. Of the caller's packet a submit changes the ID field and nothing
    else: whatever the outcome, the packet has the length it had and the
    same bytes from the third on. *)
Theorem submit_patches_only_the_id env w packet addr addrlen timeout
    cb cb_arg packet' w' :
  pending_udp_query env (Some the_outnet) packet addr addrlen timeout
                    cb cb_arg w = Done packet' w' ->
  length packet' = length packet /\ drop 2 packet' = drop 2 packet.
Proof.
  intros Hrun. apply pending_udp_query_done in Hrun as (? & ? & _). done.
Qed.

Lemma submit_patches_only_the_id_witness :
  length ex_packet_sent = length ex_packet /\
  drop 2 ex_packet_sent = drop 2 ex_packet.
Proof.
  apply (submit_patches_only_the_id ex_env ex_world ex_packet ex_dest 16 3
           7%nat 9 ex_packet_sent ex_after_submit).
  vm_compute. reflexivity.
Defined.

Lemma dispatcher_ok_same w w' :
  w_outnet w' = w_outnet w -> w_pend w' = w_pend w ->
  dispatcher_ok w' = dispatcher_ok w.
Proof. unfold dispatcher_ok. by intros -> ->. Qed.

Lemma node_ok_insert_other (h : gmap ptr pending) p q x :
  q <> p -> node_ok (<[p := x]> h) q = node_ok h q.
Proof. intros Hne. unfold node_ok. by rewrite lookup_insert_ne. Qed.

(** A submit keeps the dispatcher well formed. *)
Lemma pending_udp_query_keeps_ok env w packet addr addrlen timeout cb cb_arg
    packet' w' :
  dispatcher_ok w = true ->
  pending_udp_query env (Some the_outnet) packet addr addrlen timeout
                    cb cb_arg w = Done packet' w' ->
  dispatcher_ok w' = true /\
  exists o o',
    w_outnet w = Some o /\ w_outnet w' = Some o' /\
    udp_buff o' = udp_buff o /\
    udp4_ports o' = udp4_ports o /\ num_udp4 o' = num_udp4 o /\
    udp6_ports o' = udp6_ports o /\ num_udp6 o' = num_udp6 o.
Proof.
  intros Hok Hrun.
  apply pending_udp_query_done in Hrun as (_ & _ & evs & Htr & Hrun).
  pose proof Hok as Hok'.
  apply dispatcher_ok_spec in Hok'
    as (o & buf & tree & Ho & Hbuf & Htree & Hidx & Hnodes & H4 & H6).
  destruct Hrun as [(Hh & Hon & _)
                   |(c & o' & tree' & Ho' & Htree' & Hon & Hh & Hsr & _)].
  - split; [by rewrite (dispatcher_ok_same w w')|].
    exists o, o. rewrite Hon. done.
  - assert (o' = o) as -> by congruence.
    assert (tree' = tree) as -> by congruence.
    pose proof (fresh_not_live (w_pend w)) as Hfresh.
    set (pend := fresh (dom (w_pend w))) in *.
    assert (~ In pend tree) as Hnotin.
    { intros Hin. apply (index_ok_live _ _ _ Hidx) in Hin as [? Hin].
      congruence. }
    split.
    + apply dispatcher_ok_spec.
      exists (with_tree o (Some (tree ++ [pend]))), buf, (tree ++ [pend]).
      split; [done|]. split; [done|]. split; [done|]. split.
      { eapply index_ok_snoc; [|rewrite Hh; apply lookup_insert_eq|done|done].
        rewrite Hh, index_ok_insert_other; done. }
      split; [|done].
      intros q [Hq|[<-|[]]]%in_app_or; rewrite Hh.
      * rewrite node_ok_insert_other by (intros ->; done). auto.
      * unfold node_ok. by rewrite lookup_insert_eq.
    + exists o, (with_tree o (Some (tree ++ [pend]))). done.
Qed.

(** X7. A submit keeps the dispatcher well formed: when it returns, the
    index still holds live pendings with pairwise different keys, each
    with its timer and its reference to the dispatcher, and the pools and
    the buffer are the ones from before. *)
Theorem submit_keeps_dispatcher env w packet addr addrlen timeout cb cb_arg
    packet' w' :
  dispatcher_ok w = true ->
  pending_udp_query env (Some the_outnet) packet addr addrlen timeout
                    cb cb_arg w = Done packet' w' ->
  dispatcher_ok w' = true /\
  exists o o',
    w_outnet w = Some o /\ w_outnet w' = Some o' /\
    udp_buff o' = udp_buff o /\
    udp4_ports o' = udp4_ports o /\ num_udp4 o' = num_udp4 o /\
    udp6_ports o' = udp6_ports o /\ num_udp6 o' = num_udp6 o.
Proof.
  exact (pending_udp_query_keeps_ok env w packet addr addrlen timeout cb
           cb_arg packet' w').
Qed.

Lemma submit_keeps_dispatcher_witness :
  dispatcher_ok ex_after_submit = true /\
  exists o o',
    w_outnet ex_world = Some o /\ w_outnet ex_after_submit = Some o' /\
    udp_buff o' = udp_buff o /\
    udp4_ports o' = udp4_ports o /\ num_udp4 o' = num_udp4 o /\
    udp6_ports o' = udp6_ports o /\ num_udp6 o' = num_udp6 o.
Proof.
  apply (submit_keeps_dispatcher ex_env ex_world ex_packet ex_dest 16 3
           7%nat 9 ex_packet_sent ex_after_submit);
    vm_compute; reflexivity.
Defined.

(** ** The course of a submit *)

(** The insertion loop settles on the first ID that is free: when the ID
    in the pending and the [j - 1] that are drawn next collide and the
    [j]-th that is drawn does not, the pending enters the tree with that
    one, after [j] random words. *)
Lemma new_pending_loop_settles env pend addr addrlen cb cb_arg h0 tree o :
  ~ In pend tree ->
  pending_tree o = Some tree ->
  forall j fuel id_tries w packet r0,
    0 <= id_tries ->
    id_tries + Z.of_nat j < MAX_ID_RETRY ->
    (j <= fuel)%nat ->
    w_outnet w = Some o ->
    w_rnd w = S r0 ->
    w_pend w =
      <[pend := fresh_pending (random_id (env_random env r0))
                              addr addrlen cb cb_arg]> h0 ->
    (2 <= length packet)%nat ->
    LDNS_ID_WIRE packet = random_id (env_random env r0) ->
    (forall k, (k < j)%nat ->
       rbtree_search h0 tree
         (fresh_pending (random_id (env_random env (r0 + k)))
                        addr addrlen cb cb_arg) <> None) ->
    rbtree_search h0 tree
      (fresh_pending (random_id (env_random env (r0 + j)))
                     addr addrlen cb cb_arg) = None ->
    exists packet',
      LDNS_ID_WIRE packet' = random_id (env_random env (r0 + j)) /\
      length packet' = length packet /\
      drop 2 packet' = drop 2 packet /\
      new_pending_loop env fuel id_tries (Some the_outnet) pend packet w =
        Done (Some pend, packet')
             {| w_outnet := Some (with_tree o (Some (tree ++ [pend])));
                w_pend :=
                  <[pend := fresh_pending (random_id (env_random env (r0 + j)))
                                          addr addrlen cb cb_arg]> h0;
                w_trace := w_trace w; w_asked := w_asked w;
                w_rnd := S (r0 + j) |}.
Proof.
  intros Hnotin Htree. induction j as [|j IH];
    intros fuel id_tries w packet r0 Htries Hbound Hfuel Ho Hrnd Hh Hlen Hwire
           Hcols Hfree.
  - rewrite Nat.add_0_r in *. exists packet.
    split; [done|]. split; [done|]. split; [done|].
    assert (w_pend w !! pend =
            Some (fresh_pending (random_id (env_random env r0))
                                addr addrlen cb cb_arg)) as Hp
      by (rewrite Hh; apply lookup_insert_eq).
    destruct fuel; cbn [new_pending_loop]; unfold bind at 1;
      rewrite (insert_node_run w o tree pend _ Ho Htree Hp), Hh,
        rbtree_search_insert_other, Hfree by done;
      unfold ret; by rewrite <- Hh, Hrnd.
  - set (id := random_id (env_random env r0)) in *.
    assert (w_pend w !! pend = Some (fresh_pending id addr addrlen cb cb_arg))
      as Hp by (rewrite Hh; apply lookup_insert_eq).
    destruct fuel as [|fuel]; [lia|].
    cbn [new_pending_loop]. unfold bind at 1.
    rewrite (insert_node_run w o tree pend _ Ho Htree Hp), Hh,
      rbtree_search_insert_other by done.
    pose proof (Hcols 0%nat ltac:(lia)) as Hcol0.
    rewrite Nat.add_0_r in Hcol0. fold id in Hcol0.
    destruct (rbtree_search h0 tree (fresh_pending id addr addrlen cb cb_arg))
      as [q|] eqn:Hs; [|done].
    run. rewrite Hp. heap_run.
    cbn [pend_id with_id fresh_pending].
    rewrite Hrnd.
    match goal with |- context [LDNS_ID_SET packet ?i ?w0] =>
      destruct (LDNS_ID_SET_runs packet i w0 Hlen) as (packet1 & Hset & Hlen1);
      rewrite Hset;
      pose proof (LDNS_ID_SET_wire packet i w0 packet1 w0
                    (random_id_range _) Hset) as (Hwire1 & _ & _);
      pose proof (LDNS_ID_SET_body packet i w0 packet1 w0 Hset)
        as (_ & _ & Hbody1)
    end.
    rewrite to_int_small by (unfold MAX_ID_RETRY in *; lia).
    destruct (Z.eqb_spec (id_tries + 1) MAX_ID_RETRY) as [E|_]; [lia|].
    match goal with |- context [new_pending_loop env fuel _ _ pend packet1 ?w0] =>
      destruct (IH fuel (id_tries + 1) w0 packet1 (S r0))
        as (packet2 & Hwire2 & Hlen2 & Hbody2 & Hrun);
        cbn [w_outnet w_pend w_rnd w_trace w_asked]; try done; try lia
    end.
    + rewrite Hh, insert_insert_eq. reflexivity.
    + intros k Hk. replace (S r0 + k)%nat with (r0 + S k)%nat by lia.
      apply Hcols. lia.
    + replace (S r0 + j)%nat with (r0 + S j)%nat by lia. done.
    + exists packet2.
      replace (S r0 + j)%nat with (r0 + S j)%nat in * by lia.
      split; [done|]. split; [congruence|]. split; [congruence|].
      rewrite Hrun. cbn [w_outnet w_pend w_rnd w_trace w_asked]. reflexivity.
Qed.

(** [select_port] on a pool that counts [N] sockets, [0 < N <= INT_MAX]. *)
Lemma select_port_run env w o pend pd ports c :
  w_outnet w = Some o ->
  w_pend w !! pend = Some pd ->
  pool_for o (pend_addr pd) = Some ports ->
  0 < pool_size o (pend_addr pd) <= INT_MAX ->
  ports !! Z.to_nat
             (clamp_chosen
                (env_double_index env (env_random env (w_rnd w))
                                  (pool_size o (pend_addr pd)))
                (pool_size o (pend_addr pd))) = Some c ->
  select_port env (Some the_outnet) pend w =
    Done tt
      {| w_outnet := w_outnet w;
         w_pend := <[pend := with_c pd c]> (w_pend w);
         w_trace :=
           w_trace w ++
           [EvLog VERB_ALGO "query %x outbound %d of %d"
                  [pend_id pd;
                   clamp_chosen
                     (env_double_index env (env_random env (w_rnd w))
                                       (pool_size o (pend_addr pd)))
                     (pool_size o (pend_addr pd));
                   pool_size o (pend_addr pd)]];
         w_asked := w_asked w; w_rnd := S (w_rnd w) |}.
Proof.
  intros Ho Hp Hports Hrange Hc.
  pose proof (clamp_chosen_range
                (env_double_index env (env_random env (w_rnd w))
                                  (pool_size o (pend_addr pd)))
                (pool_size o (pend_addr pd)) Hrange) as Hi.
  unfold select_port. run. rewrite Ho. run. rewrite Hp. run.
  assert ((if addr_is_ip6 (pend_addr pd) then to_int (num_udp6 o)
           else to_int (num_udp4 o)) = pool_size o (pend_addr pd)) as ->.
  { transitivity (to_int (pool_size o (pend_addr pd))).
    - unfold pool_size. by destruct (addr_is_ip6 _).
    - apply to_int_small. unfold INT_MAX in *. lia. }
  destruct (Z.eqb_spec (pool_size o (pend_addr pd)) 0) as [E|_]; [lia|].
  run.
  set (i := clamp_chosen _ _) in *.
  assert ((if addr_is_ip6 (pend_addr pd)
           then array_get (udp6_ports o) i else array_get (udp4_ports o) i)
          = ret c) as ->.
  { transitivity (array_get (pool_for o (pend_addr pd)) i).
    - unfold pool_for. by destruct (addr_is_ip6 _).
    - rewrite Hports. unfold array_get.
      destruct (Z.ltb_spec i 0); [lia|]. by rewrite Hc. }
  run. rewrite Hp. run. rewrite Ho. reflexivity.
Qed.

Lemma pool_ok_lookup a n ports i :
  pool_ok a n = true -> a = Some ports -> 0 <= i < n ->
  exists c, ports !! Z.to_nat i = Some (Some c).
Proof.
  intros Hok -> Hi. pose proof Hok as Hok'. unfold pool_ok in Hok'.
  rewrite !andb_true_iff in Hok'. destruct Hok' as [[_ Hlen%Z.leb_le] _].
  destruct (lookup_lt_is_Some_2 ports (Z.to_nat i)) as [c Hc]; [lia|].
  destruct (pool_ok_get (Some ports) n i c Hok Hi) as [cp ->]; eauto.
Qed.

Lemma dispatcher_ok_pool w o addr :
  dispatcher_ok w = true -> w_outnet w = Some o ->
  pool_ok (pool_for o addr) (pool_size o addr) = true.
Proof.
  intros Hok Ho.
  apply dispatcher_ok_spec in Hok
    as (o' & buf & tree & Ho' & _ & _ & _ & _ & H4 & H6).
  assert (o' = o) as -> by congruence.
  unfold pool_for, pool_size. by destruct (addr_is_ip6 addr).
Qed.

(** The course of a submit for which memory is at hand, whose [j + 1]-st
    ID is the first that is free, and whose destination is of a family
    with sockets: up to the answer of the send routine. *)
Lemma pending_udp_query_course env w o tree ports packet addr addrlen timeout
    cb cb_arg j :
  dispatcher_ok w = true ->
  w_outnet w = Some o ->
  pending_tree o = Some tree ->
  pool_for o (stored_addr addr addrlen) = Some ports ->
  0 < pool_size o (stored_addr addr addrlen) <= INT_MAX ->
  (2 <= length packet)%nat ->
  env_alloc env (w_asked w) = true ->
  env_alloc env (S (w_asked w)) = true ->
  (j < 1000)%nat ->
  (forall k, (k < j)%nat ->
     rbtree_search (w_pend w) tree
       (fresh_pending (random_id (env_random env (w_rnd w + k)))
                      addr addrlen cb cb_arg) <> None) ->
  rbtree_search (w_pend w) tree
    (fresh_pending (random_id (env_random env (w_rnd w + j)))
                   addr addrlen cb cb_arg) = None ->
  let id := random_id (env_random env (w_rnd w + j)) in
  let N := pool_size o (stored_addr addr addrlen) in
  let i := clamp_chosen
             (env_double_index env (env_random env (S (w_rnd w + j))) N) N in
  let pend := fresh (dom (w_pend w)) in
  exists packet' c,
    0 <= i < N /\
    ports !! Z.to_nat i = Some (Some c) /\
    LDNS_ID_WIRE packet' = id /\
    length packet' = length packet /\
    drop 2 packet' = drop 2 packet /\
    pending_udp_query env (Some the_outnet) packet addr addrlen timeout
                      cb cb_arg w =
      Done packet'
        (if env_send_udp_msg env (S (S (w_asked w))) then
           {| w_outnet := Some (with_tree o (Some (tree ++ [pend])));
              w_pend :=
                <[pend :=
                    with_timer
                      (with_c (fresh_pending id addr addrlen cb cb_arg)
                              (Some c))
                      (Some {| tm_timeout := Some timeout |})]> (w_pend w);
              w_trace :=
                w_trace w ++
                [EvLog VERB_ALGO "inserted new pending reply id=%4.4x addr="
                       [id];
                 EvLogAddr (stored_addr addr addrlen) addrlen;
                 EvLog VERB_ALGO "query %x outbound %d of %d" [id; i; N];
                 EvSend (Some c) packet' addr addrlen;
                 EvTimerSet pend timeout];
              w_asked := S (S (S (w_asked w)));
              w_rnd := S (S (w_rnd w + j)) |}
         else
           {| w_outnet := Some o;
              w_pend := w_pend w;
              w_trace :=
                w_trace w ++
                [EvLog VERB_ALGO "inserted new pending reply id=%4.4x addr="
                       [id];
                 EvLogAddr (stored_addr addr addrlen) addrlen;
                 EvLog VERB_ALGO "query %x outbound %d of %d" [id; i; N];
                 EvSend (Some c) packet' addr addrlen;
                 EvCallback cb (Some c) cb_arg NETEVENT_CLOSED;
                 EvTimerDelete pend];
              w_asked := S (S (S (w_asked w)));
              w_rnd := S (S (w_rnd w + j)) |}).
Proof.
  intros Hok Ho Htree Hports Hrange Hlen Hal1 Hal2 Hj Hcols Hfree
         id N i pend.
  pose proof (dispatcher_ok_pool w o (stored_addr addr addrlen) Hok Ho)
    as Hpool.
  assert (0 <= i < N) as Hi by (apply clamp_chosen_range; done).
  destruct (pool_ok_lookup _ _ ports i Hpool Hports Hi) as [c Hc].
  apply dispatcher_ok_spec in Hok
    as (o' & buf & tree' & Ho' & _ & Htree' & Hidx & _).
  assert (o' = o) as -> by congruence.
  assert (tree' = tree) as -> by congruence.
  pose proof (fresh_not_live (w_pend w)) as Hfresh. fold pend in Hfresh.
  assert (~ In pend tree) as Hnotin.
  { intros Hin. apply (index_ok_live _ _ _ Hidx) in Hin as [? Hin].
    congruence. }
  unfold pending_udp_query, new_pending. run. rewrite Hal1. run.
  fold pend. rewrite Ho. run. rewrite Hal2. heap_run.
  cbn [pend_id with_id with_timer zero_pending].
  set (id0 := random_id (env_random env (w_rnd w))).
  match goal with |- context [LDNS_ID_SET packet id0 ?w0] =>
    destruct (LDNS_ID_SET_runs packet id0 w0 Hlen) as (packet1 & Hset & Hlen1);
    rewrite Hset;
    pose proof (LDNS_ID_SET_wire packet id0 w0 packet1 w0
                  (random_id_range _) Hset) as (Hwire1 & _ & _);
    pose proof (LDNS_ID_SET_body packet id0 w0 packet1 w0 Hset)
      as (_ & _ & Hbody1)
  end.
  heap_run.
  cbn [pend_id with_id with_timer zero_pending pend_addr pend_c pend_timer].
  fold (fresh_pending id0 addr addrlen cb cb_arg).
  match goal with |- context [new_pending_loop env ?f 0 ?on pend packet1 ?w0] =>
    destruct (new_pending_loop_settles env pend addr addrlen cb cb_arg
                (w_pend w) tree o Hnotin Htree j f 0 w0 packet1 (w_rnd w))
      as (packet2 & Hwire2 & Hlen2 & Hbody2 & ->)
  end; cbn [w_outnet w_pend w_rnd w_trace w_asked];
    try done; try (unfold MAX_ID_RETRY; lia).
  fold id. exists packet2, c.
  split; [done|]. split; [done|]. split; [done|].
  split; [congruence|]. split; [congruence|].
  heap_run. cbn [pend_id pend_addr pend_addrlen fresh_pending].
  fold (stored_addr addr addrlen).
  fold (fresh_pending id addr addrlen cb cb_arg).
  match goal with |- context [select_port env ?on pend ?w0] =>
    rewrite (select_port_run env w0 (with_tree o (Some (tree ++ [pend]))) pend
               (fresh_pending id addr addrlen cb cb_arg) ports (Some c)
               eq_refl (lookup_insert_eq _ _ _) Hports Hrange Hc)
  end.
  unfold comm_point_send_udp_msg. heap_run.
  cbn [pend_c pend_cb pend_cb_arg pend_id with_c fresh_pending].
  destruct (env_send_udp_msg env (S (S (w_asked w)))).
  - unfold comm_timer_set. heap_run.
    cbn [pend_timer with_c fresh_pending]. heap_run.
    rewrite <- !app_assoc. reflexivity.
  - run.
    match goal with |- context [pending_delete ?on ?q ?w0] =>
      rewrite (pending_delete_run w0 (with_tree o (Some (tree ++ [pend])))
                 (tree ++ [pend]) pend
                 (with_c (fresh_pending id addr addrlen cb cb_arg) (Some c))
                 {| tm_timeout := None |}
                 eq_refl eq_refl (lookup_insert_eq _ _ _) eq_refl)
    end.
    run. cbn [with_tree base udp_buff udp4_ports num_udp4 udp6_ports num_udp6
              pending_tree].
    rewrite delete_insert_id by done.
    rewrite rbtree_delete_last.
    + rewrite <- !app_assoc. f_equal. f_equal.
      destruct o; simpl in *; by subst.
    + apply lookup_insert_eq.
    + rewrite rbtree_search_insert_other by done.
      by rewrite (rbtree_search_key _ tree
                    (fresh_pending id addr addrlen cb cb_arg)).
Qed.

(** X8. The course of a successful submit.  In a well-formed dispatcher
    with memory at hand and a pool of [N] sockets for the destination's
    family, [0 < N <= INT_MAX], let the first [j] IDs that the random
    source yields collide with keys of the index and the next one be free
    ([j < 1000]).  Then the submit returns having used that ID: it is in
    the first two bytes of the packet, whose other bytes are unchanged,
    and in the new pending.  The socket is the one at the clamped index
    that the next random word gives in the pool; the packet is handed to
    it with the destination, and when the send routine reports success
    the pending's timer is set to the timeout.  The pending is the last
    node of the index, the user's callback has not been called, and
    [j + 2] random words are used up. *)
Theorem submit_sends_and_registers env w o tree ports packet addr addrlen
    timeout cb cb_arg j :
  dispatcher_ok w = true ->
  w_outnet w = Some o ->
  pending_tree o = Some tree ->
  pool_for o (stored_addr addr addrlen) = Some ports ->
  0 < pool_size o (stored_addr addr addrlen) <= INT_MAX ->
  (2 <= length packet)%nat ->
  env_alloc env (w_asked w) = true ->
  env_alloc env (S (w_asked w)) = true ->
  (j < 1000)%nat ->
  (forall k, (k < j)%nat ->
     rbtree_search (w_pend w) tree
       (fresh_pending (random_id (env_random env (w_rnd w + k)))
                      addr addrlen cb cb_arg) <> None) ->
  rbtree_search (w_pend w) tree
    (fresh_pending (random_id (env_random env (w_rnd w + j)))
                   addr addrlen cb cb_arg) = None ->
  env_send_udp_msg env (S (S (w_asked w))) = true ->
  let id := random_id (env_random env (w_rnd w + j)) in
  let N := pool_size o (stored_addr addr addrlen) in
  let i := clamp_chosen
             (env_double_index env (env_random env (S (w_rnd w + j))) N) N in
  let pend := fresh (dom (w_pend w)) in
  exists packet' c,
    0 <= i < N /\
    ports !! Z.to_nat i = Some (Some c) /\
    LDNS_ID_WIRE packet' = id /\
    length packet' = length packet /\
    drop 2 packet' = drop 2 packet /\
    pending_udp_query env (Some the_outnet) packet addr addrlen timeout
                      cb cb_arg w =
      Done packet'
        {| w_outnet := Some (with_tree o (Some (tree ++ [pend])));
           w_pend :=
             <[pend :=
                 with_timer
                   (with_c (fresh_pending id addr addrlen cb cb_arg) (Some c))
                   (Some {| tm_timeout := Some timeout |})]> (w_pend w);
           w_trace :=
             w_trace w ++
             [EvLog VERB_ALGO "inserted new pending reply id=%4.4x addr=" [id];
              EvLogAddr (stored_addr addr addrlen) addrlen;
              EvLog VERB_ALGO "query %x outbound %d of %d" [id; i; N];
              EvSend (Some c) packet' addr addrlen;
              EvTimerSet pend timeout];
           w_asked := S (S (S (w_asked w)));
           w_rnd := S (S (w_rnd w + j)) |}.
Proof.
  intros Hok Ho Htree Hports Hrange Hlen Hal1 Hal2 Hj Hcols Hfree Hsend.
  pose proof (pending_udp_query_course env w o tree ports packet addr addrlen
                timeout cb cb_arg j Hok Ho Htree Hports Hrange Hlen Hal1 Hal2
                Hj Hcols Hfree) as Hrun.
  rewrite Hsend in Hrun. exact Hrun.
Qed.

(** The second query to [ex_dest]: its first ID is the one of
    [ex_pending], the second one is free. *)
Lemma submit_sends_and_registers_witness :
  let id := random_id (env_random ex_env (w_rnd ex_world + 1)) in
  let N := pool_size ex_outnet (stored_addr ex_dest 16) in
  let i := clamp_chosen
             (env_double_index ex_env
                (env_random ex_env (S (w_rnd ex_world + 1))) N) N in
  let pend := fresh (dom (w_pend ex_world)) in
  exists packet' c,
    0 <= i < N /\
    [Some 100; Some 101; Some 102; Some 103; None]%nat !! Z.to_nat i
      = Some (Some c) /\
    LDNS_ID_WIRE packet' = id /\
    length packet' = length ex_packet /\
    drop 2 packet' = drop 2 ex_packet /\
    pending_udp_query ex_env (Some the_outnet) ex_packet ex_dest 16 3
                      7%nat 9 ex_world =
      Done packet'
        {| w_outnet := Some (with_tree ex_outnet (Some ([0%nat] ++ [pend])));
           w_pend :=
             <[pend :=
                 with_timer
                   (with_c (fresh_pending id ex_dest 16 7%nat 9) (Some c))
                   (Some {| tm_timeout := Some 3 |})]> (w_pend ex_world);
           w_trace :=
             w_trace ex_world ++
             [EvLog VERB_ALGO "inserted new pending reply id=%4.4x addr=" [id];
              EvLogAddr (stored_addr ex_dest 16) 16;
              EvLog VERB_ALGO "query %x outbound %d of %d" [id; i; N];
              EvSend (Some c) packet' ex_dest 16;
              EvTimerSet pend 3];
           w_asked := S (S (S (w_asked ex_world)));
           w_rnd := S (S (w_rnd ex_world + 1)) |}.
Proof.
  apply (submit_sends_and_registers ex_env ex_world ex_outnet [0%nat]
           [Some 100; Some 101; Some 102; Some 103; None]%nat
           ex_packet ex_dest 16 3 7%nat 9 1%nat); try reflexivity.
  - vm_compute. split; [reflexivity|discriminate].
  - simpl. lia.
  - lia.
  - intros k Hk. assert (k = 0)%nat as -> by lia. vm_compute. discriminate.
Defined.

(** X9. A send that fails is reported and leaves no trace in the
    dispatcher.  Under the conditions of a successful submit, except that
    the send routine reports a failure, the user's callback is invoked
    once, with the socket that was chosen, the user's argument and the
    status NETEVENT_CLOSED; the pending is taken out of the index, its
    timer is deleted and it is freed, so that the dispatcher and its
    pendings are what they were before the call.  The timer has not been
    set, and the packet carries the ID that was tried. *)
Theorem submit_send_failure_is_reported env w o tree ports packet addr
    addrlen timeout cb cb_arg j :
  dispatcher_ok w = true ->
  w_outnet w = Some o ->
  pending_tree o = Some tree ->
  pool_for o (stored_addr addr addrlen) = Some ports ->
  0 < pool_size o (stored_addr addr addrlen) <= INT_MAX ->
  (2 <= length packet)%nat ->
  env_alloc env (w_asked w) = true ->
  env_alloc env (S (w_asked w)) = true ->
  (j < 1000)%nat ->
  (forall k, (k < j)%nat ->
     rbtree_search (w_pend w) tree
       (fresh_pending (random_id (env_random env (w_rnd w + k)))
                      addr addrlen cb cb_arg) <> None) ->
  rbtree_search (w_pend w) tree
    (fresh_pending (random_id (env_random env (w_rnd w + j)))
                   addr addrlen cb cb_arg) = None ->
  env_send_udp_msg env (S (S (w_asked w))) = false ->
  let id := random_id (env_random env (w_rnd w + j)) in
  let N := pool_size o (stored_addr addr addrlen) in
  let i := clamp_chosen
             (env_double_index env (env_random env (S (w_rnd w + j))) N) N in
  let pend := fresh (dom (w_pend w)) in
  exists packet' c,
    0 <= i < N /\
    ports !! Z.to_nat i = Some (Some c) /\
    LDNS_ID_WIRE packet' = id /\
    length packet' = length packet /\
    drop 2 packet' = drop 2 packet /\
    pending_udp_query env (Some the_outnet) packet addr addrlen timeout
                      cb cb_arg w =
      Done packet'
        {| w_outnet := Some o;
           w_pend := w_pend w;
           w_trace :=
             w_trace w ++
             [EvLog VERB_ALGO "inserted new pending reply id=%4.4x addr=" [id];
              EvLogAddr (stored_addr addr addrlen) addrlen;
              EvLog VERB_ALGO "query %x outbound %d of %d" [id; i; N];
              EvSend (Some c) packet' addr addrlen;
              EvCallback cb (Some c) cb_arg NETEVENT_CLOSED;
              EvTimerDelete pend];
           w_asked := S (S (S (w_asked w)));
           w_rnd := S (S (w_rnd w + j)) |}.
Proof.
  intros Hok Ho Htree Hports Hrange Hlen Hal1 Hal2 Hj Hcols Hfree Hsend.
  pose proof (pending_udp_query_course env w o tree ports packet addr addrlen
                timeout cb cb_arg j Hok Ho Htree Hports Hrange Hlen Hal1 Hal2
                Hj Hcols Hfree) as Hrun.
  rewrite Hsend in Hrun. exact Hrun.
Qed.

Lemma submit_send_failure_is_reported_witness :
  let id := random_id (env_random ex_env_nosend (w_rnd ex_world + 1)) in
  let N := pool_size ex_outnet (stored_addr ex_dest 16) in
  let i := clamp_chosen
             (env_double_index ex_env_nosend
                (env_random ex_env_nosend (S (w_rnd ex_world + 1))) N) N in
  let pend := fresh (dom (w_pend ex_world)) in
  exists packet' c,
    0 <= i < N /\
    [Some 100; Some 101; Some 102; Some 103; None]%nat !! Z.to_nat i
      = Some (Some c) /\
    LDNS_ID_WIRE packet' = id /\
    length packet' = length ex_packet /\
    drop 2 packet' = drop 2 ex_packet /\
    pending_udp_query ex_env_nosend (Some the_outnet) ex_packet ex_dest 16 3
                      7%nat 9 ex_world =
      Done packet'
        {| w_outnet := Some ex_outnet;
           w_pend := w_pend ex_world;
           w_trace :=
             w_trace ex_world ++
             [EvLog VERB_ALGO "inserted new pending reply id=%4.4x addr=" [id];
              EvLogAddr (stored_addr ex_dest 16) 16;
              EvLog VERB_ALGO "query %x outbound %d of %d" [id; i; N];
              EvSend (Some c) packet' ex_dest 16;
              EvCallback 7%nat (Some c) 9 NETEVENT_CLOSED;
              EvTimerDelete pend];
           w_asked := S (S (S (w_asked ex_world)));
           w_rnd := S (S (w_rnd ex_world + 1)) |}.
Proof.
  apply (submit_send_failure_is_reported ex_env_nosend ex_world ex_outnet
           [0%nat] [Some 100; Some 101; Some 102; Some 103; None]%nat
           ex_packet ex_dest 16 3 7%nat 9 1%nat); try reflexivity.
  - vm_compute. split; [reflexivity|discriminate].
  - simpl. lia.
  - lia.
  - intros k Hk. assert (k = 0)%nat as -> by lia. vm_compute. discriminate.
Defined.

(** X10. Without memory a submit fails before it touches the packet.
    When the pending cannot be allocated, the failure is logged and the
    user's callback is invoked once, with no comm point and the status
    NETEVENT_CLOSED.  When the pending is allocated but its timer cannot
    be created, the pending is freed and the callback is invoked in the
    same way, without a log line.  In both cases the packet, the index,
    the pendings and the random source are as before, and nothing is
    sent. *)
Theorem submit_without_memory env w o packet addr addrlen timeout cb cb_arg :
  w_outnet w = Some o ->
  env_alloc env (w_asked w) && env_alloc env (S (w_asked w)) = false ->
  pending_udp_query env (Some the_outnet) packet addr addrlen timeout
                    cb cb_arg w =
    Done packet
      {| w_outnet := w_outnet w; w_pend := w_pend w;
         w_trace :=
           w_trace w ++
           (if env_alloc env (w_asked w) then []
            else [EvLog LOG_ERR "malloc failure" []]) ++
           [EvCallback cb None cb_arg NETEVENT_CLOSED];
         w_asked :=
           if env_alloc env (w_asked w) then S (S (w_asked w))
           else S (w_asked w);
         w_rnd := w_rnd w |}.
Proof.
  intros Ho Hal. unfold pending_udp_query, new_pending. run.
  destruct (env_alloc env (w_asked w)).
  - simpl in Hal. run. rewrite Ho. run. rewrite Hal. heap_run.
    rewrite delete_insert_id by apply fresh_not_live.
    reflexivity.
  - run. rewrite <- app_assoc. reflexivity.
Qed.

Lemma submit_without_memory_witness :
  pending_udp_query ex_env_nomem (Some the_outnet) ex_packet ex_dest 16 3
                    7%nat 9 ex_world =
    Done ex_packet
      {| w_outnet := w_outnet ex_world; w_pend := w_pend ex_world;
         w_trace :=
           w_trace ex_world ++
           (if env_alloc ex_env_nomem (w_asked ex_world) then []
            else [EvLog LOG_ERR "malloc failure" []]) ++
           [EvCallback 7%nat None 9 NETEVENT_CLOSED];
         w_asked :=
           if env_alloc ex_env_nomem (w_asked ex_world)
           then S (S (w_asked ex_world)) else S (w_asked ex_world);
         w_rnd := w_rnd ex_world |}.
Proof.
  apply (submit_without_memory ex_env_nomem ex_world ex_outnet);
    reflexivity.
Defined.

(** ** From the query to its reply *)

Lemma byte_at_memcpy dst src n i :
  (i < n)%nat -> byte_at (memcpy dst src n) i = byte_at src i.
Proof.
  intros Hi. unfold memcpy, byte_at, bytes_at.
  change (map (fun i0 => nth i0 src 0) (seq 0 n))
    with ((fun i0 => nth i0 src 0) <$> seq 0 n).
  rewrite (nth_lookup (_ ++ _)).
  rewrite lookup_app_l by (rewrite length_fmap, length_seq; done).
  rewrite list_lookup_fmap, lookup_seq_lt by done. reflexivity.
Qed.

Lemma load16_memcpy dst src n off :
  (S off < n)%nat -> load16 (memcpy dst src n) off = load16 src off.
Proof.
  intros H. unfold load16. by rewrite !byte_at_memcpy by lia.
Qed.

Lemma bytes_at_memcpy dst src n off len :
  (off + len <= n)%nat ->
  bytes_at (memcpy dst src n) off len = bytes_at src off len.
Proof.
  intros H. unfold bytes_at. apply map_ext_in. intros i Hi%in_seq.
  apply byte_at_memcpy. lia.
Qed.

(** The key of an address copy depends on the destination of the copy
    only where the copy does not reach: with every field of the family
    inside the first [addrlen] bytes, it is the key of the address. *)
Lemma key_tuple_copied pd junk addr addrlen :
  key_covered addr addrlen = true ->
  pend_addr pd = memcpy junk addr (Z.to_nat addrlen) ->
  pend_addrlen pd = addrlen ->
  key_tuple pd =
    pend_id pd :: addrlen :: sin_family addr ::
    (if sin_family addr =? AF_INET then
       sin_port addr :: bytes_at addr SIN_ADDR_OFF INET_SIZE
     else if sin_family addr =? AF_INET6 then
       sin_port addr :: bytes_at addr SIN6_ADDR_OFF INET6_SIZE
     else bytes_at addr 0 (Z.to_nat addrlen)).
Proof.
  unfold key_covered, key_tuple. intros Hcov Haddr Hlen.
  apply andb_true_iff in Hcov as [H2%Z.leb_le Hcov].
  rewrite Haddr, Hlen. unfold sin_family, sin_port.
  rewrite load16_memcpy by lia. fold (sin_family addr).
  f_equal. f_equal. f_equal.
  unfold sin_family in *.
  destruct (load16 addr 0 =? AF_INET).
  { apply Z.leb_le in Hcov.
    rewrite load16_memcpy, bytes_at_memcpy;
      unfold SIN_ADDR_OFF, INET_SIZE; try lia. done. }
  destruct (load16 addr 0 =? AF_INET6).
  { apply Z.leb_le in Hcov.
    rewrite load16_memcpy, bytes_at_memcpy;
      unfold SIN6_ADDR_OFF, INET6_SIZE; try lia. done. }
  by rewrite bytes_at_memcpy by lia.
Qed.

Lemma lookup_key_matches env buf addr addrlen cb cb_arg c t :
  key_covered addr addrlen = true ->
  pending_cmp
    (lookup_key env buf {| reply_addr := addr; reply_addrlen := addrlen |})
    (with_timer
       (with_c (fresh_pending (LDNS_ID_WIRE buf) addr addrlen cb cb_arg) c)
       t) = 0.
Proof.
  intros Hcov. apply pending_cmp_zero_iff.
  rewrite (key_tuple_copied _ (env_stack_junk env) addr addrlen Hcov)
    by reflexivity.
  rewrite (key_tuple_copied _ (replicate SOCKADDR_STORAGE_SIZE 0) addr addrlen
             Hcov) by reflexivity.
  reflexivity.
Qed.

(** X11. The key that the reply handler builds for a datagram carrying
    the ID of a query, sent from the destination of that query, compares
    equal to the pending of the query, whatever the bytes of the handler's
    key held before it was filled in, as long as the address length
    covers the fields of the family (2 bytes for the family, 8 for an
    IPv4 address with its port, 24 for an IPv6 one). *)
Theorem reply_key_matches_query env buf addr addrlen cb cb_arg c t :
  key_covered addr addrlen = true ->
  pending_cmp
    (lookup_key env buf {| reply_addr := addr; reply_addrlen := addrlen |})
    (with_timer
       (with_c (fresh_pending (LDNS_ID_WIRE buf) addr addrlen cb cb_arg) c)
       t) = 0.
Proof. exact (lookup_key_matches env buf addr addrlen cb cb_arg c t). Qed.

Lemma reply_key_matches_query_witness :
  pending_cmp
    (lookup_key ex_env ex_datagram
                {| reply_addr := ex_dest; reply_addrlen := 16 |})
    (with_timer
       (with_c (fresh_pending (LDNS_ID_WIRE ex_datagram) ex_dest 16 7%nat 9)
               (Some 100%nat))
       (Some {| tm_timeout := Some 3 |})) = 0.
Proof.
  apply (reply_key_matches_query ex_env ex_datagram ex_dest 16 7%nat 9
           (Some 100%nat) (Some {| tm_timeout := Some 3 |})).
  reflexivity.
Defined.

(** With an address length that stops short of the address, here the
    first four bytes of an IPv4 destination, the comparison reads bytes
    that the copy has not written: zeroes in the pending, and in the
    handler's key whatever the stack held. *)
Example reply_key_short_address :
  key_covered [2; 0; 0; 53] 4 = false /\
  pending_cmp
    (lookup_key ex_env ex_datagram
                {| reply_addr := [2; 0; 0; 53]; reply_addrlen := 4 |})
    (fresh_pending (LDNS_ID_WIRE ex_datagram) [2; 0; 0; 53] 4 7%nat 9) = 255.
Proof. vm_compute. done. Qed.

(** X12. A query and its answer.  When a submit in a well-formed
    dispatcher has registered a query with a socket, a datagram that
    carries the ID of the packet that was sent and comes from the
    destination of the query, received on that socket, is delivered: the
    user's callback is invoked, for the first time for this query, with
    the socket, the user's argument and the status NETEVENT_NOERROR, and
    afterwards the pendings and the index are what they were before the
    submit. *)
Theorem submit_then_reply env w packet addr addrlen timeout cb cb_arg
    packet' w1 p pd c buf :
  dispatcher_ok w = true ->
  key_covered addr addrlen = true ->
  pending_udp_query env (Some the_outnet) packet addr addrlen timeout
                    cb cb_arg w = Done packet' w1 ->
  w_pend w !! p = None ->
  w_pend w1 !! p = Some pd ->
  pend_c pd = Some c ->
  LDNS_ID_WIRE buf = LDNS_ID_WIRE packet' ->
  callbacks (w_trace w1) = callbacks (w_trace w) /\
  exists w2 o,
    outnet_udp_cb env c (Some the_outnet) NETEVENT_NOERROR
      (Some {| reply_addr := addr; reply_addrlen := addrlen |})
      (with_datagram w1 buf) = Done 0 w2 /\
    callbacks (w_trace w2) =
      callbacks (w_trace w) ++
      [EvCallback cb (Some c) cb_arg NETEVENT_NOERROR] /\
    w_pend w2 = w_pend w /\
    w_outnet w = Some o /\
    w_outnet w2 = Some (with_udp_buff o (Some buf)) /\
    dispatcher_ok w2 = true.
Proof.
  intros Hok Hcov Hrun Hold Hnew Hc Hid.
  pose proof (pending_udp_query_keeps_ok _ _ _ _ _ _ _ _ _ _ Hok Hrun)
    as [Hok1 _].
  apply pending_udp_query_done in Hrun as (_ & _ & evs & Htr & Hrun).
  destruct Hrun as [(Hh & _)
                   |(c' & o & tree & Ho & Htree & Hon & Hh & Hsr & Hcb & _)].
  { rewrite Hh in Hnew. congruence. }
  set (pend := fresh (dom (w_pend w))) in *.
  assert (p = pend) as ->.
  { destruct (decide (p = pend)) as [|Hne]; [done|].
    rewrite Hh, lookup_insert_ne in Hnew by done. congruence. }
  rewrite Hh, lookup_insert_eq in Hnew. injection Hnew as <-.
  cbn [pend_c with_timer with_c] in Hc. subst c'.
  split; [by rewrite Htr, callbacks_app, Hcb, app_nil_r|].
  apply dispatcher_ok_spec in Hok1
    as (o1 & buf1 & tree1 & Ho1 & Hbuf1 & Htree1 & Hidx1 & Hnodes1 & H41 & H61).
  rewrite Hon in Ho1. injection Ho1 as <-.
  cbn [pending_tree with_tree] in Htree1. injection Htree1 as <-.
  eexists _, o. split.
  { eapply (outnet_udp_cb_hit env (with_datagram w1 buf)
              (with_udp_buff (with_tree o (Some (tree ++ [pend]))) (Some buf))
              buf (tree ++ [pend]) c _ pend
              (with_timer
                 (with_c (fresh_pending (LDNS_ID_WIRE packet') addr addrlen
                                        cb cb_arg) (Some c))
                 (Some {| tm_timeout := Some timeout |})));
      try reflexivity.
    - unfold with_datagram. cbn [w_outnet]. by rewrite Hon.
    - exact Hidx1.
    - apply in_or_app. right. by left.
    - cbn [with_datagram w_pend]. rewrite Hh. apply lookup_insert_eq.
    - rewrite <- Hid. apply lookup_key_matches. done. }
  cbn [w_trace w_pend w_outnet with_datagram].
  split.
  { rewrite Htr, !callbacks_app, Hcb, app_nil_r. reflexivity. }
  split.
  { rewrite Hh, delete_insert_id by apply fresh_not_live. done. }
  split; [done|].
  assert (rbtree_delete (w_pend w1) (tree ++ [pend])
            (with_timer
               (with_c (fresh_pending (LDNS_ID_WIRE packet') addr addrlen
                                      cb cb_arg) (Some c))
               (Some {| tm_timeout := Some timeout |})) = tree) as Hdel.
  { apply rbtree_delete_last; [|done].
    rewrite Hh. apply lookup_insert_eq. }
  rewrite Hdel.
  assert (with_tree
            (with_udp_buff (with_tree o (Some (tree ++ [pend]))) (Some buf))
            (Some tree) = with_udp_buff o (Some buf)) as Hsame
    by (destruct o; simpl in *; by subst).
  rewrite Hsame. split; [done|].
  apply dispatcher_ok_spec in Hok
    as (o0 & buf0 & tree0 & Ho0 & Hbuf0 & Htree0 & Hidx0 & Hnodes0 & H40 & H60).
  assert (o0 = o) as -> by congruence.
  assert (tree0 = tree) as -> by congruence.
  apply dispatcher_ok_spec.
  exists (with_udp_buff o (Some buf)), buf, tree.
  cbn [w_outnet w_pend].
  rewrite Hh, delete_insert_id by apply fresh_not_live. done.
Qed.

Lemma submit_then_reply_witness :
  callbacks (w_trace ex_after_submit) = callbacks (w_trace ex_world) /\
  exists w2 o,
    outnet_udp_cb ex_env 100%nat (Some the_outnet) NETEVENT_NOERROR
      (Some {| reply_addr := ex_dest; reply_addrlen := 16 |})
      (with_datagram ex_after_submit [52; 87; 129; 128]) = Done 0 w2 /\
    callbacks (w_trace w2) =
      callbacks (w_trace ex_world) ++
      [EvCallback 7%nat (Some 100%nat) 9 NETEVENT_NOERROR] /\
    w_pend w2 = w_pend ex_world /\
    w_outnet ex_world = Some o /\
    w_outnet w2 = Some (with_udp_buff o (Some [52; 87; 129; 128])) /\
    dispatcher_ok w2 = true.
Proof.
  apply (submit_then_reply ex_env ex_world ex_packet ex_dest 16 3 7%nat 9
           ex_packet_sent ex_after_submit 1%nat ex_submitted 100%nat
           [52; 87; 129; 128]);
    vm_compute; reflexivity.
Defined.

(** ** The handlers in a well-formed dispatcher *)

Lemma remove_first_length (f : ptr -> bool) tree q :
  In q tree -> f q = true ->
  S (length (remove_first f tree)) = length tree.
Proof.
  induction tree as [|a t IH]; simpl; [done|].
  intros Hin Hf. destruct (f a) eqn:Ha; [done|].
  destruct Hin as [->|Hin]; [congruence|].
  simpl. f_equal. by apply IH.
Qed.

Lemma rbtree_delete_length (h : gmap ptr pending) tree p pd :
  In p tree -> h !! p = Some pd ->
  S (length (rbtree_delete h tree pd)) = length tree.
Proof.
  intros Hin Hp. apply (remove_first_length _ _ p Hin).
  unfold key_matches. rewrite Hp. apply Z.eqb_eq, pending_cmp_refl.
Qed.

Lemma dispatcher_ok_with_datagram w buf :
  dispatcher_ok w = true -> dispatcher_ok (with_datagram w buf) = true.
Proof.
  intros Hok. apply dispatcher_ok_spec in Hok
    as (o & buf0 & tree & Ho & Hbuf & Htree & Hidx & Hnodes & H4 & H6).
  apply dispatcher_ok_spec.
  exists (with_udp_buff o (Some buf)), buf, tree.
  unfold with_datagram. cbn [w_outnet w_pend]. rewrite Ho. done.
Qed.

(** What the handler does with a datagram that hits a pending on another
    socket than the one chosen for it. *)
Lemma outnet_udp_cb_other_port env w o buf tree c reply p pd :
  w_outnet w = Some o ->
  udp_buff o = Some buf ->
  pending_tree o = Some tree ->
  rbtree_search (w_pend w) tree (lookup_key env buf reply) = Some p ->
  w_pend w !! p = Some pd ->
  pend_c pd <> Some c ->
  outnet_udp_cb env c (Some the_outnet) NETEVENT_NOERROR (Some reply) w =
    Done 0 (logged w
      [EvLog VERB_ALGO "answer cb" [];
       EvLog VERB_ALGO "Incoming reply id=%4.4x addr=" [LDNS_ID_WIRE buf];
       EvLogAddr (pend_addr (lookup_key env buf reply)) (reply_addrlen reply);
       EvLog VERB_ALGO "lookup size is %d entries" [Z.of_nat (length tree)];
       EvLog VERB_ALGO "received udp reply." [];
       EvLog VERB_DETAIL "received reply id,addr on wrong port. dropped." []]).
Proof.
  intros Ho Hbuf Htree Hfound Hp Hc.
  unfold outnet_udp_cb. run. rewrite Z.eqb_refl. run.
  rewrite Ho. run. rewrite Hbuf. run. rewrite Htree. run.
  rewrite Hfound. run. rewrite Hp. run.
  rewrite bool_decide_eq_true_2 by done. run.
  rewrite <- !app_assoc. reflexivity.
Qed.

(** The reply handler in a well-formed dispatcher. *)
Lemma outnet_udp_cb_ok env w c error reply :
  dispatcher_ok w = true ->
  exists w' evs,
    outnet_udp_cb env c (Some the_outnet) error (Some reply) w = Done 0 w' /\
    dispatcher_ok w' = true /\
    w_trace w' = w_trace w ++ evs /\
    List.filter is_send evs = [] /\
    w_asked w' = w_asked w /\ w_rnd w' = w_rnd w /\
    ((callbacks evs = [] /\ w_pend w' = w_pend w /\ w_outnet w' = w_outnet w)
     \/
     (exists p pd,
        w_pend w !! p = Some pd /\ pend_c pd = Some c /\
        callbacks evs =
          [EvCallback (pend_cb pd) (Some c) (pend_cb_arg pd)
                      NETEVENT_NOERROR] /\
        w_pend w' = delete p (w_pend w) /\
        S (pending_count w') = pending_count w)).
Proof.
  intros Hok. pose proof Hok as Hok'.
  apply dispatcher_ok_spec in Hok'
    as (o & buf & tree & Ho & Hbuf & Htree & Hidx & Hnodes & H4 & H6).
  destruct (Z.eqb_spec error NETEVENT_NOERROR) as [->|Herr].
  2:{ exists (logged w [EvLog VERB_ALGO "answer cb" [];
                        EvLog LOG_INFO "outnetudp got udp error %d" [error]]).
      eexists. split.
      { unfold outnet_udp_cb, bind, emit, ret, logged.
        destruct (Z.eqb_spec error NETEVENT_NOERROR) as [E|_]; [done|].
        simpl. by rewrite <- app_assoc. }
      split; [done|]. split; [reflexivity|]. split; [done|].
      split; [done|]. split; [done|]. left. done. }
  destruct (rbtree_search (w_pend w) tree (lookup_key env buf reply))
    as [p|] eqn:Hs.
  2:{ eexists (logged w _), _. split.
      { by apply (outnet_udp_cb_miss env w o buf tree c reply). }
      split; [done|]. split; [reflexivity|]. split; [done|].
      split; [done|]. split; [done|]. left. done. }
  pose proof Hs as Hfound. unfold rbtree_search in Hfound.
  apply find_some in Hfound as [Hin Hm].
  unfold key_matches in Hm.
  destruct (w_pend w !! p) as [pd|] eqn:Hp; [|done].
  apply Z.eqb_eq in Hm.
  destruct (decide (pend_c pd = Some c)) as [Hc|Hc].
  - destruct (node_ok_timer _ p pd (Hnodes p Hin) Hp) as [[t Ht] _].
    eexists _, _. split.
    { by apply (outnet_udp_cb_hit env w o buf tree c reply p pd t). }
    cbn [w_trace w_pend w_outnet w_asked w_rnd].
    split; [by apply (dispatcher_ok_after_delete w o buf tree p pd)|].
    split; [reflexivity|]. split; [done|]. split; [done|]. split; [done|].
    right. exists p, pd.
    split; [done|]. split; [done|]. split; [done|]. split; [done|].
    unfold pending_count. cbn [w_outnet pending_tree with_tree].
    rewrite Ho, Htree. by apply (rbtree_delete_length _ tree p pd).
  - eexists (logged w _), _. split.
    { by apply (outnet_udp_cb_other_port env w o buf tree c reply p pd). }
    split; [done|]. split; [reflexivity|]. split; [done|].
    split; [done|]. split; [done|]. left. done.
Qed.

(** X13. In a well-formed dispatcher the reply handler returns 0
    whatever the reactor reports, be it an error or a datagram with any
    contents from any address: it hands no packet to a socket, asks
    nothing of its environment and leaves the dispatcher well formed.  It
    calls the user at most once, and when it does, it is with the status
    NETEVENT_NOERROR, on the socket the datagram was received on, for a
    pending that was sent on that socket and that is freed by the time the
    handler returns. *)
Theorem reply_handler_keeps_dispatcher env w c error reply :
  dispatcher_ok w = true ->
  exists w' evs,
    outnet_udp_cb env c (Some the_outnet) error (Some reply) w = Done 0 w' /\
    dispatcher_ok w' = true /\
    w_trace w' = w_trace w ++ evs /\
    List.filter is_send evs = [] /\
    w_asked w' = w_asked w /\ w_rnd w' = w_rnd w /\
    ((callbacks evs = [] /\ w_pend w' = w_pend w /\ w_outnet w' = w_outnet w)
     \/
     (exists p pd,
        w_pend w !! p = Some pd /\ pend_c pd = Some c /\
        callbacks evs =
          [EvCallback (pend_cb pd) (Some c) (pend_cb_arg pd)
                      NETEVENT_NOERROR] /\
        w_pend w' = delete p (w_pend w) /\
        S (pending_count w') = pending_count w)).
Proof. exact (outnet_udp_cb_ok env w c error reply). Qed.

Lemma reply_handler_keeps_dispatcher_witness :
  exists w' evs,
    outnet_udp_cb ex_env 100%nat (Some the_outnet) NETEVENT_NOERROR
                  (Some ex_reply) ex_world = Done 0 w' /\
    dispatcher_ok w' = true /\
    w_trace w' = w_trace ex_world ++ evs /\
    List.filter is_send evs = [] /\
    w_asked w' = w_asked ex_world /\ w_rnd w' = w_rnd ex_world /\
    ((callbacks evs = [] /\ w_pend w' = w_pend ex_world /\
      w_outnet w' = w_outnet ex_world)
     \/
     (exists p pd,
        w_pend ex_world !! p = Some pd /\ pend_c pd = Some 100%nat /\
        callbacks evs =
          [EvCallback (pend_cb pd) (Some 100%nat) (pend_cb_arg pd)
                      NETEVENT_NOERROR] /\
        w_pend w' = delete p (w_pend ex_world) /\
        S (pending_count w') = pending_count ex_world)).
Proof.
  apply (reply_handler_keeps_dispatcher ex_env ex_world 100%nat
           NETEVENT_NOERROR ex_reply).
  reflexivity.
Defined.

(** The timeout handler on a pending of the index. *)
Lemma pending_udp_timer_cb_ok w o tree p :
  dispatcher_ok w = true ->
  w_outnet w = Some o ->
  pending_tree o = Some tree ->
  In p tree ->
  exists pd w',
    w_pend w !! p = Some pd /\
    pending_udp_timer_cb p w = Done tt w' /\
    w_trace w' =
      w_trace w ++
      [EvLog VERB_ALGO "timeout udp" [];
       EvCallback (pend_cb pd) (pend_c pd) (pend_cb_arg pd) NETEVENT_TIMEOUT;
       EvTimerDelete p] /\
    w_pend w' = delete p (w_pend w) /\
    w_asked w' = w_asked w /\ w_rnd w' = w_rnd w /\
    S (pending_count w') = pending_count w /\
    dispatcher_ok w' = true.
Proof.
  intros Hok Ho Htree Hin. pose proof Hok as Hok'.
  apply dispatcher_ok_spec in Hok'
    as (o' & buf & tree' & Ho' & Hbuf & Htree' & Hidx & Hnodes & H4 & H6).
  assert (o' = o) as -> by congruence.
  assert (tree' = tree) as -> by congruence.
  destruct (index_ok_live _ _ _ Hidx Hin) as [pd Hp].
  destruct (node_ok_timer _ p pd (Hnodes p Hin) Hp) as [[t Ht] Hback].
  exists pd. eexists. split; [done|]. split.
  { unfold pending_udp_timer_cb. run. rewrite Hp. run. rewrite Hp, Hback.
    match goal with |- context [pending_delete _ _ ?w0] =>
      rewrite (pending_delete_run w0 o tree p pd t Ho Htree Hp Ht)
    end.
    reflexivity. }
  cbn [w_trace w_pend w_asked w_rnd].
  split; [by rewrite <- !app_assoc|]. split; [done|].
  split; [done|]. split; [done|]. split.
  { unfold pending_count. cbn [w_outnet pending_tree with_tree].
    rewrite Ho, Htree. by apply (rbtree_delete_length _ tree p pd). }
  by apply (dispatcher_ok_after_delete w o buf tree p pd).
Qed.

(** X14. When the timer of a pending of a well-formed dispatcher runs
    out, the timeout handler returns after it has called the user once,
    with the socket and the argument of the pending and the status
    NETEVENT_TIMEOUT, and has then taken the pending out of the index,
    deleted its timer and freed it.  The index has one node less and the
    dispatcher is well formed. *)
Theorem timeout_keeps_dispatcher w o tree p :
  dispatcher_ok w = true ->
  w_outnet w = Some o ->
  pending_tree o = Some tree ->
  In p tree ->
  exists pd w',
    w_pend w !! p = Some pd /\
    pending_udp_timer_cb p w = Done tt w' /\
    w_trace w' =
      w_trace w ++
      [EvLog VERB_ALGO "timeout udp" [];
       EvCallback (pend_cb pd) (pend_c pd) (pend_cb_arg pd) NETEVENT_TIMEOUT;
       EvTimerDelete p] /\
    w_pend w' = delete p (w_pend w) /\
    w_asked w' = w_asked w /\ w_rnd w' = w_rnd w /\
    S (pending_count w') = pending_count w /\
    dispatcher_ok w' = true.
Proof. exact (pending_udp_timer_cb_ok w o tree p). Qed.

Lemma timeout_keeps_dispatcher_witness :
  exists pd w',
    w_pend ex_world !! 0%nat = Some pd /\
    pending_udp_timer_cb 0%nat ex_world = Done tt w' /\
    w_trace w' =
      w_trace ex_world ++
      [EvLog VERB_ALGO "timeout udp" [];
       EvCallback (pend_cb pd) (pend_c pd) (pend_cb_arg pd) NETEVENT_TIMEOUT;
       EvTimerDelete 0%nat] /\
    w_pend w' = delete 0%nat (w_pend ex_world) /\
    w_asked w' = w_asked ex_world /\ w_rnd w' = w_rnd ex_world /\
    S (pending_count w') = pending_count ex_world /\
    dispatcher_ok w' = true.
Proof.
  apply (timeout_keeps_dispatcher ex_world ex_outnet [0%nat] 0%nat);
    try reflexivity. by left.
Defined.

(** ** Runs *)

Lemma step_conserves env w a w' :
  dispatcher_ok w = true -> step env w a w' ->
  dispatcher_ok w' = true /\
  (length (callbacks (w_trace w')) + pending_count w' =
   length (callbacks (w_trace w)) + pending_count w +
   (if is_submit a then 1 else 0))%nat.
Proof.
  intros Hok Hstep. destruct Hstep as
    [w packet addr addrlen timeout cb cb_arg packet' w' Hrun
    |w c buf error reply r w' Hrun
    |w p o tree w' Ho Htree Hin Hrun]; cbn [is_submit].
  - pose proof (pending_udp_query_keeps_ok _ _ _ _ _ _ _ _ _ _ Hok Hrun)
      as [Hok' _].
    split; [done|].
    apply pending_udp_query_done in Hrun as (_ & _ & evs & Htr & Hrun).
    rewrite Htr, callbacks_app, length_app. unfold pending_count.
    destruct Hrun as [(Hh & Hon & c & Hcb & _)
                     |(c & o & tree & Ho & Htree & Hon & Hh & _ & Hcb & _)].
    + rewrite Hon, Hcb. simpl. lia.
    + rewrite Hon, Ho, Hcb, Htree. cbn [pending_tree with_tree].
      rewrite length_app. simpl. lia.
  - pose proof (dispatcher_ok_with_datagram w buf Hok) as Hokb.
    destruct (outnet_udp_cb_ok env _ c error reply Hokb)
      as (w2 & evs & Hrun2 & Hok2 & Htr & _ & _ & _ & Hcases).
    rewrite Hrun2 in Hrun. injection Hrun as <- <-.
    split; [done|].
    rewrite Htr, callbacks_app, length_app.
    change (w_trace (with_datagram w buf)) with (w_trace w).
    assert (pending_count (with_datagram w buf) = pending_count w) as Hcnt.
    { unfold pending_count, with_datagram. cbn [w_outnet].
      by destruct (w_outnet w). }
    destruct Hcases as [(Hcb & Hh & Hon)|(p & pd & _ & _ & Hcb & _ & Hn)].
    + rewrite Hcb. unfold pending_count at 1. rewrite Hon.
      fold (pending_count (with_datagram w buf)). rewrite Hcnt. simpl. lia.
    + rewrite Hcb. simpl. lia.
  - destruct (pending_udp_timer_cb_ok w o tree p Hok Ho Htree Hin)
      as (pd & w2 & Hp & Hrun2 & Htr & _ & _ & _ & Hn & Hok2).
    rewrite Hrun2 in Hrun. injection Hrun as <-.
    split; [done|].
    rewrite Htr, callbacks_app, length_app. simpl. lia.
Qed.

(** X15. No query is lost and none is answered twice.  Over any sequence
    of calls that return, starting in a well-formed dispatcher (submits,
    datagrams and receive errors reported on any socket, timers of
    pendings of the index running out), the dispatcher stays well formed
    and the number of user callbacks made plus the number of pendings in
    the index grows by exactly one with every submit: each query that was
    submitted is either still pending or has had its one callback. *)
Theorem run_conserves_queries env w l w' :
  dispatcher_ok w = true ->
  steps env w l w' ->
  dispatcher_ok w' = true /\
  (length (callbacks (w_trace w')) + pending_count w' =
   length (callbacks (w_trace w)) + pending_count w +
   length (List.filter is_submit l))%nat.
Proof.
  intros Hok Hsteps. induction Hsteps as [w|w a w1 l w2 Hstep Hsteps IH].
  - split; [done|]. simpl. lia.
  - destruct (step_conserves env w a w1 Hok Hstep) as [Hok1 Hcnt].
    destruct (IH Hok1) as [Hok2 Hcnt2]. split; [done|].
    simpl. destruct (is_submit a); simpl; lia.
Qed.

(** A submit, the reply to it, and the timeout of the query that was
    pending all along. *)
Lemma run_conserves_queries_witness :
  dispatcher_ok ex_after_expire = true /\
  (length (callbacks (w_trace ex_after_expire)) +
   pending_count ex_after_expire =
   length (callbacks (w_trace ex_world)) + pending_count ex_world +
   length (List.filter is_submit ex_calls))%nat.
Proof.
  apply (run_conserves_queries ex_env ex_world ex_calls ex_after_expire).
  - reflexivity.
  - apply (steps_cons ex_env ex_world _ ex_after_submit).
    { apply (step_submit ex_env ex_world _ _ _ _ _ _ ex_packet_sent).
      vm_compute. reflexivity. }
    apply (steps_cons ex_env ex_after_submit _ ex_after_reply).
    { apply (step_receive ex_env ex_after_submit _ _ _ _ 0).
      vm_compute. reflexivity. }
    apply (steps_cons ex_env ex_after_reply _ ex_after_expire);
      [|apply steps_nil].
    apply (step_expire ex_env ex_after_reply 0%nat
             (with_udp_buff ex_outnet (Some [52; 87; 129; 128])) [0%nat]);
      try (vm_compute; reflexivity). by left.
Defined.

(** ** Tearing down a dispatcher with queries in flight *)

Lemma pending_delete_unlinked w p pd t :
  w_pend w !! p = Some pd ->
  pend_timer pd = Some t ->
  pending_delete None (Some p) w =
    Done tt {| w_outnet := w_outnet w; w_pend := delete p (w_pend w);
               w_trace := w_trace w ++ [EvTimerDelete p];
               w_asked := w_asked w; w_rnd := w_rnd w |}.
Proof.
  intros Hp Ht. unfold pending_delete. run. rewrite Hp. run. rewrite Ht. run.
  rewrite Hp. reflexivity.
Qed.

Lemma lookup_foldl_delete_ne (h : gmap ptr pending) tree q :
  ~ In q tree -> foldl (fun h0 q0 => delete q0 h0) h tree !! q = h !! q.
Proof.
  revert h. induction tree as [|a t IH]; intros h Hq; simpl; [done|].
  rewrite IH by (intros ?; apply Hq; by right).
  apply lookup_delete_ne. intros ->. apply Hq. by left.
Qed.

Lemma lookup_foldl_delete_None (h : gmap ptr pending) tree q :
  h !! q = None -> foldl (fun h0 q0 => delete q0 h0) h tree !! q = None.
Proof.
  revert h. induction tree as [|a t IH]; intros h Hq; simpl; [done|].
  apply IH. destruct (decide (a = q)) as [->|Hne].
  - apply lookup_delete_eq.
  - by rewrite lookup_delete_ne.
Qed.

Lemma lookup_foldl_delete_eq (h : gmap ptr pending) tree q :
  In q tree -> foldl (fun h0 q0 => delete q0 h0) h tree !! q = None.
Proof.
  revert h. induction tree as [|a t IH]; intros h Hq; simpl; [done|].
  destruct (decide (a = q)) as [->|Hne].
  - apply lookup_foldl_delete_None, lookup_delete_eq.
  - apply IH. destruct Hq; [done|auto].
Qed.

(** The drain of the tree frees every node and deletes its timer; the
    nodes are not unlinked, and no callback is made. *)
Lemma traverse_postorder_run tree :
  forall w,
  NoDup tree ->
  (forall q, In q tree -> node_ok (w_pend w) q = true) ->
  traverse_postorder tree pending_node_del None w =
    Done tt {| w_outnet := w_outnet w;
               w_pend := foldl (fun h q => delete q h) (w_pend w) tree;
               w_trace := w_trace w ++ (EvTimerDelete <$> tree);
               w_asked := w_asked w; w_rnd := w_rnd w |}.
Proof.
  induction tree as [|a t IH]; intros w Hnd Hnodes.
  - simpl. unfold ret. rewrite app_nil_r. by destruct w.
  - apply NoDup_cons in Hnd as [Ha Hnd].
    pose proof (Hnodes a (or_introl eq_refl)) as Hna.
    unfold node_ok in Hna.
    destruct (w_pend w !! a) as [pd|] eqn:Hp; [|done].
    destruct (pend_timer pd) as [tm|] eqn:Ht;
      [|by destruct (pend_outnet pd)].
    cbn [traverse_postorder]. unfold pending_node_del.
    unfold bind at 1. rewrite (pending_delete_unlinked w a pd tm Hp Ht).
    rewrite IH; cbn [w_outnet w_pend w_trace w_asked w_rnd].
    + rewrite <- app_assoc. reflexivity.
    + done.
    + intros q Hq. rewrite node_ok_delete; [by apply Hnodes; right|].
      intros ->. apply Ha. by apply list_elem_of_In.
Qed.

Lemma pool_ok_bounds a n l :
  pool_ok a n = true -> a = Some l -> 0 <= n <= Z.of_nat (length l).
Proof.
  unfold pool_ok. intros H ->. rewrite !andb_true_iff in H.
  destruct H as [[?%Z.leb_le ?%Z.leb_le] _]. lia.
Qed.

Lemma outside_network_delete_drains w o tree :
  dispatcher_ok w = true ->
  w_outnet w = Some o ->
  pending_tree o = Some tree ->
  outside_network_delete (Some the_outnet) w =
    Done tt {| w_outnet := None;
               w_pend := foldl (fun h q => delete q h) (w_pend w) tree;
               w_trace :=
                 w_trace w ++ (EvTimerDelete <$> tree) ++ teardown_events o;
               w_asked := w_asked w; w_rnd := w_rnd w |}.
Proof.
  intros Hok Ho Htree.
  apply dispatcher_ok_spec in Hok
    as (o' & buf & tree' & Ho' & Hbuf & Htree' & Hidx & Hnodes & H4 & H6).
  assert (o' = o) as -> by congruence.
  assert (tree' = tree) as -> by congruence.
  apply index_ok_spec in Hidx as (Hnd & _ & _).
  unfold outside_network_delete.
  unfold bind at 1. unfold deref_outnet at 1. rewrite Ho.
  unfold bind at 1. rewrite Htree.
  rewrite (traverse_postorder_run tree w Hnd Hnodes).
  unfold bind at 1.
  rewrite (port_deletes_run _ _ _ (fun l => pool_ok_bounds _ _ l H4)).
  unfold bind at 1.
  rewrite (port_deletes_run _ _ _ (fun l => pool_ok_bounds _ _ l H6)).
  run. unfold teardown_events. by rewrite <- !app_assoc.
Qed.

(** X16. Deleting a well-formed dispatcher with queries in flight drops
    them without a word to their users: every pending of the index is
    freed and its timer deleted, no callback is made and nothing is sent;
    then [comm_point_delete] is called on the entries of the IPv4 pool
    and of the IPv6 pool, in this order and each in index order, and the
    dispatcher is freed.  Pendings that are not in the index are not
    touched. *)
Theorem delete_drops_pending_queries w o tree :
  dispatcher_ok w = true ->
  w_outnet w = Some o ->
  pending_tree o = Some tree ->
  exists w' visited,
    outside_network_delete (Some the_outnet) w = Done tt w' /\
    w_outnet w' = None /\
    (forall q, In q tree -> w_pend w' !! q = None) /\
    (forall q, ~ In q tree -> w_pend w' !! q = w_pend w !! q) /\
    visited ≡ₚ tree /\
    w_trace w' =
      w_trace w ++ (EvTimerDelete <$> visited) ++
      port_deletes (udp4_ports o) (num_udp4 o) ++
      port_deletes (udp6_ports o) (num_udp6 o) ++ [EvFreeOutnet] /\
    callbacks (w_trace w') = callbacks (w_trace w) /\
    List.filter is_send (w_trace w') = List.filter is_send (w_trace w).
Proof.
  intros Hok Ho Htree. eexists _, tree.
  split; [by apply outside_network_delete_drains|].
  cbn [w_outnet w_pend w_trace].
  split; [done|]. split; [|split; [|split; [done|split; [done|]]]].
  - intros q Hq. by apply lookup_foldl_delete_eq.
  - intros q Hq. by apply lookup_foldl_delete_ne.
  - assert (forall l : list ptr,
              callbacks (EvTimerDelete <$> l) = [] /\
              List.filter is_send (EvTimerDelete <$> l) = []) as Hq
      by (induction l; done).
    assert (forall a n,
              callbacks (port_deletes a n) = [] /\
              List.filter is_send (port_deletes a n) = []) as Hp.
    { intros [l|] n; [|done]. cbn.
      induction (take (Z.to_nat n) l); done. }
    unfold teardown_events.
    rewrite !callbacks_app, !sends_app.
    rewrite (proj1 (Hq tree)), (proj2 (Hq tree)).
    rewrite !(proj1 (Hp _ _)), !(proj2 (Hp _ _)).
    cbn. by rewrite !app_nil_r.
Qed.

Lemma delete_drops_pending_queries_witness :
  exists w' visited,
    outside_network_delete (Some the_outnet) ex_world = Done tt w' /\
    w_outnet w' = None /\
    (forall q, In q [0%nat] -> w_pend w' !! q = None) /\
    (forall q, ~ In q [0%nat] -> w_pend w' !! q = w_pend ex_world !! q) /\
    visited ≡ₚ [0%nat] /\
    w_trace w' =
      w_trace ex_world ++ (EvTimerDelete <$> visited) ++
      port_deletes (udp4_ports ex_outnet) (num_udp4 ex_outnet) ++
      port_deletes (udp6_ports ex_outnet) (num_udp6 ex_outnet) ++
      [EvFreeOutnet] /\
    callbacks (w_trace w') = callbacks (w_trace ex_world) /\
    List.filter is_send (w_trace w') = List.filter is_send (w_trace ex_world).
Proof.
  apply (delete_drops_pending_queries ex_world ex_outnet [0%nat]);
    reflexivity.
Defined.

(** ** Opening the sockets of a range *)

Lemma getaddrinfo_calls_app tr1 tr2 :
  getaddrinfo_calls (tr1 ++ tr2) =
  getaddrinfo_calls tr1 ++ getaddrinfo_calls tr2.
Proof. unfold getaddrinfo_calls. apply omap_app. Qed.

(** One attempt: one call of [getaddrinfo], for the hinted port. *)
Lemma open_udp_port_range_calls env ifname hints porthint w :
  exists fd w' evs,
    open_udp_port_range env ifname hints porthint w = Done fd w' /\
    w_outnet w' = w_outnet w /\ w_pend w' = w_pend w /\
    w_trace w' = w_trace w ++ evs /\
    created evs = [] /\
    getaddrinfo_calls evs =
      [(ifname, if porthint =? -1 then None else Some porthint, hints)].
Proof.
  unfold open_udp_port_range. run.
  destruct (env_getaddrinfo env (w_asked w)) as [r res].
  destruct (negb (r =? 0) || negb res); run.
  - do 3 eexists. split; [reflexivity|]. cbn [w_outnet w_pend w_trace].
    split; [done|]. split; [done|].
    split; [rewrite <- app_assoc; reflexivity|]. done.
  - do 3 eexists. split; [reflexivity|]. cbn [w_outnet w_pend w_trace].
    split; [done|]. split; [done|].
    split; [rewrite <- app_assoc; reflexivity|]. done.
Qed.

Lemma coms_set_done coms i c w w' :
  coms_set (Some the_outnet) coms i c w = Done tt w' ->
  w_pend w' = w_pend w /\ w_trace w' = w_trace w /\
  w_outnet w' <> None.
Proof.
  unfold coms_set. run. destruct (w_outnet w) as [o|]; [|done]. run.
  destruct (fst coms).
  - unfold bind.
    destruct (array_set (udp4_ports o) (snd coms + i) c w) as [a w1|] eqn:E;
      [|done].
    unfold array_set in E. destruct (udp4_ports o); [|done].
    destruct (snd coms + i <? 0); [done|].
    destruct (_ <? _)%nat; [|done]. unfold ret in E. injection E as <- <-.
    unfold set_outnet. by intros [= <-].
  - unfold bind.
    destruct (array_set (udp6_ports o) (snd coms + i) c w) as [a w1|] eqn:E;
      [|done].
    unfold array_set in E. destruct (udp6_ports o); [|done].
    destruct (snd coms + i <? 0); [done|].
    destruct (_ <? _)%nat; [|done]. unfold ret in E. injection E as <- <-.
    unfold set_outnet. by intros [= <-].
Qed.

(** The attempts of the loop: one per iteration, on consecutive ports
    from the hint on, or all on a port left to the system. *)
Lemma make_udp_range_loop_calls env coms ifname hints n :
  forall porthint dn w d w',
  make_udp_range_loop env n coms ifname hints porthint (Some the_outnet) dn w
    = Done d w' ->
  0 <= dn -> dn + Z.of_nat n < 2 ^ 64 ->
  porthint = -1 \/ n = 0%nat \/ (0 <= porthint /\ porthint + Z.of_nat n <= 2 ^ 31) ->
  exists evs,
    w_trace w' = w_trace w ++ evs /\
    w_pend w' = w_pend w /\
    getaddrinfo_calls evs =
      (fun k => (ifname,
                 if porthint =? -1 then None else Some (porthint + Z.of_nat k),
                 hints)) <$> seq 0 n /\
    d = dn + Z.of_nat (length (created evs)) /\
    (length (created evs) <= n)%nat.
Proof.
  induction n as [|n IH]; intros porthint dn w d w' Hrun Hdn Hwrap Hport.
  - cbn in Hrun. unfold ret in Hrun. injection Hrun as <- <-.
    exists []. rewrite app_nil_r. cbn. repeat split; try done; lia.
  - cbn [make_udp_range_loop] in Hrun. unfold bind at 1 in Hrun.
    destruct (open_udp_port_range_calls env ifname hints porthint w)
      as (fd & w1 & evs1 & Hopen & Hon1 & Hp1 & Htr1 & Hcr1 & Hcalls1).
    rewrite Hopen in Hrun.
    set (porthint' := if negb (porthint =? -1) then to_int (porthint + 1)
                      else porthint) in *.
    assert (porthint' = -1 \/ n = 0%nat \/
            (0 <= porthint' /\ porthint' + Z.of_nat n <= 2 ^ 31)) as Hport'.
    { subst porthint'. destruct Hport as [->|[Hn|[H0 Hle]]]; [by left|lia|].
      destruct (Z.eqb_spec porthint (-1)) as [|_]; [lia|]. cbn [negb].
      destruct n as [|n]; [right; by left|]. right. right.
      rewrite to_int_small by lia. lia. }
    assert (forall k : nat,
              (if porthint' =? -1 then None
               else Some (porthint' + Z.of_nat k)) =
              (if porthint =? -1 then @None Z
               else Some (porthint + Z.of_nat (S k))) \/ n = 0%nat) as Hshift.
    { intros k. subst porthint'.
      destruct Hport as [->|[Hn|[H0 Hle]]]; [by left|lia|].
      destruct (Z.eqb_spec porthint (-1)) as [|_]; [lia|]. cbn [negb].
      destruct n as [|n]; [by right|]. left.
      rewrite to_int_small by lia.
      destruct (Z.eqb_spec (porthint + 1) (-1)); [lia|].
      f_equal. lia. }
    assert (forall evs2,
              getaddrinfo_calls evs2 =
                (fun k => (ifname,
                           if porthint' =? -1 then None
                           else Some (porthint' + Z.of_nat k), hints))
                <$> seq 0 n ->
              getaddrinfo_calls (evs1 ++ evs2) =
                (fun k => (ifname,
                           if porthint =? -1 then None
                           else Some (porthint + Z.of_nat k), hints))
                <$> seq 0 (S n)) as Hjoin.
    { intros evs2 H2. rewrite getaddrinfo_calls_app, Hcalls1, H2.
      cbn [seq fmap list_fmap app]. rewrite Z.add_0_r. f_equal.
      rewrite <- seq_shift, <- list_fmap_compose.
      apply list_fmap_ext. intros i k Hk. cbn.
      destruct (Hshift k) as [->| ->]; [done|].
      cbn in Hk. by rewrite lookup_nil in Hk. }
    destruct (fd =? -1).
    + apply IH in Hrun as (evs2 & Htr2 & Hp2 & Hcalls2 & Hd & Hlen);
        [|lia|lia|done].
      exists (evs1 ++ evs2).
      split; [by rewrite Htr2, Htr1, app_assoc|].
      split; [by rewrite Hp2|]. split; [by apply Hjoin|].
      rewrite created_app, Hcr1. cbn [app]. split; [done|]. lia.
    + revert Hrun. run. rewrite Hon1.
      destruct (w_outnet w) as [o|] eqn:Ho; [|done]. run.
      set (c := env_comm_point_create_udp env (w_asked w1)).
      match goal with |- context [coms_set ?on ?cm ?i ?x ?w0] =>
        destruct (coms_set on cm i x w0) as [[] w2|] eqn:Hset; [|done]
      end.
      apply coms_set_done in Hset as (Hp2 & Htr2 & _).
      cbn [w_pend w_trace] in Hp2, Htr2.
      intros Hrun.
      apply IH in Hrun as (evs3 & Htr3 & Hp3 & Hcalls3 & Hd & Hlen);
        [| destruct c; rewrite ?to_size_t_small; lia
         | destruct c; rewrite ?to_size_t_small; lia
         | done].
      exists (evs1 ++ EvCommPointCreate fd c :: evs3).
      split.
      { rewrite Htr3, Htr2, Htr1, <- !app_assoc. reflexivity. }
      split; [by rewrite Hp3, Hp2|].
      split.
      { apply Hjoin. exact Hcalls3. }
      rewrite created_app, Hcr1, created_cons_create. cbn [app].
      destruct c as [cp|]; cbn [app length].
      * rewrite to_size_t_small in Hd by lia. split; [lia|lia].
      * split; [lia|lia].
Qed.

(** X17. [make_udp_range] makes exactly [num_ports] attempts, and each
    attempt is one call of [getaddrinfo] for the interface, with the hints
    of the family that is asked for.  With a port hint the attempts are
    for the consecutive ports from the hint on, whether or not earlier
    attempts succeeded; with the hint -1 every attempt leaves the port to
    the system.  The result is the number of comm points that were
    created, which is at most [num_ports]. *)
Theorem make_udp_range_asks_consecutive_ports env coms ifname num_ports
    do_ip4 do_ip6 porthint w d w' :
  make_udp_range env coms ifname num_ports do_ip4 do_ip6 porthint
                 (Some the_outnet) w = Done d w' ->
  0 <= num_ports < 2 ^ 64 ->
  porthint = -1 \/ (0 <= porthint /\ porthint + num_ports <= 2 ^ 31) ->
  exists evs,
    w_trace w' = w_trace w ++ evs /\
    w_pend w' = w_pend w /\
    getaddrinfo_calls evs =
      (fun k => (ifname,
                 if porthint =? -1 then None else Some (porthint + Z.of_nat k),
                 udp_hints ifname do_ip4 do_ip6))
      <$> seq 0 (Z.to_nat num_ports) /\
    d = Z.of_nat (length (created evs)) /\
    d <= num_ports.
Proof.
  intros Hrun Hnp Hport. unfold make_udp_range in Hrun.
  apply make_udp_range_loop_calls in Hrun
    as (evs & Htr & Hp & Hcalls & Hd & Hlen); [|lia|lia|].
  - exists evs. split; [done|]. split; [done|].
    split; [exact Hcalls|]. split; lia.
  - destruct Hport as [->|[? ?]]; [by left|]. right. right. lia.
Qed.

Lemma make_udp_range_asks_consecutive_ports_witness :
  exists evs,
    w_trace ex_after_range = w_trace ex_world ++ evs /\
    w_pend ex_after_range = w_pend ex_world /\
    getaddrinfo_calls evs =
      (fun k => (None,
                 if 5300 =? -1 then None else Some (5300 + Z.of_nat k),
                 udp_hints None true false))
      <$> seq 0 (Z.to_nat 4) /\
    4 = Z.of_nat (length (created evs)) /\
    4 <= 4.
Proof.
  apply (make_udp_range_asks_consecutive_ports ex_env (Udp4, 0) None 4 true
           false 5300 ex_world 4 ex_after_range).
  - vm_compute. reflexivity.
  - lia.
  - right. lia.
Defined.

(** ** Building a dispatcher *)

(** The allocations of the members, when memory is at hand. *)
Lemma create_members_run env bufsize w o :
  w_outnet w = Some o ->
  (forall k, (k < 4)%nat -> env_alloc env (w_asked w + k) = true) ->
  create_members env (Some the_outnet) bufsize w =
    Done true
      {| w_outnet :=
           Some (with_tree
                   (with_udp6
                      (with_udp4
                         (with_udp_buff o
                            (Some (fresh_bytes env (w_asked w) bufsize)))
                         (Some (calloc_ports (to_size_t (num_udp4 o + 1))))
                         (num_udp4 o))
                      (Some (calloc_ports (to_size_t (num_udp6 o + 1))))
                      (num_udp6 o))
                   (Some []));
         w_pend := w_pend w; w_trace := w_trace w;
         w_asked := (w_asked w + 4)%nat; w_rnd := w_rnd w |}.
Proof.
  intros Ho Hal.
  pose proof (Hal 0%nat ltac:(lia)) as H0. rewrite Nat.add_0_r in H0.
  pose proof (Hal 1%nat ltac:(lia)) as H1.
  replace (w_asked w + 1)%nat with (S (w_asked w)) in H1 by lia.
  pose proof (Hal 2%nat ltac:(lia)) as H2.
  replace (w_asked w + 2)%nat with (S (S (w_asked w))) in H2 by lia.
  pose proof (Hal 3%nat ltac:(lia)) as H3.
  replace (w_asked w + 3)%nat with (S (S (S (w_asked w)))) in H3 by lia.
  unfold create_members, modify_outnet. run.
  rewrite H0. run. rewrite Ho. run. rewrite H1. run. rewrite H2. run.
  rewrite H3. run.
  replace (w_asked w + 4)%nat with (S (S (S (S (w_asked w))))) by lia.
  reflexivity.
Qed.

(** The members are all there only if every one of the four allocations
    succeeded. *)
Lemma create_members_true env bufsize w o w' :
  w_outnet w = Some o ->
  create_members env (Some the_outnet) bufsize w = Done true w' ->
  forall k, (k < 4)%nat -> env_alloc env (w_asked w + k) = true.
Proof.
  intros Ho. unfold create_members, modify_outnet. run.
  destruct (env_alloc env (w_asked w)) eqn:H0; run; [|done].
  rewrite Ho. run.
  destruct (env_alloc env (S (w_asked w))) eqn:H1; run; [|done].
  destruct (env_alloc env (S (S (w_asked w)))) eqn:H2; run; [|done].
  destruct (env_alloc env (S (S (S (w_asked w))))) eqn:H3; run; [|done].
  intros _ k Hk.
  destruct k as [|[|[|[|k]]]]; [| | | |lia].
  - by rewrite Nat.add_0_r.
  - by replace (w_asked w + 1)%nat with (S (w_asked w)) by lia.
  - by replace (w_asked w + 2)%nat with (S (S (w_asked w))) by lia.
  - by replace (w_asked w + 3)%nat with (S (S (S (w_asked w)))) by lia.
Qed.

Lemma is_open_port_deletes a n : List.filter is_open (port_deletes a n) = [].
Proof.
  destruct a as [l|]; [|done]. cbn. induction (take (Z.to_nat n) l); done.
Qed.

Lemma is_open_teardown o : List.filter is_open (teardown_events o) = [].
Proof.
  unfold teardown_events.
  by rewrite !List.filter_app, !is_open_port_deletes.
Qed.

(** [outside_network_create] when one of its five allocations fails. *)
Lemma outside_network_create_no_memory env cbase bufsize num_ports ifs num_ifs
    do_ip4 do_ip6 port_base w k :
  w_outnet w = None ->
  0 <= num_ports ->
  num_ifs <= Z.of_nat (length ifs) ->
  Z.max num_ifs 1 * num_ports + 1 < 2 ^ 64 ->
  (k < 5)%nat ->
  env_alloc env (w_asked w + k) = false ->
  exists w' evs,
    outside_network_create env cbase bufsize num_ports ifs num_ifs
                           do_ip4 do_ip6 port_base w = Done None w' /\
    w_outnet w' = None /\
    w_pend w' = w_pend w /\
    w_trace w' = w_trace w ++ evs /\
    In (EvLog LOG_ERR "malloc failed" []) evs /\
    List.filter is_open evs = [].
Proof.
  intros Hnone Hnp Hifs Hwrap Hk Hfail.
  pose proof (requested_nonneg env false ifs num_ifs do_ip4 num_ports Hnp)
    as Hr4.
  pose proof (requested_nonneg env true ifs num_ifs
                (if env_INET6 env then do_ip6 else false) num_ports Hnp) as Hr6.
  pose proof (requested_bound env false ifs num_ifs do_ip4 num_ports Hnp)
    as Hb4.
  pose proof (requested_bound env true ifs num_ifs
                (if env_INET6 env then do_ip6 else false) num_ports Hnp) as Hb6.
  set (req4 := requested env false ifs num_ifs do_ip4 num_ports) in *.
  set (req6 := requested env true ifs num_ifs
                 (if env_INET6 env then do_ip6 else false) num_ports) in *.
  unfold outside_network_create. run.
  destruct (env_alloc env (w_asked w)) eqn:Halloc; run.
  2:{ do 2 eexists. split; [reflexivity|]. cbn [w_outnet w_pend w_trace].
      split; [done|]. split; [done|]. split; [reflexivity|].
      split; [by left|done]. }
  rewrite Hnone. unfold modify_outnet. run.
  rewrite calc_num46_spec by done.
  fold req4 req6. run.
  cbn [with_udp4 with_udp6 zero_outnet base udp_buff udp4_ports udp6_ports
       num_udp4 num_udp6 pending_tree].
  match goal with
  | |- context [create_members env _ bufsize ?w0] =>
      destruct (create_members_spec env bufsize w0
                  {| base := cbase; udp_buff := None; udp4_ports := None;
                     num_udp4 := req4; udp6_ports := None; num_udp6 := req6;
                     pending_tree := None |})
        as (ok & w1 & o1 & Hrun & Ho1 & Hp1 & Ht1 & Hn4 & Hn6 & Htree & Hs4
            & Hs6 & Hok);
        try reflexivity;
      pose proof (create_members_true env bufsize w0 _ w1 eq_refl) as Htrue
  end.
  cbn [num_udp4 num_udp6 w_asked] in Hn4, Hn6, Hs4, Hs6, Hok, Htrue.
  rewrite Hrun. destruct ok; cbn [negb].
  { specialize (Htrue Hrun).
    destruct k as [|k]; [rewrite Nat.add_0_r in Hfail; congruence|].
    specialize (Htrue k ltac:(lia)).
    replace (S (w_asked w) + k)%nat with (w_asked w + S k)%nat in Htrue by lia.
    congruence. }
  run.
  erewrite outside_network_delete_run;
    [ | cbn [w_outnet]; exact Ho1 | exact Htree
      | intros l Hl; apply Hs4 in Hl; subst l;
        rewrite length_calloc_ports, to_size_t_small; lia
      | intros l Hl; apply Hs6 in Hl; subst l;
        rewrite length_calloc_ports, to_size_t_small; lia ].
  do 2 eexists. split; [reflexivity|]. cbn [w_outnet w_pend w_trace] in *.
  split; [done|]. split; [done|].
  split. { rewrite Ht1, <- app_assoc. reflexivity. }
  split; [by left|].
  change (List.filter is_open (?e :: ?t)) with (List.filter is_open t).
  apply is_open_teardown.
Qed.

(** X18. Without memory no socket is opened.  When the dispatcher, or
    one of its four members (the buffer, the two port arrays, the tree),
    cannot be allocated, [outside_network_create] logs "malloc failed" and
    returns NULL, with no dispatcher left behind; it has not called
    [getaddrinfo], created a socket or created a comm point. *)
Theorem create_without_memory env cbase bufsize num_ports ifs num_ifs
    do_ip4 do_ip6 port_base w k :
  w_outnet w = None ->
  0 <= num_ports ->
  num_ifs <= Z.of_nat (length ifs) ->
  Z.max num_ifs 1 * num_ports + 1 < 2 ^ 64 ->
  (k < 5)%nat ->
  env_alloc env (w_asked w + k) = false ->
  exists w' evs,
    outside_network_create env cbase bufsize num_ports ifs num_ifs
                           do_ip4 do_ip6 port_base w = Done None w' /\
    w_outnet w' = None /\
    w_pend w' = w_pend w /\
    w_trace w' = w_trace w ++ evs /\
    In (EvLog LOG_ERR "malloc failed" []) evs /\
    List.filter is_open evs = [].
Proof.
  exact (outside_network_create_no_memory env cbase bufsize num_ports ifs
           num_ifs do_ip4 do_ip6 port_base w k).
Qed.

Lemma create_without_memory_witness :
  exists w' evs,
    outside_network_create ex_env_nomem 0 16 4 [] 0 true false (-1) ex_empty
      = Done None w' /\
    w_outnet w' = None /\
    w_pend w' = w_pend ex_empty /\
    w_trace w' = w_trace ex_empty ++ evs /\
    In (EvLog LOG_ERR "malloc failed" []) evs /\
    List.filter is_open evs = [].
Proof.
  apply (create_without_memory ex_env_nomem 0 16 4 [] 0 true false (-1)
           ex_empty 0%nat); try reflexivity; try (simpl; lia).
Defined.

(** Opening the sockets changes the port arrays and their counts, and
    nothing else of the dispatcher. *)
Lemma create_ports_core env num_ports ifs num_ifs (do4 do6 : bool) port_base
    w o w' :
  w_outnet w = Some o ->
  num_udp4 o = requested env false ifs num_ifs do4 num_ports ->
  num_udp6 o = requested env true ifs num_ifs do6 num_ports ->
  udp4_ports o = Some (calloc_ports (to_size_t (num_udp4 o + 1))) ->
  udp6_ports o = Some (calloc_ports (to_size_t (num_udp6 o + 1))) ->
  pending_tree o = Some [] ->
  0 <= num_ports ->
  num_ifs <= Z.of_nat (length ifs) ->
  Z.max num_ifs 1 * num_ports + 1 < 2 ^ 64 ->
  create_ports env (Some the_outnet) num_ports ifs num_ifs do4 do6
               port_base w = Done (Some the_outnet) w' ->
  exists o',
    w_outnet w' = Some o' /\ base o' = base o /\
    udp_buff o' = udp_buff o /\ pending_tree o' = pending_tree o.
Proof.
  intros Ho Hn4 Hn6 Ha4 Ha6 Htree Hnp Hifs Hwrap.
  pose proof (requested_nonneg env false ifs num_ifs do4 num_ports Hnp) as Hr4.
  pose proof (requested_nonneg env true ifs num_ifs do6 num_ports Hnp) as Hr6.
  pose proof (requested_bound env false ifs num_ifs do4 num_ports Hnp) as Hb4.
  pose proof (requested_bound env true ifs num_ifs do6 num_ports Hnp) as Hb6.
  rewrite <- Hn4 in Hr4, Hb4. rewrite <- Hn6 in Hr6, Hb6.
  rewrite to_size_t_small in Ha4, Ha6 by lia.
  set (a4 := calloc_ports (num_udp4 o + 1)) in *.
  set (a6 := calloc_ports (num_udp6 o + 1)) in *.
  assert (length a4 = Z.to_nat (num_udp4 o + 1)) as Hl4
    by apply length_calloc_ports.
  assert (length a6 = Z.to_nat (num_udp6 o + 1)) as Hl6
    by apply length_calloc_ports.
  unfold create_ports.
  destruct (Z.eqb_spec num_ifs 0) as [Hzero|Hnz].
  - assert (num_udp4 o = if do4 then num_ports else 0) as Hq4
      by (rewrite Hn4; unfold requested; subst num_ifs; by destruct do4).
    assert (num_udp6 o = if do6 then num_ports else 0) as Hq6
      by (rewrite Hn6; unfold requested; subst num_ifs; by destruct do6).
    destruct (count_step env Udp6 do6 num_ports false true port_base w o a6
                Ho Ha6)
      as (w1 & b6 & cs6 & evs6 & Hrun6 & Ho1 & _);
      [ intros ->; exact Hq6 | lia | destruct do6; lia | ].
    cbn [set_count] in Hrun6. unfold bind at 1. rewrite Hrun6.
    destruct (count_step env Udp4 do4 num_ports true false port_base w1 _ a4
                Ho1 Ha4)
      as (w2 & b4 & cs4 & evs4 & Hrun4 & Ho2 & _);
      [ intros ->; exact Hq4 | lia | destruct do4; lia | ].
    cbn [set_count] in Hrun4. unfold bind at 1. rewrite Hrun4.
    run. rewrite Ho2. run.
    match goal with |- context [if ?b then _ else _] => destruct b end.
    + run.
      match goal with |- context [outside_network_delete ?on ?w0] =>
        destruct (outside_network_delete on w0) as [[] w3|]; done
      end.
    + run. intros [= <-]. eexists. split; [exact Ho2|]. done.
  - set (n := Z.to_nat num_ifs).
    assert (Z.of_nat n <= Z.max num_ifs 1) as Hn by lia.
    assert ((if do4 then nfam env false (take n ifs) * num_ports else 0)
            <= num_udp4 o) as Hq4.
    { rewrite Hn4. unfold requested, ifs_used. destruct do4; [|lia].
      destruct (Z.leb_spec num_ifs 0); [|subst n; lia].
      subst n. replace (Z.to_nat num_ifs) with 0%nat by lia.
      rewrite take_0, nfam_nil. lia. }
    assert ((if do6 then nfam env true (take n ifs) * num_ports else 0)
            <= num_udp6 o) as Hq6.
    { rewrite Hn6. unfold requested, ifs_used. destruct do6; [|lia].
      destruct (Z.leb_spec num_ifs 0); [|subst n; lia].
      subst n. replace (Z.to_nat num_ifs) with 0%nat by lia.
      rewrite take_0, nfam_nil. lia. }
    destruct (create_ifs_loop_spec env num_ports do4 do6 port_base ifs n
                0 0 0 w o a4 a6 Ho Ha4 Ha6)
      as (d4 & d6 & w1 & b4 & b6 & cs4 & cs6 & evs & Hrun & Ho1 & _);
      try (change (drop (Z.to_nat 0) ifs) with ifs; first [lia | nia]).
    unfold bind at 1. rewrite Hrun. run. rewrite Ho1. run.
    match goal with |- context [if ?b then _ else _] => destruct b end.
    + run.
      match goal with |- context [outside_network_delete ?on ?w0] =>
        destruct (outside_network_delete on w0) as [[] w3|]; done
      end.
    + unfold modify_outnet. run. rewrite Ho1. run. intros [= <-].
      eexists. split; [reflexivity|]. done.
Qed.

Lemma pool_ok_intro (l : list (option comm_point)) n :
  0 <= n ->
  (forall j, (j < Z.to_nat n)%nat -> exists c, l !! j = Some (Some c)) ->
  pool_ok (Some l) n = true.
Proof.
  intros Hn Hall. unfold pool_ok.
  assert (n <= Z.of_nat (length l)) as Hlen.
  { destruct (Z.to_nat n) as [|m] eqn:E; [lia|].
    destruct (Hall m ltac:(lia)) as [c Hc].
    apply lookup_lt_Some in Hc. lia. }
  rewrite !andb_true_iff. split; [split; lia|].
  apply forallb_forall. intros c Hc%list_elem_of_In.
  apply list_elem_of_lookup in Hc as [j Hj].
  pose proof (lookup_lt_Some _ _ _ Hj) as Hlt.
  rewrite length_take in Hlt.
  rewrite lookup_take_lt in Hj by lia.
  destruct (Hall j ltac:(lia)) as [cp Hcp]. rewrite Hcp in Hj.
  by injection Hj as <-.
Qed.

(** The dispatcher that a successful [outside_network_create] returns. *)
Lemma outside_network_create_done env cbase bufsize num_ports ifs num_ifs
    do_ip4 do_ip6 port_base w w' :
  w_outnet w = None ->
  0 <= num_ports ->
  num_ifs <= Z.of_nat (length ifs) ->
  Z.max num_ifs 1 * num_ports + 1 < 2 ^ 64 ->
  outside_network_create env cbase bufsize num_ports ifs num_ifs
                         do_ip4 do_ip6 port_base w
    = Done (Some the_outnet) w' ->
  exists o' evs,
    w_outnet w' = Some o' /\
    base o' = cbase /\
    udp_buff o' = Some (fresh_bytes env (S (w_asked w)) bufsize) /\
    pending_tree o' = Some [] /\
    num_udp4 o' = requested env false ifs num_ifs do_ip4 num_ports /\
    num_udp6 o' =
      requested env true ifs num_ifs
                (if env_INET6 env then do_ip6 else false) num_ports /\
    pool_ok (udp4_ports o') (num_udp4 o') = true /\
    pool_ok (udp6_ports o') (num_udp6 o') = true /\
    w_pend w' = w_pend w /\
    w_trace w' = w_trace w ++ evs /\
    Z.of_nat (length (created evs)) = num_udp4 o' + num_udp6 o' /\
    (forall k, (k < 5)%nat -> env_alloc env (w_asked w + k) = true).
Proof.
  intros Hnone Hnp Hifs Hwrap Hcreate.
  destruct (outside_network_create_spec env cbase bufsize num_ports ifs
              num_ifs do_ip4 do_ip6 port_base w Hnone Hnp Hifs Hwrap)
    as (r & w2 & evs & cs4 & cs6 & Hrun & Hp & Htr & Hmem & Hcnt & _ & _
        & Hres).
  rewrite Hcreate in Hrun. injection Hrun as <- <-.
  destruct Hres as (_ & E4 & E6 & o' & a4 & a6 & Ho' & Hn4 & Hn6 & Ha4 & Ha6
                    & Hf4 & Hf6).
  pose proof (requested_nonneg env false ifs num_ifs do_ip4 num_ports Hnp)
    as Hr4.
  pose proof (requested_nonneg env true ifs num_ifs
                (if env_INET6 env then do_ip6 else false) num_ports Hnp) as Hr6.
  pose proof (requested_bound env false ifs num_ifs do_ip4 num_ports Hnp)
    as Hb4.
  pose proof (requested_bound env true ifs num_ifs
                (if env_INET6 env then do_ip6 else false) num_ports Hnp) as Hb6.
  set (req4 := requested env false ifs num_ifs do_ip4 num_ports) in *.
  set (req6 := requested env true ifs num_ifs
                 (if env_INET6 env then do_ip6 else false) num_ports) in *.
  revert Hcreate. unfold outside_network_create. run.
  destruct (env_alloc env (w_asked w)) eqn:Halloc; run; [|done].
  rewrite Hnone. unfold modify_outnet. run.
  rewrite calc_num46_spec by done.
  fold req4 req6. run.
  cbn [with_udp4 with_udp6 zero_outnet base udp_buff udp4_ports udp6_ports
       num_udp4 num_udp6 pending_tree].
  match goal with
  | |- context [create_members env _ bufsize ?w0] =>
      destruct (create_members env (Some the_outnet) bufsize w0)
        as [ok w1|] eqn:Hmembers; [|done];
      pose proof (create_members_true env bufsize w0 _ w1 eq_refl) as Htrue;
      pose proof (create_members_run env bufsize w0 _ eq_refl) as Hexact
  end.
  cbn [w_asked w_pend w_trace w_rnd num_udp4 num_udp6] in Htrue, Hexact.
  destruct ok; cbn [negb].
  2:{ run.
      match goal with |- context [outside_network_delete ?on ?w0] =>
        destruct (outside_network_delete on w0) as [[] w3|]; done
      end. }
  specialize (Htrue Hmembers). rewrite (Hexact Htrue) in Hmembers.
  injection Hmembers as <-.
  intros Hports.
  eapply create_ports_core in Hports as (o1 & Ho1 & Hbase & Hbuf & Htree);
    try reflexivity; try done.
  rewrite Ho' in Ho1. injection Ho1 as <-.
  cbn in Hbase, Hbuf, Htree.
  exists o', evs.
  split; [done|]. split; [done|]. split; [done|]. split; [done|].
  split; [done|]. split; [done|].
  split.
  { rewrite Ha4, Hn4, <- E4. apply pool_ok_intro; [lia|].
    intros j Hj. rewrite Nat2Z.id in Hj.
    destruct (lookup_lt_is_Some_2 cs4 j Hj) as [c Hc]. eauto. }
  split.
  { rewrite Ha6, Hn6, <- E6. apply pool_ok_intro; [lia|].
    intros j Hj. rewrite Nat2Z.id in Hj.
    destruct (lookup_lt_is_Some_2 cs6 j Hj) as [c Hc]. eauto. }
  split; [done|]. split; [done|].
  split; [rewrite Hcnt, Hn4, Hn6; lia|].
  intros k Hk. destruct k as [|k]; [by rewrite Nat.add_0_r|].
  replace (w_asked w + S k)%nat with (S (w_asked w) + k)%nat by lia.
  apply Htrue. lia.
Qed.

(** X19. The dispatcher that [outside_network_create] returns.  When a
    call in a world without a dispatcher returns one, every allocation
    has succeeded and the dispatcher is well formed with nothing pending:
    it holds the comm base it was given, a buffer of [bufsize] bytes,
    whose contents nothing has initialised, and an empty tree; each
    family counts the sockets that were
    requested for it, [num_ports] for every interface of the family, or
    [num_ports] when no interface is given, and none when the family is
    switched off, as IPv6 always is in a build without INET6; the first
    entries of each pool, as many as it counts, are comm points, and these
    are all the comm points that were created. *)
Theorem create_builds_dispatcher env cbase bufsize num_ports ifs num_ifs
    do_ip4 do_ip6 port_base w w' :
  w_outnet w = None ->
  0 <= num_ports ->
  num_ifs <= Z.of_nat (length ifs) ->
  Z.max num_ifs 1 * num_ports + 1 < 2 ^ 64 ->
  outside_network_create env cbase bufsize num_ports ifs num_ifs
                         do_ip4 do_ip6 port_base w
    = Done (Some the_outnet) w' ->
  exists o' buf evs,
    w_outnet w' = Some o' /\
    base o' = cbase /\
    udp_buff o' = Some buf /\
    length buf = Z.to_nat bufsize /\
    pending_tree o' = Some [] /\
    num_udp4 o' = requested env false ifs num_ifs do_ip4 num_ports /\
    num_udp6 o' =
      requested env true ifs num_ifs
                (if env_INET6 env then do_ip6 else false) num_ports /\
    pool_ok (udp4_ports o') (num_udp4 o') = true /\
    pool_ok (udp6_ports o') (num_udp6 o') = true /\
    w_pend w' = w_pend w /\
    w_trace w' = w_trace w ++ evs /\
    Z.of_nat (length (created evs)) = num_udp4 o' + num_udp6 o' /\
    (forall k, (k < 5)%nat -> env_alloc env (w_asked w + k) = true) /\
    dispatcher_ok w' = true.
Proof.
  intros Hnone Hnp Hifs Hwrap Hcreate.
  destruct (outside_network_create_done env cbase bufsize num_ports ifs
              num_ifs do_ip4 do_ip6 port_base w w' Hnone Hnp Hifs Hwrap
              Hcreate)
    as (o' & evs & Ho' & Hbase & Hbuf & Htree & Hn4 & Hn6 & H4 & H6 & Hp
        & Htr & Hcnt & Hal).
  exists o', (fresh_bytes env (S (w_asked w)) bufsize), evs.
  split; [done|]. split; [done|]. split; [done|].
  split; [apply length_fresh_bytes|].
  repeat (split; [done|]).
  apply dispatcher_ok_spec.
  exists o', (fresh_bytes env (S (w_asked w)) bufsize), [].
  repeat (split; [done|]). done.
Qed.

Lemma create_builds_dispatcher_witness :
  exists o' buf evs,
    w_outnet ex_created_world = Some o' /\
    base o' = 0 /\
    udp_buff o' = Some buf /\
    length buf = Z.to_nat 16 /\
    pending_tree o' = Some [] /\
    num_udp4 o' = requested ex_env false [] 0 true 4 /\
    num_udp6 o' =
      requested ex_env true [] 0 (if env_INET6 ex_env then false else false)
                4 /\
    pool_ok (udp4_ports o') (num_udp4 o') = true /\
    pool_ok (udp6_ports o') (num_udp6 o') = true /\
    w_pend ex_created_world = w_pend ex_empty /\
    w_trace ex_created_world = w_trace ex_empty ++ evs /\
    Z.of_nat (length (created evs)) = num_udp4 o' + num_udp6 o' /\
    (forall k, (k < 5)%nat -> env_alloc ex_env (w_asked ex_empty + k) = true)
    /\ dispatcher_ok ex_created_world = true.
Proof.
  apply (create_builds_dispatcher ex_env 0 16 4 [] 0 true false (-1) ex_empty
           ex_created_world).
  - reflexivity.
  - lia.
  - simpl. lia.
  - simpl. lia.
  - vm_compute. reflexivity.
Defined.

(** X20. A negative interface count cannot succeed.  [calc_num46] takes
    a count below zero as "no interface given" and requests [num_ports]
    sockets for each family that is switched on, but
    [outside_network_create] opens the sockets of the system's choice only
    for a count of exactly zero; with a negative count it goes over no
    interface at all.  So when a socket is requested, the call returns
    NULL without having called [getaddrinfo] or created a socket or a comm
    point, and leaves no dispatcher. *)
Theorem create_negative_interface_count env cbase bufsize num_ports ifs
    num_ifs do_ip4 do_ip6 port_base w :
  w_outnet w = None ->
  num_ifs < 0 ->
  0 < num_ports ->
  num_ports + 1 < 2 ^ 64 ->
  do_ip4 || (env_INET6 env && do_ip6) = true ->
  exists w' evs,
    outside_network_create env cbase bufsize num_ports ifs num_ifs
                           do_ip4 do_ip6 port_base w = Done None w' /\
    w_outnet w' = None /\
    w_pend w' = w_pend w /\
    w_trace w' = w_trace w ++ evs /\
    List.filter is_open evs = [] /\
    (In (EvLog LOG_ERR "malloc failed" []) evs \/
     In (EvLog LOG_ERR "Could not open all ports on all interfaces" []) evs).
Proof.
  intros Hnone Hneg Hnp Hwrap Hfam.
  assert (Z.max num_ifs 1 * num_ports + 1 < 2 ^ 64) as Hwrap' by lia.
  assert (num_ifs <= Z.of_nat (length ifs)) as Hifs by lia.
  destruct (forallb (fun k => env_alloc env (w_asked w + k)) (seq 0 5))
    eqn:Hal.
  2:{ apply not_true_iff_false in Hal.
      assert (exists k, (k < 5)%nat /\ env_alloc env (w_asked w + k) = false)
        as (k & Hk & Hfail).
      { destruct (env_alloc env (w_asked w + 0)) eqn:E0; [|exists 0%nat; split; [lia|done]].
        destruct (env_alloc env (w_asked w + 1)) eqn:E1; [|exists 1%nat; split; [lia|done]].
        destruct (env_alloc env (w_asked w + 2)) eqn:E2; [|exists 2%nat; split; [lia|done]].
        destruct (env_alloc env (w_asked w + 3)) eqn:E3; [|exists 3%nat; split; [lia|done]].
        destruct (env_alloc env (w_asked w + 4)) eqn:E4; [|exists 4%nat; split; [lia|done]].
        destruct Hal. cbn. by rewrite E0, E1, E2, E3, E4. }
      destruct (outside_network_create_no_memory env cbase bufsize num_ports
                  ifs num_ifs do_ip4 do_ip6 port_base w k)
        as (w' & evs & Hrun & Hon & Hp & Htr & Hlog & Hopen);
        try done; try lia.
      exists w', evs. auto 10. }
  assert (forall k, (k < 5)%nat -> env_alloc env (w_asked w + k) = true)
    as Hall.
  { rewrite forallb_forall in Hal. intros k Hk. apply Hal, in_seq. lia. }
  pose proof (Hall 0%nat ltac:(lia)) as H0. rewrite Nat.add_0_r in H0.
  set (d6 := if env_INET6 env then do_ip6 else false) in *.
  assert (requested env false ifs num_ifs do_ip4 num_ports =
          if do_ip4 then num_ports else 0) as Hq4.
  { unfold requested. destruct do_ip4; [|done].
    by destruct (Z.leb_spec num_ifs 0); [|lia]. }
  assert (requested env true ifs num_ifs d6 num_ports =
          if d6 then num_ports else 0) as Hq6.
  { unfold requested. destruct d6; [|done].
    by destruct (Z.leb_spec num_ifs 0); [|lia]. }
  unfold outside_network_create. run. rewrite H0. run.
  rewrite Hnone. unfold modify_outnet. run.
  rewrite calc_num46_spec by (try done; lia).
  fold d6. rewrite Hq4, Hq6. run.
  cbn [with_udp4 with_udp6 zero_outnet base udp_buff udp4_ports udp6_ports
       num_udp4 num_udp6 pending_tree].
  match goal with
  | |- context [create_members env _ bufsize ?w0] =>
      rewrite (create_members_run env bufsize w0 _ eq_refl)
  end.
  2:{ intros k Hk. cbn [w_asked].
      replace (S (w_asked w) + k)%nat with (w_asked w + S k)%nat by lia.
      apply Hall. lia. }
  cbn [negb]. unfold create_ports.
  destruct (Z.eqb_spec num_ifs 0) as [|_]; [lia|].
  replace (Z.to_nat num_ifs) with 0%nat by lia.
  cbn [create_ifs_loop]. run.
  cbn [with_tree with_udp4 with_udp6 with_udp_buff num_udp4 num_udp6].
  assert (negb (0 =? (if d6 then num_ports else 0))
          || negb (0 =? (if do_ip4 then num_ports else 0)) = true) as ->.
  { assert (d6 = env_INET6 env && do_ip6) as Hd6
      by (unfold d6; by destruct (env_INET6 env)).
    rewrite <- Hd6 in Hfam.
    destruct do_ip4, d6; try done;
      destruct (Z.eqb_spec 0 num_ports); try lia; done. }
  run.
  erewrite outside_network_delete_run;
    [ | reflexivity | right; reflexivity
      | cbn [with_tree with_udp6 with_udp4 with_udp_buff udp4_ports
             udp6_ports num_udp4 num_udp6 pending_tree];
        intros l [= <-];
        rewrite length_calloc_ports, to_size_t_small;
        destruct do_ip4; lia
      | cbn [with_tree with_udp6 with_udp4 with_udp_buff udp4_ports
             udp6_ports num_udp4 num_udp6 pending_tree];
        intros l [= <-];
        rewrite length_calloc_ports, to_size_t_small;
        destruct d6; lia ].
  do 2 eexists. split; [reflexivity|]. cbn [w_outnet w_pend w_trace].
  split; [done|]. split; [done|].
  split. { rewrite <- app_assoc. reflexivity. }
  split.
  { change (List.filter is_open (?e :: ?t)) with (List.filter is_open t).
    apply is_open_teardown. }
  right. by left.
Qed.

Lemma create_negative_interface_count_witness :
  exists w' evs,
    outside_network_create ex_env 0 16 4 [] (-1) true false (-1) ex_empty
      = Done None w' /\
    w_outnet w' = None /\
    w_pend w' = w_pend ex_empty /\
    w_trace w' = w_trace ex_empty ++ evs /\
    List.filter is_open evs = [] /\
    (In (EvLog LOG_ERR "malloc failed" []) evs \/
     In (EvLog LOG_ERR "Could not open all ports on all interfaces" []) evs).
Proof.
  apply (create_negative_interface_count ex_env 0 16 4 [] (-1) true false
           (-1) ex_empty); try reflexivity; lia.
Defined.

(** ** Counting the sockets to request *)

Lemma nfam_split env l :
  nfam env false l + nfam env true l = Z.of_nat (length l).
Proof.
  induction l as [|x l IH]; [done|].
  rewrite !nfam_cons. cbn [length]. destruct (env_str_is_ip6 env x); cbn; lia.
Qed.

(** X21. [calc_num46] returns, for each family that is switched on, the
    multiplier times the number of interfaces of that family among the
    first [num_ifs], where an interface is of the IPv6 family when
    [str_is_ip6] says so and of the IPv4 family otherwise; a family that
    is switched off gets zero.  A count of interfaces that is zero or
    negative stands for one interface of each family.  With interfaces
    given, the two results add up to at most [num_ifs] times the
    multiplier, and to exactly that when both families are switched on. *)
Theorem calc_num46_counts env ifs num_ifs do_ip4 do_ip6 m w :
  num_ifs <= Z.of_nat (length ifs) ->
  0 <= m ->
  Z.max num_ifs 1 * m + 1 < 2 ^ 64 ->
  exists n4 n6,
    calc_num46 env ifs num_ifs do_ip4 do_ip6 m w = Done (n4, n6) w /\
    n4 = (if do_ip4 then
            if num_ifs <=? 0 then m
            else nfam env false (take (Z.to_nat num_ifs) ifs) * m
          else 0) /\
    n6 = (if do_ip6 then
            if num_ifs <=? 0 then m
            else nfam env true (take (Z.to_nat num_ifs) ifs) * m
          else 0) /\
    (0 < num_ifs ->
     n4 + n6 <= num_ifs * m /\
     (do_ip4 = true -> do_ip6 = true -> n4 + n6 = num_ifs * m)).
Proof.
  intros Hifs Hm Hwrap.
  exists (requested env false ifs num_ifs do_ip4 m),
         (requested env true ifs num_ifs do_ip6 m).
  split; [by apply calc_num46_spec|].
  split; [reflexivity|]. split; [reflexivity|].
  intros Hpos. unfold requested, ifs_used.
  destruct (Z.leb_spec num_ifs 0); [lia|].
  pose proof (nfam_split env (take (Z.to_nat num_ifs) ifs)) as Hsum.
  rewrite length_take in Hsum.
  replace (Z.of_nat (Z.to_nat num_ifs `min` length ifs)) with num_ifs
    in Hsum by lia.
  pose proof (nfam_nonneg env false (take (Z.to_nat num_ifs) ifs)).
  pose proof (nfam_nonneg env true (take (Z.to_nat num_ifs) ifs)).
  split.
  - destruct do_ip4, do_ip6; nia.
  - intros -> ->. nia.
Qed.

Lemma calc_num46_counts_witness :
  exists n4 n6,
    calc_num46 ex_env ["192.0.2.7"; "192.0.2.8"]%string 2 true true 4 ex_empty
      = Done (n4, n6) ex_empty /\
    n4 = (if true then
            if 2 <=? 0 then 4
            else nfam ex_env false
                   (take (Z.to_nat 2) ["192.0.2.7"; "192.0.2.8"]%string) * 4
          else 0) /\
    n6 = (if true then
            if 2 <=? 0 then 4
            else nfam ex_env true
                   (take (Z.to_nat 2) ["192.0.2.7"; "192.0.2.8"]%string) * 4
          else 0) /\
    (0 < 2 ->
     n4 + n6 <= 2 * 4 /\
     (true = true -> true = true -> n4 + n6 = 2 * 4)).
Proof.
  apply (calc_num46_counts ex_env ["192.0.2.7"; "192.0.2.8"]%string 2 true
           true 4 ex_empty); simpl; lia.
Defined.
